(** * scope.py: the NetCDF classic header reader

    A shallow embedding of [scope.py].  Python objects are modelled as
    follows.

    - [bytes] objects are [list byte]; Python [int]s are [Z].
    - A Python [str] is represented by its UTF-8 encoding, a [string];
      [str(b, 'utf-8')] validates the bytes and keeps them.
    - The open binary file [inp] is the file content together with the
      current offset; [inp.read(n)] returns at most [n] bytes and never
      raises at end of file.  It allocates its buffer of [n] bytes first:
      the interpreter refuses a request it cannot hold ([OverflowError])
      or cannot find memory for ([MemoryError]).  Both bounds belong to
      the machine and are parameters; a request of at most [alloc_floor]
      bytes is taken to be served on every machine.
    - The standard output is the list of what was written to it: a line
      for each [print], the dictionary for [pprint.pprint].  It takes
      every text: its encoding is UTF-8 and writing to it does not
      fail.
    - Exceptions are values of [error]; a raised exception leaves the file
      offset and the standard output where they were.
    - The dictionary [p] that every step of [header] mutates is passed
      explicitly and returned; insertion order is kept. *)

From Stdlib Require Import String Ascii.
From Stdlib Require Import ZArith List Bool Lia.
From Stdlib Require Import Strings.Byte.
From Stdlib Require Import DecimalString HexadecimalString.
Import ListNotations.

Local Open Scope string_scope.
Local Open Scope list_scope.
Local Open Scope Z_scope.

(** ** Exceptions *)

Inductive error : Type :=
| FormatError (msg : string)        (* class FormatError(Exception) *)
| StructError                       (* struct.error *)
| IndexError
| KeyError (key : string)
| NameError (name : string)
| AttributeError (attr : string)
| UnboundLocalError (name : string)
| UnicodeDecodeError
| ValueError
| AssertionError
| MemoryError
| OverflowError.

Inductive result (A : Type) : Type :=
| Ok (a : A)
| Raise (e : error).
Arguments Ok {A} a.
Arguments Raise {A} e.

(** ** Python values *)

#[warnings="-register-all"]
Inductive value : Type :=
| VInt (z : Z)
| VFloat (bits : Z)        (* the float with this IEEE-754 double pattern *)
| VStr (s : string)
| VBytes (b : list byte)
| VTuple (items : list value)
| VList (items : list value)
| VNone.

(** The dictionary [p], in insertion order. *)
Definition dict : Type := list (string * value).

Fixpoint setitem (k : string) (v : value) (d : dict) : dict :=
  match d with
  | [] => [(k, v)]
  | (k', v') :: d' =>
      if String.eqb k k' then (k, v) :: d' else (k', v') :: setitem k v d'
  end.

(** [p.attr = v] on a [dict] instance: there is no such attribute to
    set. *)
Definition setattr_dict (p : dict) (attr : string) (v : value) : result dict :=
  Raise (AttributeError attr).

(** Names bound at module level in [scope.py]. *)
Definition module_globals : list string :=
  ["pprint"; "struct"; "sys"; "FormatError"; "parse"; "header"; "magic";
   "numrecs"; "dim_list"; "dim"; "gatt_list"; "att_list"; "attr";
   "var_list"; "var"; "nelems"; "non_neg"; "nc_type"; "values"; "name";
   "dim_length"; "main"].

(** Reading a name inside a function whose local names are [locals]. *)
Definition load_name (locals : list string) (x : string) : result unit :=
  if existsb (String.eqb x) locals || existsb (String.eqb x) module_globals
  then Ok tt else Raise (NameError x).

(** ** The world: the open file and the standard output *)

(** What one call writes to the standard output. *)
Inductive output : Type :=
| Line (text : string)    (* print(text) *)
| Pretty (p : dict).      (* pprint.pprint(p) *)

Record world : Type := World {
  fdata : list byte;      (* content of the file opened by [parse] *)
  fpos : nat;             (* inp.tell() *)
  stdout : list output    (* what was written so far *)
}.

Definition remaining (w : world) : list byte := skipn (fpos w) (fdata w).

(** ** The monad of the decoding steps *)

Definition M (A : Type) : Type := world -> result A * world.

Definition ret {A} (a : A) : M A := fun w => (Ok a, w).

Definition raise {A} (e : error) : M A := fun w => (Raise e, w).

Definition bind {A B} (m : M A) (k : A -> M B) : M B :=
  fun w => match m w with
           | (Ok a, w') => k a w'
           | (Raise e, w') => (Raise e, w')
           end.

Declare Scope py_scope.
Delimit Scope py_scope with py.
Notation "x <- m ;; k" := (bind m (fun x => k))
  (at level 100, m at next level, right associativity) : py_scope.
Notation "m ;;; k" := (bind m (fun _ => k))
  (at level 100, right associativity) : py_scope.
Local Open Scope py_scope.

(** Lift a pure computation that may raise. *)
Definition lift {A} (r : result A) : M A :=
  match r with Ok a => ret a | Raise e => raise e end.

(** [[f(inp) for i in range(n)]] *)
Fixpoint repeatM {A} (n : nat) (m : M A) : M (list A) :=
  match n with
  | O => ret []
  | S n' => x <- m ;; xs <- repeatM n' m ;; ret (x :: xs)
  end.

(** ** The machine *)

(** The two bounds on the buffer of one [read]: the largest bytes object
    the interpreter can hold, and the largest one it finds memory for. *)
Record limits : Type := Limits {
  bytes_max : Z;
  alloc_max : Z
}.

(** A request of at most this size is served on every machine: the
    largest span a name can declare, 2^31 bytes. *)
Definition alloc_floor : Z := 2 ^ 31.

(** A machine that serves no request beyond [alloc_floor]; a 64-bit
    interpreter with no memory to spare. *)
Definition small_machine : limits := Limits (2 ^ 63 - 34) 0.

Section Machine.

Variable machine : limits.

(** Whether a request of [n] bytes gets its buffer. *)
Definition refusal (n : Z) : option error :=
  if n <=? alloc_floor then None
  else if bytes_max machine <? n then Some OverflowError
  else if alloc_max machine <? n then Some MemoryError
  else None.

(** ** File primitives *)

(** [inp.read(n)] on a buffered binary file: at most [n] bytes, all the
    rest for [-1], [ValueError] below; the buffer of [n] bytes is
    allocated before anything is read. *)
Definition read (n : Z) : M (list byte) := fun w =>
  if n <? -1 then (Raise ValueError, w)
  else
    match refusal n with
    | Some e => (Raise e, w)
    | None =>
        let got := if n =? -1 then remaining w
                   else firstn (Z.to_nat n) (remaining w) in
        (Ok got, World (fdata w) (fpos w + length got) (stdout w))
    end.

Definition tell : M Z := fun w => (Ok (Z.of_nat (fpos w)), w).

Definition print (line : string) : M unit := fun w =>
  (Ok tt, World (fdata w) (fpos w) (stdout w ++ [Line line])).

(** [pprint.pprint(p)] *)
Definition pprint (p : dict) : M unit := fun w =>
  (Ok tt, World (fdata w) (fpos w) (stdout w ++ [Pretty p])).

(** ** struct.unpack *)

Definition byte_val (b : byte) : Z := Z.of_N (Byte.to_N b).

(** Big-endian unsigned and two's complement readings of a byte string. *)
Definition be_uint (bs : list byte) : Z :=
  fold_left (fun acc b => acc * 256 + byte_val b) bs 0.

Definition be_sint (bs : list byte) : Z :=
  let u := be_uint bs in
  let bits := 8 * Z.of_nat (length bs) in
  if u <? 2 ^ (bits - 1) then u else u - 2 ^ bits.

(** [struct.unpack('>i', b)]: exactly four bytes, or [struct.error]. *)
Definition unpack_i (b : list byte) : result Z :=
  if Nat.eqb (length b) 4 then Ok (be_sint b) else Raise StructError.

(** ** str.format

    The part of [str.format] that the messages of [scope.py] exercise:
    literal text, doubled braces, and replacement fields
    [{name!conversion:spec}] whose name is empty (the next positional
    argument), a number (that positional argument) or anything else (a
    keyword argument; [scope.py] passes none, hence [KeyError]). *)

Inductive fmtarg : Type :=
| AInt (z : Z)
| ABytes (b : list byte).

Definition chr (a : ascii) : string := String a EmptyString.

Definition squote : ascii := ascii_of_nat 39.
Definition dquote : ascii := ascii_of_nat 34.
Definition backslash : ascii := ascii_of_nat 92.

Definition str_int (z : Z) : string :=
  DecimalString.NilZero.string_of_int (Z.to_int z).

Definition hex_int (z : Z) : string :=
  if z <? 0
  then ("-0x" ++ HexadecimalString.NilZero.string_of_int (Z.to_hex_int (- z)))%string
  else ("0x" ++ HexadecimalString.NilZero.string_of_int (Z.to_hex_int z))%string.

Definition hex_digit (n : Z) : ascii :=
  match String.get (Z.to_nat n) "0123456789abcdef" with
  | Some a => a
  | None => "?"%char
  end.

Definition repr_byte (quote : ascii) (b : byte) : string :=
  let a := ascii_of_byte b in
  let n := byte_val b in
  if Ascii.eqb a quote || Ascii.eqb a backslash then String backslash (chr a)
  else if n =? 9 then String backslash "t"
  else if n =? 10 then String backslash "n"
  else if n =? 13 then String backslash "r"
  else if (n <? 32) || (127 <=? n)
  then String backslash (String "x" (String (hex_digit (n / 16))
                                        (chr (hex_digit (n mod 16)))))
  else chr a.

Definition has_byte (a : ascii) (b : list byte) : bool :=
  existsb (fun x => Ascii.eqb (ascii_of_byte x) a) b.

(** [repr(b)] for [bytes]: single quotes, unless the bytes hold a single
    quote and no double quote. *)
Definition repr_bytes (b : list byte) : string :=
  let quote := if has_byte squote b && negb (has_byte dquote b)
               then dquote else squote in
  String "b" (String quote
    (fold_right (fun x acc => (repr_byte quote x ++ acc)%string) (chr quote) b)).

(** [str(v)], which is also [repr(v)] for the integers and bytes that
    [scope.py] formats. *)
Definition str_of (v : fmtarg) : string :=
  match v with
  | AInt z => str_int z
  | ABytes b => repr_bytes b
  end.

(** Split the text of a replacement field at the first [!] or [:]. *)
Fixpoint split_field (f : string) : string * string :=
  match f with
  | EmptyString => (EmptyString, EmptyString)
  | String c f' =>
      if Ascii.eqb c "!" || Ascii.eqb c ":" then (EmptyString, f)
      else let (name, rest) := split_field f' in (String c name, rest)
  end.

Definition is_digit (c : ascii) : bool :=
  let n := Z.of_nat (nat_of_ascii c) in (48 <=? n) && (n <=? 57).

Fixpoint all_digits (s : string) : bool :=
  match s with
  | EmptyString => true
  | String c s' => is_digit c && all_digits s'
  end.

Fixpoint decimal_value (s : string) (acc : nat) : nat :=
  match s with
  | EmptyString => acc
  | String c s' => decimal_value s' (10 * acc + (nat_of_ascii c - 48))%nat
  end.

(** Apply conversion and format specification to the selected argument. *)
Definition format_value (rest : string) (v : fmtarg) : result string :=
  match rest with
  | EmptyString => Ok (str_of v)
  | "!r" => Ok (str_of v)
  | ":#x" => match v with
             | AInt z => Ok (hex_int z)
             | _ => Raise ValueError
             end
  | _ => Raise ValueError
  end.

(** One replacement field: the rendered text and the next automatic
    index. *)
Definition render_field (f : string) (args : list fmtarg) (auto : nat)
  : result (string * nat) :=
  let (name, rest) := split_field f in
  match name with
  | EmptyString =>
      match nth_error args auto with
      | Some v => match format_value rest v with
                  | Ok s => Ok (s, S auto)
                  | Raise e => Raise e
                  end
      | None => Raise IndexError
      end
  | _ =>
      if all_digits name
      then match nth_error args (decimal_value name 0) with
           | Some v => match format_value rest v with
                       | Ok s => Ok (s, auto)
                       | Raise e => Raise e
                       end
           | None => Raise IndexError
           end
      else Raise (KeyError name)
  end.

(** [field] is [None] in literal text and holds the characters read since
    the opening brace inside a replacement field. *)
Fixpoint format_go (t : string) (field : option string)
    (args : list fmtarg) (auto : nat) (out : string) : result string :=
  match t with
  | EmptyString =>
      match field with None => Ok out | Some _ => Raise ValueError end
  | String c t' =>
      match field with
      | None =>
          if Ascii.eqb c "{" then
            match t' with
            | String "{" t'' => format_go t'' None args auto (out ++ "{")%string
            | _ => format_go t' (Some EmptyString) args auto out
            end
          else if Ascii.eqb c "}" then
            match t' with
            | String "}" t'' => format_go t'' None args auto (out ++ "}")%string
            | _ => Raise ValueError
            end
          else format_go t' None args auto (out ++ chr c)%string
      | Some f =>
          if Ascii.eqb c "}" then
            match render_field f args auto with
            | Ok (s, auto') => format_go t' None args auto' (out ++ s)%string
            | Raise e => Raise e
            end
          else format_go t' (Some (f ++ chr c)%string) args auto out
      end
  end.

Definition format (template : string) (args : list fmtarg) : result string :=
  format_go template None args O EmptyString.

(** ** UTF-8

    [str(b, 'utf-8')] decodes strictly: well-formed sequences only, no
    overlong forms, no surrogates, nothing above U+10FFFF. *)

Definition in_range (lo hi : Z) (b : byte) : bool :=
  (lo <=? byte_val b) && (byte_val b <=? hi).

Fixpoint utf8_valid (b : list byte) : bool :=
  match b with
  | [] => true
  | b0 :: t0 =>
      let v0 := byte_val b0 in
      if v0 <? 128 then utf8_valid t0
      else if (194 <=? v0) && (v0 <=? 223) then
        match t0 with
        | b1 :: t1 => in_range 128 191 b1 && utf8_valid t1
        | _ => false
        end
      else if (224 <=? v0) && (v0 <=? 239) then
        match t0 with
        | b1 :: b2 :: t2 =>
            in_range (if v0 =? 224 then 160 else 128)
                     (if v0 =? 237 then 159 else 191) b1
            && in_range 128 191 b2 && utf8_valid t2
        | _ => false
        end
      else if (240 <=? v0) && (v0 <=? 244) then
        match t0 with
        | b1 :: b2 :: b3 :: t3 =>
            in_range (if v0 =? 240 then 144 else 128)
                     (if v0 =? 244 then 143 else 191) b1
            && in_range 128 191 b2 && in_range 128 191 b3 && utf8_valid t3
        | _ => false
        end
      else false
  end.

Definition str_utf8 (b : list byte) : result string :=
  if utf8_valid b then Ok (string_of_list_byte b)
  else Raise UnicodeDecodeError.

(** ** Slices and comparisons of byte strings *)

(** [x[:n]] *)
Definition slice_to {A} (n : Z) (x : list A) : list A :=
  if 0 <=? n then firstn (Z.to_nat n) x
  else firstn (length x - Z.to_nat (- n)) x.

(** [x[n:]] *)
Definition slice_from {A} (n : Z) (x : list A) : list A :=
  if 0 <=? n then skipn (Z.to_nat n) x
  else skipn (length x - Z.to_nat (- n)) x.

Fixpoint bytes_eqb (a b : list byte) : bool :=
  match a, b with
  | [], [] => true
  | x :: a', y :: b' => Byte.eqb x y && bytes_eqb a' b'
  | _, _ => false
  end.

Definition startswith (b prefix : list byte) : bool :=
  bytes_eqb (firstn (length prefix) b) prefix.

Definition zeros4 : list byte := [x00; x00; x00; x00].

(** ** struct.unpack with a repeat count *)

(** [count] items of [size] bytes each, read in order. *)
Fixpoint unpack_items (count size : nat) (item : list byte -> value)
    (b : list byte) : list value :=
  match count with
  | O => []
  | S c => item (firstn size b) :: unpack_items c size item (skipn size b)
  end.

Definition numeric_items (n : Z) (size : nat) (item : list byte -> value)
    (b : list byte) : result (list value) :=
  if Z.of_nat (length b) =? n * Z.of_nat size
  then Ok (unpack_items (Z.to_nat n) size item b)
  else Raise StructError.

(** The double that holds the value of a single, both as bit patterns:
    the conversion is exact, and a NaN keeps its sign and payload and
    comes out quiet. *)
Definition double_of_single (b : Z) : Z :=
  let sign := (b / 2 ^ 31) * 2 ^ 63 in
  let e := (b / 2 ^ 23) mod 2 ^ 8 in
  let m := b mod 2 ^ 23 in
  if e =? 255 then
    if m =? 0 then sign + 2047 * 2 ^ 52
    else sign + 2047 * 2 ^ 52 + Z.lor (m * 2 ^ 29) (2 ^ 51)
  else if e =? 0 then
    if m =? 0 then sign
    else
      let k := Z.log2 m in
      sign + (k - 149 + 1023) * 2 ^ 52 + (m - 2 ^ k) * 2 ^ (52 - k)
  else sign + (e - 127 + 1023) * 2 ^ 52 + m * 2 ^ 29.

(** [struct.unpack('>{}{}'.format(n, f), b)]: the tuple of items.  A
    negative count or an unknown code is a bad format; a buffer of the
    wrong size is rejected. *)
Definition unpack_rep (n : Z) (f : string) (b : list byte)
  : result (list value) :=
  if n <? 0 then Raise StructError
  else if String.eqb f "b" then numeric_items n 1 (fun x => VInt (be_sint x)) b
  else if String.eqb f "s" then
    if Z.of_nat (length b) =? n then Ok [VBytes b] else Raise StructError
  else if String.eqb f "h" then numeric_items n 2 (fun x => VInt (be_sint x)) b
  else if String.eqb f "i" then numeric_items n 4 (fun x => VInt (be_sint x)) b
  else if String.eqb f "f" then
    numeric_items n 4 (fun x => VFloat (double_of_single (be_uint x))) b
  else if String.eqb f "d" then numeric_items n 8 (fun x => VFloat (be_uint x)) b
  else Raise StructError.

(** ** The decoding steps of scope.py *)

(** [raise FormatError(template.format(args))]: the message is built
    first, and building it may raise. *)
Definition raise_FormatError {A} (template : string) (args : list fmtarg)
  : M A :=
  msg <- lift (format template args) ;;
  raise (FormatError msg).

Definition non_neg : M Z :=
  b <- read 4 ;;
  n <- lift (unpack_i b) ;;
  if n <? 0
  then raise_FormatError "expected NON NEG, but found {!r}" [AInt n]
  else ret n.

Definition nelems : M Z := non_neg.

Definition dim_length : M Z :=
  b <- read 4 ;;
  dim_length <- lift (unpack_i b) ;;
  if dim_length <? 0
  then raise_FormatError "invalid dim_length {!r}" [AInt dim_length]
  else ret dim_length.

Definition nc_type : M string :=
  b <- read 4 ;;
  x <- lift (unpack_i b) ;;
  if negb (existsb (Z.eqb x) [1; 2; 3; 4; 5; 6])
  then raise_FormatError "invalid nc_type code {!r}" [AInt x]
  else if x =? 1 then ret "byte"
  else if x =? 2 then ret "char"
  else if x =? 3 then ret "short"
  else if x =? 4 then ret "int"
  else if x =? 5 then ret "float"
  else ret "double".

(** The chain of [if type == ...] statements at the head of [values]:
    each one that matches assigns [l] and [f]. *)
Definition type_layout (type : string) : option (Z * string) :=
  let lf := None in
  let lf := if String.eqb type "byte" then Some (1, "b") else lf in
  let lf := if String.eqb type "char" then Some (1, "s") else lf in
  let lf := if String.eqb type "short" then Some (2, "h") else lf in
  let lf := if String.eqb type "int" then Some (4, "i") else lf in
  let lf := if String.eqb type "float" then Some (4, "f") else lf in
  let lf := if String.eqb type "double" then Some (8, "d") else lf in
  lf.

(** [(vs,) = vs] *)
Definition unpack_single (vs : list value) : result value :=
  match vs with
  | [v] => Ok v
  | _ => Raise ValueError
  end.

(** [vs[:nelems]]: at this point of [values], [vs] is the tuple of items
    or, for [char], the bytes object taken out of it. *)
Definition slice_value (n : Z) (v : value) : result value :=
  match v with
  | VBytes b => Ok (VBytes (slice_to n b))
  | VTuple t => Ok (VTuple (slice_to n t))
  | _ => Raise ValueError
  end.

Definition values (type : string) (nelems : Z) : M value :=
  match type_layout type with
  | None => raise (UnboundLocalError "l")
  | Some (l, f) =>
      let length := nelems * l in
      let padded_length := 4 * ((length + 3) / 4) in
      let n := padded_length / l in
      b <- read padded_length ;;
      vs <- lift (unpack_rep n f b) ;;
      vs <- (if String.eqb type "char"
             then lift (unpack_single vs)
             else ret (VTuple vs)) ;;
      lift (slice_value nelems vs)
  end.

Definition name : M string :=
  b <- read 4 ;;
  nelems <- lift (unpack_i b) ;;
  if nelems <? 0
  then raise_FormatError "expected name nelems, but found {!r}" [AInt nelems]
  else
    let padded := 4 * ((nelems + 3) / 4) in
    padded_name <- read padded ;;
    name <- lift (str_utf8 (slice_to nelems padded_name)) ;;
    let padding := slice_from nelems padded_name in
    if negb (bytes_eqb padding (repeat x00 (length padding)))
    then raise (FormatError "wrong padding in name")
    else ret name.

Definition dim : M value :=
  n <- name ;;
  l <- dim_length ;;
  ret (VTuple [VStr n; VInt l]).

Definition attr : M value :=
  attr_name <- name ;;
  type <- nc_type ;;
  n <- nelems ;;
  vs <- values type n ;;
  ret (VTuple [VStr attr_name; vs]).

Definition att_list : M value :=
  attribute <- read 4 ;;
  if bytes_eqb attribute zeros4 then
    n <- read 4 ;;
    if negb (bytes_eqb n zeros4)
    then raise_FormatError "expected ABSENT for att_list, but found {!r}"
           [ABytes n]
    else
      (* p['gatt_list'] = 'absent', in a function without [p] *)
      lift (load_name ["inp"; "attribute"; "n"] "p") ;;;
      ret VNone
  else if negb (bytes_eqb attribute [x00; x00; x00; x0c])
  then raise_FormatError "expected NC_ATTRIBUTE for att_list, but found {!r}"
         [ABytes attribute]
  else
    n <- nelems ;;
    l <- repeatM (Z.to_nat n) attr ;;
    ret (VList l).

Definition var : M value :=
  var_name <- name ;;
  n <- nelems ;;
  dimensions <- repeatM (Z.to_nat n) non_neg ;;
  var_attr <- att_list ;;
  type <- nc_type ;;
  vsize <- non_neg ;;
  begin <- non_neg ;;
  ret (VTuple [VStr var_name; var_attr; VInt vsize; VInt begin]).

(** [magic[3]] *)
Definition bytes_getitem (b : list byte) (i : nat) : result Z :=
  match nth_error b i with
  | Some x => Ok (byte_val x)
  | None => Raise IndexError
  end.

Definition magic (p : dict) : M dict :=
  magic <- read 4 ;;
  if negb (startswith magic [x43; x44; x46])
  then raise (FormatError "Wrong magic number")
  else
    version <- lift (bytes_getitem magic 3) ;;
    if negb (existsb (Z.eqb version) [1; 2])
    then raise_FormatError "VERSION byte {:#x} is not acceptable"
           [AInt version]
    else ret (setitem "version" (VInt version) p).

Definition numrecs (p : dict) : M dict :=
  b <- read 4 ;;
  numrecs <- lift (unpack_i b) ;;
  if numrecs <? -1
  then raise_FormatError "numrecs field is {%d} which is invalid"
         [AInt numrecs]
  else if numrecs =? -1 then
    (* p.numrecs = 'streaming'; return *)
    p <- lift (setattr_dict p "numrecs" (VStr "streaming")) ;;
    ret p
  else if negb (0 <=? numrecs) then raise AssertionError
  else ret (setitem "numrecs" (VInt numrecs) p).

Definition dim_list (p : dict) : M dict :=
  dimension <- read 4 ;;
  if bytes_eqb dimension zeros4 then
    n <- read 4 ;;
    if negb (bytes_eqb n zeros4)
    then raise_FormatError "expected ABSENT for dim_list, but found {!r}"
           [ABytes n]
    else ret (setitem "dim_list" (VStr "absent") p)
  else if negb (bytes_eqb dimension [x00; x00; x00; x0a])
  then raise_FormatError "expected NC_DIMENSON for dim_list, but found {!r}"
         [ABytes dimension]
  else
    n <- nelems ;;
    l <- repeatM (Z.to_nat n) dim ;;
    ret (setitem "dim_list" (VList l) p).

Definition gatt_list (p : dict) : M dict :=
  v <- att_list ;;
  ret (setitem "gatt_list" v p).

Definition var_list (p : dict) : M dict :=
  b <- read 4 ;;
  if bytes_eqb b zeros4 then
    n <- read 4 ;;
    if negb (bytes_eqb n zeros4)
    then raise_FormatError "expected ABSENT for var_list, but found {!r}"
           [ABytes n]
    else ret (setitem "var_list" (VStr "absent") p)
  else if negb (bytes_eqb b [x00; x00; x00; x0b])
  then
    (* the message is formatted from [attribute], which [var_list] lacks *)
    lift (load_name ["p"; "inp"; "b"; "n"] "attribute") ;;;
    raise_FormatError "expected NC_VARIABLE for var_list, but found {!r}"
      [ABytes b]
  else
    n <- nelems ;;
    pos <- tell ;;
    line <- lift (format "{} vars at {}" [AInt n; AInt pos]) ;;
    print line ;;;
    l <- repeatM (Z.to_nat n) var ;;
    ret (setitem "var_list" (VList l) p).

Definition header (p : dict) : M dict :=
  p <- magic p ;;
  p <- numrecs p ;;
  p <- dim_list p ;;
  p <- gatt_list p ;;
  var_list p.

(** [parse(filename)]: the file is opened at offset 0, [header] fills an
    empty dictionary, and the dictionary is pretty-printed.  The result
    here is that dictionary. *)
Definition open_file (content : list byte) (out : list output) : world :=
  World content 0 out.

Definition parse (content : list byte) (out : list output)
  : result dict * world :=
  (p <- header [] ;;
   pprint p ;;;
   ret p) (open_file content out).

(** ** Predicates and inputs of the properties below *)

(** The header of the end-to-end scenario: version 1, no records, three
    absent lists. *)
Definition empty_header_bytes : list byte :=
  [x43; x44; x46; x01;  x00; x00; x00; x00;
   x00; x00; x00; x00;  x00; x00; x00; x00;
   x00; x00; x00; x00;  x00; x00; x00; x00;
   x00; x00; x00; x00;  x00; x00; x00; x00].

(** A header with absent dimensions, an empty attribute list, and a
    variable list that starts with tag 7. *)
Definition wrong_var_tag_bytes : list byte :=
  [x43; x44; x46; x01;  x00; x00; x00; x00;
   x00; x00; x00; x00;  x00; x00; x00; x00;
   x00; x00; x00; x0c;  x00; x00; x00; x00;
   x00; x00; x00; x07].

(** The names that [nc_type] returns. *)
Definition known_types : list string :=
  ["byte"; "char"; "short"; "int"; "float"; "double"].

(** The storage width [l] that [values] assigns for a type. *)
Definition width (type : string) : Z :=
  match type_layout type with
  | Some (l, _) => l
  | None => 0
  end.

(** A variable "v" over dimensions 0 and 1, with an empty attribute list,
    type float, vsize 20 and begin 256. *)
Definition var_record_float_0_1 : list byte :=
  [x00; x00; x00; x01;  x76; x00; x00; x00;
   x00; x00; x00; x02;  x00; x00; x00; x00;  x00; x00; x00; x01;
   x00; x00; x00; x0c;  x00; x00; x00; x00;
   x00; x00; x00; x05;
   x00; x00; x00; x14;  x00; x00; x01; x00].

(** The same variable over dimensions 3 and 7, of type double. *)
Definition var_record_double_3_7 : list byte :=
  [x00; x00; x00; x01;  x76; x00; x00; x00;
   x00; x00; x00; x02;  x00; x00; x00; x03;  x00; x00; x00; x07;
   x00; x00; x00; x0c;  x00; x00; x00; x00;
   x00; x00; x00; x06;
   x00; x00; x00; x14;  x00; x00; x01; x00].

(** Two worlds with the same file at the same offset. *)
Definition same_input (w1 w2 : world) : Prop :=
  fdata w1 = fdata w2 /\ fpos w1 = fpos w2.

(** A computation whose result and whose effect on the file are the same
    in two such worlds, whatever was printed before. *)
Definition bytes_only {A} (m : M A) : Prop :=
  forall w1 w2, same_input w1 w2 ->
    fst (m w1) = fst (m w2) /\ same_input (snd (m w1)) (snd (m w2)).

(** An attribute list of one attribute: the name "a", type int, one
    item, the value 7. *)
Definition one_attribute_bytes : list byte :=
  [x00; x00; x00; x0c;  x00; x00; x00; x01;
   x00; x00; x00; x01;  x61; x00; x00; x00;
   x00; x00; x00; x04;  x00; x00; x00; x01;
   x00; x00; x00; x07].

(** A header of 48 bytes whose one global attribute "a" declares
    2^31 - 1 doubles. *)
Definition huge_attribute_bytes : list byte :=
  [x43; x44; x46; x01;  x00; x00; x00; x00;
   x00; x00; x00; x00;  x00; x00; x00; x00;
   x00; x00; x00; x0c;  x00; x00; x00; x01;
   x00; x00; x00; x01;  x61; x00; x00; x00;
   x00; x00; x00; x06;  x7f; xff; xff; xff;
   x00; x00; x00; x00;  x00; x00; x00; x00].

(** A header that decodes: one dimension, no global attribute, one
    variable. *)
Definition small_header_bytes : list byte :=
  [x43; x44; x46; x01;  x00; x00; x00; x03;
   x00; x00; x00; x0a;  x00; x00; x00; x01;
   x00; x00; x00; x01;  x78; x00; x00; x00;  x00; x00; x00; x05;
   x00; x00; x00; x0c;  x00; x00; x00; x00;
   x00; x00; x00; x0b;  x00; x00; x00; x01]
  ++ var_record_float_0_1.

(** The dictionary that [header] fills from those bytes. *)
Definition small_header : dict :=
  [("version", VInt 1); ("numrecs", VInt 3);
   ("dim_list", VList [VTuple [VStr "x"; VInt 5]]);
   ("gatt_list", VList []);
   ("var_list", VList [VTuple [VStr "v"; VList []; VInt 20; VInt 256]])].

(** ** Outcomes, exceptions and shapes of results *)

(** Every outcome of [m]: a returned value satisfies [Q], a raised
    exception satisfies [E]. *)
Definition post {A} (m : M A) (Q : A -> Prop) (E : error -> Prop) : Prop :=
  forall w, match fst (m w) with
            | Ok a => Q a
            | Raise e => E e
            end.

(** The file is not changed, the offset does not go back, and an offset
    inside the file stays inside it. *)
Definition forward {A} (m : M A) : Prop :=
  forall w,
    fdata (snd (m w)) = fdata w
    /\ (fpos w <= fpos (snd (m w)))%nat
    /\ ((fpos w <= length (fdata w))%nat ->
        (fpos (snd (m w)) <= length (fdata w))%nat).

(** Nothing is printed. *)
Definition silent {A} (m : M A) : Prop :=
  forall w, stdout (snd (m w)) = stdout w.

(** Nothing is written, or one line. *)
Definition prints_at_most_one {A} (m : M A) : Prop :=
  forall w, stdout (snd (m w)) = stdout w
            \/ exists line, stdout (snd (m w)) = stdout w ++ [Line line].

(** The request of [n] bytes gets its buffer. *)
Definition served (n : Z) : Prop := refusal n = None.

(** What reading a 32-bit field can raise. *)
Definition field_error (e : error) : Prop :=
  e = StructError \/ exists msg, e = FormatError msg.

(** What reading a name or a dimension can raise. *)
Definition name_error (e : error) : Prop :=
  field_error e \/ e = UnicodeDecodeError.

(** What reading an attribute can raise: its value array may ask for a
    buffer that the machine refuses. *)
Definition record_error (e : error) : Prop :=
  name_error e \/ e = MemoryError \/ e = OverflowError.

(** What [att_list], [var] and the variable list can raise on top. *)
Definition list_error (e : error) : Prop :=
  record_error e \/ e = NameError "p" \/ e = NameError "attribute".

(** What [header] can raise. *)
Definition header_error (e : error) : Prop :=
  list_error e \/ e = IndexError \/ e = KeyError "%d"
  \/ e = AttributeError "numrecs".

Definition int32 (n : Z) : Prop := - 2 ^ 31 <= n < 2 ^ 31.

Definition count32 (n : Z) : Prop := 0 <= n < 2 ^ 31.

(** The tuple that [dim] builds. *)
Definition is_dim (v : value) : Prop :=
  exists s n, v = VTuple [VStr s; VInt n] /\ count32 n.

(** What [values] returns for [nelems] items of [type]. *)
Definition is_array (type : string) (nelems : Z) (v : value) : Prop :=
  if String.eqb type "char"
  then exists b, v = VBytes b /\ Z.of_nat (length b) = nelems
  else exists t, v = VTuple t /\ Z.of_nat (length t) = nelems.

(** The bytes of item [i] in a span of items of [size] bytes each. *)
Definition item_bytes (size i : nat) (b : list byte) : list byte :=
  firstn size (skipn (i * size) b).

(** The tuple of the first [n] items of the span [b], each decoded by
    [item] from its own bytes. *)
Definition tuple_of (n : Z) (size : nat) (item : list byte -> value)
    (b : list byte) : value :=
  VTuple (map (fun i => item (item_bytes size i b)) (seq 0 (Z.to_nat n))).

(** The value of [nelems] items of [type] held by the span [b]: signed
    big-endian integers for byte, short and int, IEEE-754 numbers for
    float and double, the bytes themselves for char. *)
Definition array_value (type : string) (nelems : Z) (b : list byte)
  : value :=
  if String.eqb type "char" then VBytes (firstn (Z.to_nat nelems) b)
  else if String.eqb type "byte" then
    tuple_of nelems 1 (fun x => VInt (be_sint x)) b
  else if String.eqb type "short" then
    tuple_of nelems 2 (fun x => VInt (be_sint x)) b
  else if String.eqb type "int" then
    tuple_of nelems 4 (fun x => VInt (be_sint x)) b
  else if String.eqb type "float" then
    tuple_of nelems 4 (fun x => VFloat (double_of_single (be_uint x))) b
  else tuple_of nelems 8 (fun x => VFloat (be_uint x)) b.

(** The tuple that [attr] builds. *)
Definition is_attr (v : value) : Prop :=
  exists s type n vs,
    v = VTuple [VStr s; vs] /\ In type known_types /\ count32 n
    /\ is_array type n vs.

(** The tuple that [var] builds. *)
Definition is_var (v : value) : Prop :=
  exists s atts vsize begin,
    v = VTuple [VStr s; VList atts; VInt vsize; VInt begin]
    /\ Forall is_attr atts /\ count32 vsize /\ count32 begin.

(** A [str] that came out of [str(b, 'utf-8')]. *)
Definition is_text (s : string) : Prop :=
  utf8_valid (list_byte_of_string s) = true.

(** A piece of template without replacement field. *)
Fixpoint no_braces (s : string) : bool :=
  match s with
  | EmptyString => true
  | String c s' =>
      negb (Ascii.eqb c "{") && negb (Ascii.eqb c "}") && no_braces s'
  end.


(** A list section of the header: the marker ['absent'] or a list whose
    items satisfy [P]. *)
Definition is_section (P : value -> Prop) (v : value) : Prop :=
  v = VStr "absent" \/ exists l, v = VList l /\ Forall P l.

(** The items of [l] are what successive runs of [m] return, the first
    one from the world [w], each next one from where the one before
    stopped, the last one stopping at [w']. *)
Inductive run_list {A} (m : M A) : world -> list A -> world -> Prop :=
| run_nil (w : world) : run_list m w [] w
| run_cons (w : world) (a : A) (w1 : world) (l : list A) (w' : world) :
    m w = (Ok a, w1) -> run_list m w1 l w' -> run_list m w (a :: l) w'.

(** The same open file, ending after its first [c] bytes. *)
Definition cut (c : nat) (w : world) : world :=
  World (firstn c (fdata w)) (fpos w) (stdout w).

Definition raises {A} (m : M A) (w : world) : Prop :=
  exists e w', m w = (Raise e, w').

(** [m] returns no value from a file that ends inside what it decodes:
    whenever [m] returns on a file, it raises on that file cut anywhere
    inside the bytes it consumed. *)
Definition cut_detected {A} (m : M A) : Prop :=
  forall w a w' c,
    m w = (Ok a, w') -> (fpos w <= c < fpos w')%nat -> raises m (cut c w).

(** On the cut file, [m] runs as on the whole file when it stops before
    the cut, and raises otherwise. *)
Definition detects {A} (m : M A) : Prop :=
  forall w a w' c,
    (fpos w <= c)%nat -> m w = (Ok a, w') ->
    ((fpos w' <= c)%nat /\ m (cut c w) = (Ok a, cut c w'))
    \/ raises m (cut c w).

(** As [detects], but [m] may also return from the cut file, and then
    it has read it to its end. *)
Definition survives {A} (m : M A) : Prop :=
  forall w a w' c,
    (fpos w <= c)%nat -> m w = (Ok a, w') ->
    ((fpos w' <= c)%nat /\ m (cut c w) = (Ok a, cut c w'))
    \/ raises m (cut c w)
    \/ exists a' w'', m (cut c w) = (Ok a', w'') /\ remaining w'' = [].

(** [m] raises when nothing is left to read. *)
Definition fails_at_end {A} (m : M A) : Prop :=
  forall w, remaining w = [] -> raises m w.

(** The dictionary that [header] fills from an empty one. *)
Definition is_header (h : dict) : Prop :=
  exists version numrecs dims gatts vars,
    h = [("version", VInt version); ("numrecs", VInt numrecs);
         ("dim_list", dims); ("gatt_list", VList gatts);
         ("var_list", vars)]
    /\ (version = 1 \/ version = 2)
    /\ count32 numrecs
    /\ is_section is_dim dims
    /\ Forall is_attr gatts
    /\ is_section is_var vars.

(** The zero bytes that follow a name of [n] bytes up to the next
    multiple of 4. *)
Definition name_padding (n : nat) : list byte :=
  repeat x00 (Z.to_nat (4 * ((Z.of_nat n + 3) / 4)) - n).

(** One dimension as it lies in a file: the length word of the name, the
    bytes of the name, their padding, and the word of the dimension
    length. *)
Definition dim_record : Type := list byte * list byte * list byte.

Definition dim_record_bytes (r : dim_record) : list byte :=
  let '(lw, text, dl) := r in
  lw ++ text ++ name_padding (length text) ++ dl.

Definition dim_record_ok (r : dim_record) : Prop :=
  let '(lw, text, dl) := r in
  length lw = 4%nat /\ be_sint lw = Z.of_nat (length text)
  /\ utf8_valid text = true
  /\ length dl = 4%nat /\ 0 <= be_sint dl.

(** The tuple that [dim] is to build from it. *)
Definition dim_record_value (r : dim_record) : value :=
  let '(lw, text, dl) := r in
  VTuple [VStr (string_of_list_byte text); VInt (be_sint dl)].
(** * Properties *)

(** ** Reading from the file *)

Lemma remaining_at (pre rest : list byte) (out : list output) :
  remaining (World (pre ++ rest) (length pre) out) = rest.
Proof.
  unfold remaining; simpl.
  rewrite skipn_app, skipn_all, Nat.sub_diag; reflexivity.
Qed.

Lemma remaining_advance (w : world) (k : nat) :
  remaining (World (fdata w) (fpos w + k) (stdout w))
  = skipn k (remaining w).
Proof.
  unfold remaining; simpl.
  rewrite skipn_skipn. f_equal. apply Nat.add_comm.
Qed.

(** Requests up to [alloc_floor] are served; so are those of the words
    and of the spans of names. *)
Lemma served_small (n : Z) : n <= alloc_floor -> served n.
Proof.
  intros H. unfold served, refusal.
  destruct (Z.leb_spec n alloc_floor); [reflexivity | lia].
Qed.

Lemma served_4 : served 4.
Proof. reflexivity. Qed.

Lemma served_span (L : Z) : L < 2 ^ 31 -> served (4 * ((L + 3) / 4)).
Proof.
  intros H. apply served_small. unfold alloc_floor.
  change (2 ^ 31) with 2147483648 in *.
  Z.to_euclidean_division_equations; lia.
Qed.

(** A request that is not served raises and leaves the world as it
    was. *)
Lemma read_refused (n : Z) (w : world) (e : error) :
  0 <= n -> refusal n = Some e -> read n w = (Raise e, w).
Proof.
  intros Hn He. unfold read.
  destruct (n <? -1) eqn:E1; [apply Z.ltb_lt in E1; lia|].
  rewrite He. reflexivity.
Qed.

Lemma refusal_kind (n : Z) (e : error) :
  refusal n = Some e -> e = MemoryError \/ e = OverflowError.
Proof.
  unfold refusal.
  destruct (n <=? alloc_floor); [discriminate|].
  destruct (bytes_max machine <? n); [intros H; injection H; auto|].
  destruct (alloc_max machine <? n); [intros H; injection H; auto|].
  discriminate.
Qed.

(** A served read of [n >= 0] bytes returns the next [n] bytes, or what
    is left of the file when that is less, and advances by what it
    returned. *)
Lemma read_nonneg (n : Z) (w : world) :
  0 <= n ->
  served n ->
  read n w =
  (Ok (firstn (Z.to_nat n) (remaining w)),
   World (fdata w)
         (fpos w + length (firstn (Z.to_nat n) (remaining w)))
         (stdout w)).
Proof.
  intros Hn Hs. unfold read.
  destruct (n <? -1) eqn:E1; [apply Z.ltb_lt in E1; lia|].
  destruct (n =? -1) eqn:E2; [apply Z.eqb_eq in E2; lia|].
  rewrite Hs. reflexivity.
Qed.

Lemma read_full (n : Z) (w : world) :
  0 <= n ->
  served n ->
  (Z.to_nat n <= length (remaining w))%nat ->
  read n w =
  (Ok (firstn (Z.to_nat n) (remaining w)),
   World (fdata w) (fpos w + Z.to_nat n) (stdout w)).
Proof.
  intros Hn Hs Hlen. rewrite read_nonneg by assumption.
  rewrite length_firstn, Nat.min_l by assumption. reflexivity.
Qed.

Lemma read_short (n : Z) (w : world) :
  0 <= n ->
  served n ->
  (length (remaining w) < Z.to_nat n)%nat ->
  read n w =
  (Ok (remaining w),
   World (fdata w) (fpos w + length (remaining w)) (stdout w)).
Proof.
  intros Hn Hs Hlen. rewrite read_nonneg by assumption.
  rewrite firstn_all2 by lia. reflexivity.
Qed.

Lemma bind_Ok {A B} (m : M A) (k : A -> M B) w a w' :
  m w = (Ok a, w') -> bind m k w = k a w'.
Proof. intros H; unfold bind; rewrite H; reflexivity. Qed.

Lemma bind_Raise {A B} (m : M A) (k : A -> M B) w e w' :
  m w = (Raise e, w') -> bind m k w = (Raise e, w').
Proof. intros H; unfold bind; rewrite H; reflexivity. Qed.

(** [parse] is [header] followed by [pprint]. *)
Lemma parse_Raise (content : list byte) (out : list output)
    (e : error) (w' : world) :
  header [] (open_file content out) = (Raise e, w') ->
  parse content out = (Raise e, w').
Proof. intros H. unfold parse. apply bind_Raise. exact H. Qed.

Lemma parse_Ok (content : list byte) (out : list output)
    (h : dict) (w' : world) :
  header [] (open_file content out) = (Ok h, w') ->
  parse content out
  = (Ok h, World (fdata w') (fpos w') (stdout w' ++ [Pretty h])).
Proof.
  intros H. unfold parse. rewrite (bind_Ok _ _ _ _ _ H). reflexivity.
Qed.

Lemma parse_fst (content : list byte) (out : list output) :
  fst (parse content out) = fst (header [] (open_file content out)).
Proof.
  destruct (header [] (open_file content out)) as [[h|e] w'] eqn:E.
  - rewrite (parse_Ok _ _ _ _ E). reflexivity.
  - rewrite (parse_Raise _ _ _ _ E). reflexivity.
Qed.

Lemma read_at (pre bs rest : list byte) (out : list output) (n : Z) :
  n = Z.of_nat (length bs) ->
  served n ->
  read n (World (pre ++ bs ++ rest) (length pre) out)
  = (Ok bs, World (pre ++ bs ++ rest) (length pre + length bs) out).
Proof.
  intros -> Hs. rewrite read_full; rewrite ?remaining_at, ?Nat2Z.id.
  - rewrite firstn_app, Nat.sub_diag, firstn_all; simpl.
    rewrite app_nil_r. reflexivity.
  - lia.
  - exact Hs.
  - rewrite length_app; lia.
Qed.

(** The read of a word of four bytes. *)
Lemma read_word_at (pre bs rest : list byte) (out : list output) :
  length bs = 4%nat ->
  read 4 (World (pre ++ bs ++ rest) (length pre) out)
  = (Ok bs, World (pre ++ bs ++ rest) (length pre + 4) out).
Proof.
  intros H. rewrite (read_at pre bs rest out 4); rewrite ?H;
    [reflexivity | reflexivity | exact served_4].
Qed.

Lemma world_at (pre bs rest : list byte) (out : list output) :
  World (pre ++ bs ++ rest) (length pre + length bs) out
  = World ((pre ++ bs) ++ rest) (length (pre ++ bs)) out.
Proof. rewrite length_app, app_assoc; reflexivity. Qed.

(** The message template of [numrecs] names a keyword argument: it never
    formats, whatever the arguments. *)
Lemma numrecs_message_never_formats (args : list fmtarg) :
  format "numrecs field is {%d} which is invalid" args = Raise (KeyError "%d").
Proof. reflexivity. Qed.

Lemma bytes_eqb_eq (a b : list byte) : bytes_eqb a b = true <-> a = b.
Proof.
  revert b; induction a as [|x a IH]; intros [|y b]; simpl.
  - tauto.
  - split; discriminate.
  - split; discriminate.
  - rewrite andb_true_iff, IH. split.
    + intros [Hx Hab]. apply byte_dec_bl in Hx. congruence.
    + intros H; injection H as Hx Hab. split; [apply byte_dec_lb|]; assumption.
Qed.

Lemma bytes_eqb_refl (a : list byte) : bytes_eqb a a = true.
Proof. apply bytes_eqb_eq; reflexivity. Qed.

(** ** Integers of four bytes *)

Lemma byte_val_range (b : byte) : 0 <= byte_val b < 256.
Proof.
  unfold byte_val. pose proof (Byte.to_N_bounded b). lia.
Qed.

Lemma be_uint_4 (a b c d : byte) :
  be_uint [a; b; c; d]
  = ((byte_val a * 256 + byte_val b) * 256 + byte_val c) * 256 + byte_val d.
Proof. unfold be_uint; simpl. lia. Qed.

Lemma length_4 {A} (l : list A) :
  length l = 4%nat -> exists a b c d, l = [a; b; c; d].
Proof.
  destruct l as [|a [|b [|c [|d [|e l]]]]]; try discriminate.
  intros _. eauto.
Qed.

Lemma be_sint_4_range (b : list byte) :
  length b = 4%nat -> int32 (be_sint b).
Proof.
  intros H. destruct (length_4 b H) as (x & y & z & t & ->).
  unfold int32, be_sint. rewrite be_uint_4.
  pose proof (byte_val_range x). pose proof (byte_val_range y).
  pose proof (byte_val_range z). pose proof (byte_val_range t).
  change (8 * Z.of_nat (length [x; y; z; t])) with 32.
  change (2 ^ (32 - 1)) with 2147483648.
  change (2 ^ 32) with 4294967296. change (2 ^ 31) with 2147483648.
  destruct (_ <? _) eqn:E;
    [apply Z.ltb_lt in E | apply Z.ltb_ge in E]; lia.
Qed.

Lemma unpack_i_inv (b : list byte) (n : Z) :
  unpack_i b = Ok n -> length b = 4%nat /\ n = be_sint b /\ int32 n.
Proof.
  unfold unpack_i. destruct (Nat.eqb_spec (length b) 4); [|discriminate].
  intros H; injection H as <-.
  repeat split; [assumption | apply be_sint_4_range; assumption ..].
Qed.

(** ** The empty header *)

(** An absent attribute list is never returned: after the tag and the
    zero count are read, [att_list] stores into [p], a name it does not
    have. *)
Lemma att_list_absent_raises (pre rest : list byte) (out : list output) :
  att_list (World (pre ++ zeros4 ++ zeros4 ++ rest) (length pre) out)
  = (Raise (NameError "p"),
     World (pre ++ zeros4 ++ zeros4 ++ rest) (length pre + 4 + 4) out).
Proof.
  unfold att_list.
  rewrite (bind_Ok _ _ _ _ _ (read_word_at pre zeros4 _ out eq_refl)).
  rewrite bytes_eqb_refl, world_at.
  rewrite (bind_Ok _ _ _ _ _ (read_word_at (pre ++ zeros4) zeros4 _ out eq_refl)).
  rewrite bytes_eqb_refl, <- app_assoc, length_app. reflexivity.
Qed.

(** C1. On the magic bytes 43 44 46 01, a zero record count and three
    absent lists, [parse] does not produce a header: the dimension list is
    recorded as absent, and the absent global attribute list then raises
    [NameError] for [p] at offset 24, before the variable list is read. *)
Theorem parse_empty_header_raises_NameError :
  parse empty_header_bytes []
  = (Raise (NameError "p"), World empty_header_bytes 24 []).
Proof. vm_compute. reflexivity. Qed.

(** ** The record count *)

Lemma numrecs_at_minus_one
    (p : dict) (pre rest : list byte) (out : list output) :
  numrecs p (World (pre ++ [xff; xff; xff; xff] ++ rest) (length pre) out)
  = (Raise (AttributeError "numrecs"),
     World (pre ++ [xff; xff; xff; xff] ++ rest) (length pre + 4) out).
Proof.
  unfold numrecs.
  rewrite (bind_Ok _ _ _ _ _ (read_word_at pre [xff; xff; xff; xff] _ out eq_refl)).
  reflexivity.
Qed.

(** After a good magic number the same bytes stop the whole decode. *)
Lemma parse_at_minus_one (rest : list byte) (out : list output) :
  parse ([x43; x44; x46; x01] ++ [xff; xff; xff; xff] ++ rest) out
  = (Raise (AttributeError "numrecs"),
     World ([x43; x44; x46; x01] ++ [xff; xff; xff; xff] ++ rest) 8 out).
Proof.
  apply parse_Raise. unfold header, open_file.
  rewrite (bind_Ok (magic []) _ _ [("version", VInt 1)]
             (World ([x43; x44; x46; x01] ++ [xff; xff; xff; xff] ++ rest)
                    (length [x43; x44; x46; x01]) out)).
  - rewrite (bind_Raise _ _ _ _ _
               (numrecs_at_minus_one [("version", VInt 1)]
                  [x43; x44; x46; x01] rest out)).
    reflexivity.
  - reflexivity.
Qed.

(** C2. Whatever precedes and follows them, the record count bytes
    FF FF FF FF make [numrecs] raise [AttributeError]: the streaming marker
    is assigned to an attribute of the dictionary [p] and nothing is
    stored.  After a good magic number [parse] ends there, at offset 8,
    without reading the dimension list. *)
Theorem numrecs_streaming_raises_AttributeError
    (p : dict) (pre rest : list byte) (out : list output) :
  numrecs p (World (pre ++ [xff; xff; xff; xff] ++ rest) (length pre) out)
  = (Raise (AttributeError "numrecs"),
     World (pre ++ [xff; xff; xff; xff] ++ rest) (length pre + 4) out)
  /\ parse ([x43; x44; x46; x01] ++ [xff; xff; xff; xff] ++ rest) out
     = (Raise (AttributeError "numrecs"),
        World ([x43; x44; x46; x01] ++ [xff; xff; xff; xff] ++ rest) 8 out).
Proof.
  split; [apply numrecs_at_minus_one | apply parse_at_minus_one].
Qed.

Lemma unpack_i_4 (b : list byte) :
  length b = 4%nat -> unpack_i b = Ok (be_sint b).
Proof. intros H; unfold unpack_i; rewrite H; reflexivity. Qed.

(** C3. A record count below -1 makes [numrecs] raise [KeyError]: the
    message of the intended [FormatError] is built from a template whose
    replacement field is a keyword, so no [FormatError] is raised and the
    exception does not carry the count. *)
Theorem numrecs_below_minus_one_raises_KeyError
    (p : dict) (pre b rest : list byte) (out : list output) :
  length b = 4%nat ->
  be_sint b < -1 ->
  numrecs p (World (pre ++ b ++ rest) (length pre) out)
  = (Raise (KeyError "%d"),
     World (pre ++ b ++ rest) (length pre + 4) out).
Proof.
  intros Hlen Hlt. unfold numrecs.
  rewrite (bind_Ok _ _ _ _ _ (read_word_at pre b rest out ltac:(lia))).
  rewrite unpack_i_4 by assumption. rewrite ?Hlen.
  unfold lift at 1, bind at 1, ret at 1.
  apply Z.ltb_lt in Hlt. rewrite Hlt.
  reflexivity.
Qed.

(** The whole decode on a record count of -2. *)
Lemma parse_minus_two_raises_KeyError :
  parse [x43; x44; x46; x01; xff; xff; xff; xfe] []
  = (Raise (KeyError "%d"),
     World [x43; x44; x46; x01; xff; xff; xff; xfe] 8 []).
Proof. vm_compute. reflexivity. Qed.

(** ** The variable list *)

Lemma bytes_eqb_neq (a b : list byte) : a <> b -> bytes_eqb a b = false.
Proof.
  intros H. destruct (bytes_eqb a b) eqn:E; [|reflexivity].
  apply bytes_eqb_eq in E. contradiction.
Qed.

(** C4. A variable-list tag that is neither zero nor 00 00 00 0B makes
    [var_list] raise [NameError]: the message of the intended
    [FormatError] refers to [attribute], which [var_list] does not
    bind. *)
Theorem var_list_wrong_tag_raises_NameError
    (p : dict) (pre b rest : list byte) (out : list output) :
  length b = 4%nat ->
  b <> zeros4 ->
  b <> [x00; x00; x00; x0b] ->
  var_list p (World (pre ++ b ++ rest) (length pre) out)
  = (Raise (NameError "attribute"),
     World (pre ++ b ++ rest) (length pre + 4) out).
Proof.
  intros Hlen Hz Hb. unfold var_list.
  rewrite (bind_Ok _ _ _ _ _ (read_word_at pre b rest out ltac:(lia))).
  rewrite (bytes_eqb_neq _ _ Hz), (bytes_eqb_neq _ _ Hb), ?Hlen.
  reflexivity.
Qed.

(** The whole decode stops there as well. *)
Lemma parse_wrong_var_tag_raises_NameError :
  fst (parse wrong_var_tag_bytes []) = Raise (NameError "attribute").
Proof. vm_compute. reflexivity. Qed.

(** ** Names *)

(** C10. A name whose length word is zero is the empty string: [name]
    reads the four bytes of the length word, then a span of zero bytes,
    and returns normally. *)
Theorem name_empty (pre rest : list byte) (out : list output) :
  name (World (pre ++ zeros4 ++ rest) (length pre) out)
  = (Ok EmptyString, World (pre ++ zeros4 ++ rest) (length pre + 4) out).
Proof.
  unfold name.
  rewrite (bind_Ok _ _ _ _ _ (read_word_at pre zeros4 rest out eq_refl)).
  cbn. rewrite Nat.add_0_r. reflexivity.
Qed.

Lemma bind_lift_Ok {A B} (a : A) (k : A -> M B) :
  bind (lift (Ok a)) k = k a.
Proof. reflexivity. Qed.

Lemma bind_lift_Raise {A B} (e : error) (k : A -> M B) (w : world) :
  bind (lift (Raise e)) k w = (Raise e, w).
Proof. reflexivity. Qed.

Lemma padding_check (p : list byte) :
  bytes_eqb p (repeat x00 (length p))
  = forallb (fun b => Byte.eqb b x00) p.
Proof.
  induction p as [|b p IH]; simpl; [reflexivity|].
  rewrite IH; reflexivity.
Qed.

Lemma padded_bounds (L : Z) :
  0 <= L ->
  (4 * ((L + 3) / 4)) mod 4 = 0
  /\ L <= 4 * ((L + 3) / 4) < L + 4.
Proof.
  intros HL. split.
  - rewrite Z.mul_comm. apply Z_mod_mult.
  - pose proof (Z.div_mod (L + 3) 4 ltac:(lia)).
    pose proof (Z.mod_pos_bound (L + 3) 4 ltac:(lia)). lia.
Qed.

(** What [name] does when its padded span is wholly in the file: it moves
    past the length word and the span; the text is decoded first and the
    padding is compared with zeros only after that. *)
Lemma name_full (w : world) (L : Z) :
  unpack_i (firstn 4 (remaining w)) = Ok L ->
  0 <= L ->
  (4 + Z.to_nat (4 * ((L + 3) / 4)) <= length (remaining w))%nat ->
  let span := firstn (Z.to_nat (4 * ((L + 3) / 4))) (skipn 4 (remaining w)) in
  name w =
  ((if utf8_valid (firstn (Z.to_nat L) span)
    then if forallb (fun b => Byte.eqb b x00) (skipn (Z.to_nat L) span)
         then Ok (string_of_list_byte (firstn (Z.to_nat L) span))
         else Raise (FormatError "wrong padding in name")
    else Raise UnicodeDecodeError),
   World (fdata w) (fpos w + 4 + Z.to_nat (4 * ((L + 3) / 4))) (stdout w)).
Proof.
  intros H4 HL Hlen span.
  destruct (padded_bounds L HL) as [_ Hp].
  unfold name.
  rewrite (bind_Ok _ _ _ _ _ (read_full 4 w ltac:(lia) served_4 ltac:(lia))).
  change (Z.to_nat 4) with 4%nat. rewrite H4.
  rewrite bind_lift_Ok.
  destruct (unpack_i_inv _ _ H4) as (_ & _ & [_ Hmax]).
  destruct (L <? 0) eqn:E; [apply Z.ltb_lt in E; lia|].
  set (w1 := World (fdata w) (fpos w + 4) (stdout w)).
  assert (Hrem : remaining w1 = skipn 4 (remaining w))
    by apply remaining_advance.
  assert (Hread : read (4 * ((L + 3) / 4)) w1
                  = (Ok span, World (fdata w)
                                (fpos w + 4 + Z.to_nat (4 * ((L + 3) / 4)))
                                (stdout w))).
  { rewrite read_full;
      [rewrite Hrem; reflexivity | lia | apply served_span; exact Hmax |].
    rewrite Hrem, length_skipn. lia. }
  rewrite (bind_Ok _ _ _ _ _ Hread).
  unfold slice_to, slice_from.
  destruct (0 <=? L) eqn:E0; [|apply Z.leb_gt in E0; lia].
  unfold str_utf8.
  destruct (utf8_valid (firstn (Z.to_nat L) span)).
  - rewrite bind_lift_Ok, padding_check.
    destruct (forallb _ _); reflexivity.
  - reflexivity.
Qed.

(** C7. When the length word holds [L >= 0] and the padded span of
    [4 * ceil(L/4)] bytes is in the file, [name] consumes the length word
    and that span, whose length is a multiple of 4 and at least [L]; it
    returns the first [L] bytes as text when they are valid UTF-8 and the
    rest of the span is zero, raises [FormatError] for the padding when
    the text is valid and a padding byte is not zero, and raises the
    decoding error, whatever the padding, when the text is not valid. *)
Theorem name_padding_checked_after_text (w : world) (L : Z) :
  unpack_i (firstn 4 (remaining w)) = Ok L ->
  0 <= L ->
  (4 + Z.to_nat (4 * ((L + 3) / 4)) <= length (remaining w))%nat ->
  let padded := 4 * ((L + 3) / 4) in
  let span := firstn (Z.to_nat padded) (skipn 4 (remaining w)) in
  let text := firstn (Z.to_nat L) span in
  let padding := skipn (Z.to_nat L) span in
  padded mod 4 = 0 /\ L <= padded
  /\ length span = Z.to_nat padded
  /\ fpos (snd (name w)) = (fpos w + 4 + Z.to_nat padded)%nat
  /\ (utf8_valid text = true ->
      forallb (fun b => Byte.eqb b x00) padding = true ->
      fst (name w) = Ok (string_of_list_byte text))
  /\ (utf8_valid text = true ->
      forallb (fun b => Byte.eqb b x00) padding = false ->
      fst (name w) = Raise (FormatError "wrong padding in name"))
  /\ (utf8_valid text = false ->
      fst (name w) = Raise UnicodeDecodeError).
Proof.
  intros H4 HL Hlen padded span text padding.
  pose proof (name_full w L H4 HL Hlen) as Hname. cbv zeta in Hname.
  fold padded in Hname. fold span in Hname.
  fold text in Hname. fold padding in Hname.
  destruct (padded_bounds L HL) as [Hmod Hp]. fold padded in Hmod, Hp.
  repeat split.
  - exact Hmod.
  - lia.
  - unfold span. rewrite length_firstn, length_skipn. lia.
  - rewrite Hname; reflexivity.
  - intros Hv Hz. rewrite Hname, Hv, Hz; reflexivity.
  - intros Hv Hz. rewrite Hname, Hv, Hz; reflexivity.
  - intros Hv. rewrite Hname, Hv; reflexivity.
Qed.

(** ** Input that ends early *)

Lemma unpack_i_short (b : list byte) :
  (length b < 4)%nat -> unpack_i b = Raise StructError.
Proof.
  intros H. unfold unpack_i.
  destruct (Nat.eqb_spec (length b) 4); [lia | reflexivity].
Qed.

Lemma read4_short (w : world) :
  (length (remaining w) < 4)%nat ->
  read 4 w = (Ok (remaining w),
              World (fdata w) (fpos w + length (remaining w)) (stdout w)).
Proof. intros H. apply read_short; [lia | exact served_4 | exact H]. Qed.

(** Every step that reads a 32-bit integer raises [struct.error] when
    fewer than four bytes are left. *)
Lemma integer_field_short (w : world) :
  (length (remaining w) < 4)%nat ->
  fst (non_neg w) = Raise StructError
  /\ fst (name w) = Raise StructError
  /\ fst (dim_length w) = Raise StructError
  /\ fst (nc_type w) = Raise StructError
  /\ forall p, fst (numrecs p w) = Raise StructError.
Proof.
  intros H.
  unfold non_neg, name, dim_length, nc_type, numrecs.
  repeat split; try intros p;
    rewrite (bind_Ok _ _ _ _ _ (read4_short w H));
    rewrite (unpack_i_short _ H); reflexivity.
Qed.

(** ** Value arrays *)

Lemma length_unpack_items (count size : nat) (item : list byte -> value)
    (b : list byte) :
  length (unpack_items count size item b) = count.
Proof.
  revert b; induction count as [|c IH]; intros b; simpl;
    [reflexivity | rewrite IH; reflexivity].
Qed.

Lemma firstn_unpack_items (k n size : nat) (item : list byte -> value)
    (b : list byte) :
  (k <= n)%nat ->
  firstn k (unpack_items n size item b) = unpack_items k size item b.
Proof.
  revert n b. induction k as [|k IH]; intros n b H; [reflexivity|].
  destruct n as [|n]; [lia|]. simpl. rewrite IH by lia. reflexivity.
Qed.

(** Item [i] of the tuple is decoded from the bytes [i * size] to
    [(i + 1) * size] of the buffer. *)
Lemma unpack_items_spec (n size : nat) (item : list byte -> value)
    (b : list byte) :
  unpack_items n size item b
  = map (fun i => item (item_bytes size i b)) (seq 0 n).
Proof.
  revert b. induction n as [|n IH]; intros b; [reflexivity|].
  simpl. f_equal. rewrite IH, <- seq_shift, map_map.
  apply map_ext. intros i. unfold item_bytes.
  rewrite skipn_skipn. do 3 f_equal. simpl. lia.
Qed.

Lemma bind_ret {A B} (a : A) (k : A -> M B) : bind (ret a) k = k a.
Proof. reflexivity. Qed.

Ltac unpack_rep_case :=
  intros n b H; unfold unpack_rep;
  destruct (n <? 0) eqn:E; [apply Z.ltb_lt in E; lia | reflexivity].

Lemma unpack_rep_b : forall n b, 0 <= n ->
  unpack_rep n "b" b = numeric_items n 1 (fun x => VInt (be_sint x)) b.
Proof. unpack_rep_case. Qed.

Lemma unpack_rep_h : forall n b, 0 <= n ->
  unpack_rep n "h" b = numeric_items n 2 (fun x => VInt (be_sint x)) b.
Proof. unpack_rep_case. Qed.

Lemma unpack_rep_i : forall n b, 0 <= n ->
  unpack_rep n "i" b = numeric_items n 4 (fun x => VInt (be_sint x)) b.
Proof. unpack_rep_case. Qed.

Lemma unpack_rep_f : forall n b, 0 <= n ->
  unpack_rep n "f" b
  = numeric_items n 4 (fun x => VFloat (double_of_single (be_uint x))) b.
Proof. unpack_rep_case. Qed.

Lemma unpack_rep_d : forall n b, 0 <= n ->
  unpack_rep n "d" b = numeric_items n 8 (fun x => VFloat (be_uint x)) b.
Proof. unpack_rep_case. Qed.

Lemma span_bounds (x : Z) : 0 <= x -> x <= 4 * ((x + 3) / 4) < x + 4.
Proof. intros H. Z.to_euclidean_division_equations; lia. Qed.

Section ValuesNumeric.

Variables (type f : string) (l : Z) (size : nat)
          (item : list byte -> value).
Hypothesis layout : type_layout type = Some (l, f).
Hypothesis not_char : String.eqb type "char" = false.
Hypothesis unpack : forall n b,
    0 <= n -> unpack_rep n f b = numeric_items n size item b.
Hypothesis width_size : l = Z.of_nat size.
Hypothesis width_pos : 0 < l.

Variables (nelems : Z) (w : world).
Hypothesis count_nonneg : 0 <= nelems.
Hypothesis span_aligned : (4 * ((nelems * l + 3) / 4)) mod l = 0.

(** What [values] makes of the buffer that its read returns. *)
Lemma values_numeric_read (b : list byte) (w' : world) :
  read (4 * ((nelems * l + 3) / 4)) w = (Ok b, w') ->
  values type nelems w
  = (if Nat.eqb (length b) (Z.to_nat (4 * ((nelems * l + 3) / 4)))
     then Ok (tuple_of nelems size item b)
     else Raise StructError, w').
Proof.
  intros Hread.
  set (padded := 4 * ((nelems * l + 3) / 4)) in *.
  destruct (span_bounds (nelems * l) ltac:(nia)) as [Hp _].
  fold padded in Hp.
  assert (Hp0 : 0 <= padded) by nia.
  assert (Hn : padded / l * l = padded).
  { pose proof (Z.div_mod padded l ltac:(lia)). lia. }
  assert (Hge : nelems <= padded / l) by nia.
  unfold values. rewrite layout. cbv zeta. fold padded.
  rewrite (bind_Ok _ _ _ _ _ Hread).
  rewrite unpack by (apply Z.div_pos; lia).
  unfold numeric_items. rewrite <- width_size, Hn.
  destruct (Nat.eqb_spec (length b) (Z.to_nat padded)) as [Hb|Hb].
  - destruct (Z.eqb_spec (Z.of_nat (length b)) padded); [|lia].
    rewrite bind_lift_Ok, not_char, bind_ret.
    unfold slice_value, slice_to, lift, ret, tuple_of.
    destruct (0 <=? nelems) eqn:E; [|apply Z.leb_gt in E; lia].
    rewrite firstn_unpack_items by lia.
    rewrite unpack_items_spec. reflexivity.
  - destruct (Z.eqb_spec (Z.of_nat (length b)) padded); [lia|].
    rewrite bind_lift_Raise. reflexivity.
Qed.

End ValuesNumeric.

Lemma values_char_read (nelems : Z) (w : world) (b : list byte)
    (w' : world) :
  0 <= nelems ->
  read (4 * ((nelems * 1 + 3) / 4)) w = (Ok b, w') ->
  values "char" nelems w
  = (if Nat.eqb (length b) (Z.to_nat (4 * ((nelems * 1 + 3) / 4)))
     then Ok (VBytes (firstn (Z.to_nat nelems) b))
     else Raise StructError, w').
Proof.
  intros Hn Hread.
  set (padded := 4 * ((nelems * 1 + 3) / 4)) in *.
  destruct (span_bounds (nelems * 1) ltac:(lia)) as [Hp _].
  fold padded in Hp.
  unfold values.
  change (type_layout "char") with (Some (1, "s")). cbv zeta iota.
  fold padded.
  rewrite (bind_Ok _ _ _ _ _ Hread).
  rewrite Z.div_1_r. unfold unpack_rep.
  destruct (padded <? 0) eqn:E; [apply Z.ltb_lt in E; lia|].
  change (String.eqb "s" "b") with false.
  change (String.eqb "s" "s") with true. cbv iota.
  destruct (Nat.eqb_spec (length b) (Z.to_nat padded)) as [Hb|Hb].
  - destruct (Z.eqb_spec (Z.of_nat (length b)) padded); [|lia].
    rewrite bind_lift_Ok.
    change (String.eqb "char" "char") with true. cbv iota.
    unfold unpack_single. rewrite bind_lift_Ok.
    unfold slice_value, slice_to, lift, ret.
    destruct (0 <=? nelems) eqn:E0; [|apply Z.leb_gt in E0; lia].
    reflexivity.
  - destruct (Z.eqb_spec (Z.of_nat (length b)) padded); [lia|].
    rewrite bind_lift_Raise. reflexivity.
Qed.

(** For each of the six types: when the read of the padded span returns a
    buffer, [values] returns the value of the items in it if the buffer
    is whole, and raises [struct.error] if it is short. *)
Lemma values_read (type : string) (nelems : Z) (w : world)
    (b : list byte) (w' : world) :
  In type known_types ->
  0 <= nelems ->
  read (4 * ((nelems * width type + 3) / 4)) w = (Ok b, w') ->
  values type nelems w
  = (if Nat.eqb (length b)
          (Z.to_nat (4 * ((nelems * width type + 3) / 4)))
     then Ok (array_value type nelems b)
     else Raise StructError, w').
Proof.
  intros Hin Hn. simpl in Hin.
  destruct Hin as [<-|[<-|[<-|[<-|[<-|[<-|[]]]]]]].
  - apply (values_numeric_read "byte" "b" 1 1 _ eq_refl eq_refl
             unpack_rep_b eq_refl ltac:(lia) nelems w Hn (Z.mod_1_r _)).
  - apply values_char_read; assumption.
  - apply (values_numeric_read "short" "h" 2 2 _ eq_refl eq_refl
             unpack_rep_h eq_refl ltac:(lia) nelems w Hn).
    change (width "short") with 2.
    Z.to_euclidean_division_equations; lia.
  - apply (values_numeric_read "int" "i" 4 4 _ eq_refl eq_refl
             unpack_rep_i eq_refl ltac:(lia) nelems w Hn).
    change (width "int") with 4.
    Z.to_euclidean_division_equations; lia.
  - apply (values_numeric_read "float" "f" 4 4 _ eq_refl eq_refl
             unpack_rep_f eq_refl ltac:(lia) nelems w Hn).
    change (width "float") with 4.
    Z.to_euclidean_division_equations; lia.
  - apply (values_numeric_read "double" "d" 8 8 _ eq_refl eq_refl
             unpack_rep_d eq_refl ltac:(lia) nelems w Hn).
    change (width "double") with 8.
    Z.to_euclidean_division_equations; lia.
Qed.

(** When the read is refused, so is [values], and nothing is consumed. *)
Lemma values_refused (type : string) (nelems : Z) (w : world)
    (e : error) (w' : world) :
  In type known_types ->
  read (4 * ((nelems * width type + 3) / 4)) w = (Raise e, w') ->
  values type nelems w = (Raise e, w').
Proof.
  intros Hin Hread. unfold values, width in *.
  destruct (type_layout type) as [[l f]|] eqn:El.
  - cbv zeta. apply bind_Raise. exact Hread.
  - exfalso. simpl in Hin.
    destruct Hin as [<-|[<-|[<-|[<-|[<-|[<-|[]]]]]]]; discriminate.
Qed.

Lemma is_array_value (type : string) (nelems : Z) (b : list byte) :
  In type known_types ->
  0 <= nelems ->
  length b = Z.to_nat (4 * ((nelems * width type + 3) / 4)) ->
  is_array type nelems (array_value type nelems b).
Proof.
  intros Hin Hn Hb. simpl in Hin. unfold is_array, array_value, tuple_of.
  destruct Hin as [<-|[<-|[<-|[<-|[<-|[<-|[]]]]]]];
    cbv [width type_layout String.eqb Ascii.eqb Bool.eqb] in Hb;
    cbv [String.eqb Ascii.eqb Bool.eqb];
    eexists; (split; [reflexivity|]);
    rewrite ?length_map, ?length_seq, ?length_firstn, ?Hb;
    Z.to_euclidean_division_equations; lia.
Qed.


(** ** Variable records *)

(** Whatever [var] returns is a tuple of four components: the name, the
    attribute list, [vsize] and [begin]. *)
Lemma var_result_shape (w w' : world) (v : value) :
  var w = (Ok v, w') ->
  exists var_name var_attr vsize begin,
    v = VTuple [VStr var_name; var_attr; VInt vsize; VInt begin].
Proof.
  unfold var, bind, ret. intros H.
  destruct (name w) as [[var_name|] w1]; [|discriminate].
  destruct (nelems w1) as [[n|] w2]; [|discriminate].
  destruct (repeatM (Z.to_nat n) non_neg w2) as [[dimensions|] w3];
    [|discriminate].
  destruct (att_list w3) as [[var_attr|] w4]; [|discriminate].
  destruct (nc_type w4) as [[type|] w5]; [|discriminate].
  destruct (non_neg w5) as [[vsize|] w6]; [|discriminate].
  destruct (non_neg w6) as [[begin|] w7]; [|discriminate].
  injection H as <- _. eauto.
Qed.

(** C8. [var] reads the dimension ids and the type and returns neither:
    two records that differ in both decode to the same four-component
    tuple of name, attribute list, vsize and begin. *)
Theorem var_drops_dimensions_and_type :
  fst (var (World var_record_float_0_1 0 []))
  = Ok (VTuple [VStr "v"; VList []; VInt 20; VInt 256])
  /\ fst (var (World var_record_double_3_7 0 []))
     = Ok (VTuple [VStr "v"; VList []; VInt 20; VInt 256]).
Proof. vm_compute. split; reflexivity. Qed.

(** ** The result depends on the bytes alone *)

Lemma same_input_remaining (w1 w2 : world) :
  same_input w1 w2 -> remaining w1 = remaining w2.
Proof. intros [Hd Hp]. unfold remaining. rewrite Hd, Hp. reflexivity. Qed.

Lemma bytes_only_ret {A} (a : A) : bytes_only (ret a).
Proof. intros w1 w2 H. split; [reflexivity | exact H]. Qed.

Lemma bytes_only_raise {A} (e : error) : bytes_only (@raise A e).
Proof. intros w1 w2 H. split; [reflexivity | exact H]. Qed.

Lemma bytes_only_lift {A} (r : result A) : bytes_only (lift r).
Proof. destruct r; [apply bytes_only_ret | apply bytes_only_raise]. Qed.

Lemma bytes_only_bind {A B} (m : M A) (k : A -> M B) :
  bytes_only m -> (forall a, bytes_only (k a)) -> bytes_only (bind m k).
Proof.
  intros Hm Hk w1 w2 H. unfold bind.
  destruct (Hm w1 w2 H) as [Hr Hw].
  destruct (m w1) as [r1 w1'], (m w2) as [r2 w2']. simpl in Hr, Hw.
  subst r2. destruct r1 as [a|e].
  - apply Hk; exact Hw.
  - split; [reflexivity | exact Hw].
Qed.

Lemma bytes_only_read (n : Z) : bytes_only (read n).
Proof.
  intros w1 w2 H. unfold read.
  rewrite (same_input_remaining _ _ H). destruct H as [Hd Hp].
  destruct (n <? -1); simpl; [split; [reflexivity | split; assumption]|].
  destruct (refusal n); simpl.
  - split; [reflexivity | split; assumption].
  - split; [reflexivity | split; simpl; congruence].
Qed.

Lemma bytes_only_tell : bytes_only tell.
Proof.
  intros w1 w2 [Hd Hp]. unfold tell; simpl.
  split; [rewrite Hp; reflexivity | split; assumption].
Qed.

Lemma bytes_only_print (line : string) : bytes_only (print line).
Proof. intros w1 w2 [Hd Hp]. split; [reflexivity | split; assumption]. Qed.

Lemma bytes_only_repeatM {A} (n : nat) (m : M A) :
  bytes_only m -> bytes_only (repeatM n m).
Proof.
  intros Hm. induction n as [|n IH]; simpl.
  - apply bytes_only_ret.
  - apply bytes_only_bind; [exact Hm | intros x].
    apply bytes_only_bind; [exact IH | intros xs].
    apply bytes_only_ret.
Qed.

Lemma bytes_only_raise_FormatError {A} (t : string) (args : list fmtarg) :
  bytes_only (@raise_FormatError A t args).
Proof.
  unfold raise_FormatError.
  apply bytes_only_bind; [apply bytes_only_lift | intros msg].
  apply bytes_only_raise.
Qed.

Create HintDb bytes_only.
#[local] Hint Resolve bytes_only_ret bytes_only_raise bytes_only_lift
  bytes_only_read bytes_only_tell bytes_only_print bytes_only_repeatM
  bytes_only_raise_FormatError : bytes_only.

(** One step through the syntax of a decoder. *)
Ltac bytes_only_step :=
  match goal with
  | |- bytes_only (bind _ _) => apply bytes_only_bind; [| intros ?]
  | |- bytes_only (if ?c then _ else _) => destruct c
  | |- bytes_only (match ?x with _ => _ end) => destruct x
  | |- bytes_only _ => solve [auto with bytes_only]
  end.

Ltac bytes_only_auto := repeat bytes_only_step.

Lemma bytes_only_non_neg : bytes_only non_neg.
Proof. unfold non_neg. bytes_only_auto. Qed.
#[local] Hint Resolve bytes_only_non_neg : bytes_only.

Lemma bytes_only_nelems : bytes_only nelems.
Proof. exact bytes_only_non_neg. Qed.
#[local] Hint Resolve bytes_only_nelems : bytes_only.

Lemma bytes_only_dim_length : bytes_only dim_length.
Proof. unfold dim_length. bytes_only_auto. Qed.
#[local] Hint Resolve bytes_only_dim_length : bytes_only.

Lemma bytes_only_nc_type : bytes_only nc_type.
Proof. unfold nc_type. bytes_only_auto. Qed.
#[local] Hint Resolve bytes_only_nc_type : bytes_only.

Lemma bytes_only_values (type : string) (n : Z) : bytes_only (values type n).
Proof. unfold values. bytes_only_auto. Qed.
#[local] Hint Resolve bytes_only_values : bytes_only.

Lemma bytes_only_name : bytes_only name.
Proof. unfold name. bytes_only_auto. Qed.
#[local] Hint Resolve bytes_only_name : bytes_only.

Lemma bytes_only_dim : bytes_only dim.
Proof. unfold dim. bytes_only_auto. Qed.
#[local] Hint Resolve bytes_only_dim : bytes_only.

Lemma bytes_only_attr : bytes_only attr.
Proof. unfold attr. bytes_only_auto. Qed.
#[local] Hint Resolve bytes_only_attr : bytes_only.

Lemma bytes_only_att_list : bytes_only att_list.
Proof. unfold att_list. bytes_only_auto. Qed.
#[local] Hint Resolve bytes_only_att_list : bytes_only.

Lemma bytes_only_var : bytes_only var.
Proof. unfold var. bytes_only_auto. Qed.
#[local] Hint Resolve bytes_only_var : bytes_only.

Lemma bytes_only_magic (p : dict) : bytes_only (magic p).
Proof. unfold magic. bytes_only_auto. Qed.

Lemma bytes_only_numrecs (p : dict) : bytes_only (numrecs p).
Proof. unfold numrecs. bytes_only_auto. Qed.

Lemma bytes_only_dim_list (p : dict) : bytes_only (dim_list p).
Proof. unfold dim_list. bytes_only_auto. Qed.

Lemma bytes_only_gatt_list (p : dict) : bytes_only (gatt_list p).
Proof. unfold gatt_list. bytes_only_auto. Qed.

Lemma bytes_only_var_list (p : dict) : bytes_only (var_list p).
Proof. unfold var_list. bytes_only_auto. Qed.

#[local] Hint Resolve bytes_only_magic bytes_only_numrecs bytes_only_dim_list
  bytes_only_gatt_list bytes_only_var_list : bytes_only.




(** * Further properties *)

(** ** Rules for outcomes *)

Lemma post_ret {A} (a : A) (Q : A -> Prop) E : Q a -> post (ret a) Q E.
Proof. intros H w; exact H. Qed.

Lemma post_raise {A} (e : error) (Q : A -> Prop) (E : error -> Prop) :
  E e -> post (@raise A e) Q E.
Proof. intros H w; exact H. Qed.

Lemma post_lift {A} (r : result A) (Q : A -> Prop) (E : error -> Prop) :
  match r with Ok a => Q a | Raise e => E e end -> post (lift r) Q E.
Proof. destruct r; intros H w; exact H. Qed.

Lemma post_bind {A B} (m : M A) (k : A -> M B)
    (P : A -> Prop) (Q : B -> Prop) (E : error -> Prop) :
  post m P E -> (forall a, P a -> post (k a) Q E) -> post (bind m k) Q E.
Proof.
  intros Hm Hk w. unfold bind. specialize (Hm w).
  destruct (m w) as [[a|e] w']; simpl in *.
  - apply Hk; exact Hm.
  - exact Hm.
Qed.

Lemma post_weaken {A} (m : M A) (Q Q' : A -> Prop) (E E' : error -> Prop) :
  post m Q E -> (forall a, Q a -> Q' a) -> (forall e, E e -> E' e) ->
  post m Q' E'.
Proof.
  intros H HQ HE w. specialize (H w).
  destruct (fst (m w)); auto.
Qed.

(** A served read of a non-negative size raises nothing and returns at
    most that many bytes. *)
Lemma post_read (n : Z) (E : error -> Prop) :
  0 <= n ->
  served n ->
  post (read n) (fun b => (length b <= Z.to_nat n)%nat) E.
Proof.
  intros Hn Hs w. rewrite read_nonneg by assumption. simpl.
  rewrite length_firstn. lia.
Qed.

(** All that a read of a non-negative size raises is the refusal of its
    buffer, and then the world is as it was. *)
Lemma read_Raise (n : Z) (w w' : world) (e : error) :
  0 <= n ->
  read n w = (Raise e, w') ->
  (e = MemoryError \/ e = OverflowError) /\ w' = w /\ refusal n = Some e.
Proof.
  intros Hn. unfold read.
  destruct (n <? -1) eqn:E1; [apply Z.ltb_lt in E1; lia|].
  destruct (refusal n) as [e'|] eqn:Er; [|discriminate].
  intros H; injection H as <- <-.
  split; [apply (refusal_kind _ _ Er) | split; reflexivity].
Qed.

Lemma read_Ok (n : Z) (w w' : world) (b : list byte) :
  0 <= n ->
  read n w = (Ok b, w') ->
  served n /\ b = firstn (Z.to_nat n) (remaining w)
  /\ w' = World (fdata w) (fpos w + length b) (stdout w).
Proof.
  intros Hn H.
  destruct (refusal n) as [e|] eqn:Er.
  - rewrite (read_refused _ _ _ Hn Er) in H. discriminate.
  - rewrite (read_nonneg _ _ Hn Er) in H. injection H as <- <-.
    repeat split. exact Er.
Qed.

Lemma post_repeatM {A} (n : nat) (m : M A) (Q : A -> Prop) E :
  post m Q E ->
  post (repeatM n m) (fun l => Forall Q l /\ length l = n) E.
Proof.
  intros Hm. induction n as [|n IH]; simpl.
  - apply post_ret. split; [constructor | reflexivity].
  - apply (post_bind _ _ _ _ _ Hm). intros x Hx.
    apply (post_bind _ _ _ _ _ IH). intros xs [Hxs Hlen].
    apply post_ret. split; [constructor; assumption | simpl; congruence].
Qed.

(** ** The messages *)

(** Each [FormatError] message but the one of [numrecs] is built: it is
    the text of the template with the value in place of the field. *)
Lemma message_non_neg (n : Z) :
  format "expected NON NEG, but found {!r}" [AInt n]
  = Ok ("expected NON NEG, but found " ++ str_int n)%string.
Proof. reflexivity. Qed.

Lemma message_dim_length (n : Z) :
  format "invalid dim_length {!r}" [AInt n]
  = Ok ("invalid dim_length " ++ str_int n)%string.
Proof. reflexivity. Qed.

Lemma message_nc_type (n : Z) :
  format "invalid nc_type code {!r}" [AInt n]
  = Ok ("invalid nc_type code " ++ str_int n)%string.
Proof. reflexivity. Qed.

Lemma message_name (n : Z) :
  format "expected name nelems, but found {!r}" [AInt n]
  = Ok ("expected name nelems, but found " ++ str_int n)%string.
Proof. reflexivity. Qed.

Lemma append_assoc (a b c : string) :
  ((a ++ b) ++ c = a ++ (b ++ c))%string.
Proof. induction a as [|x a IH]; simpl; [|rewrite IH]; reflexivity. Qed.

Lemma format_go_literal (lit : string) (args : list fmtarg) (auto : nat) :
  no_braces lit = true ->
  forall out, format_go lit None args auto out = Ok (out ++ lit)%string.
Proof.
  induction lit as [|c lit IH]; simpl; intros H out.
  - f_equal. induction out as [|x out IHo]; simpl; congruence.
  - apply andb_true_iff in H as [H H3]. apply andb_true_iff in H as [H1 H2].
    apply negb_true_iff in H1, H2. rewrite H1, H2.
    rewrite (IH H3), append_assoc. reflexivity.
Qed.

Lemma format_go_literal_prefix (lit rest : string) (args : list fmtarg)
    (auto : nat) :
  no_braces lit = true ->
  forall out,
    format_go (lit ++ rest) None args auto out
    = format_go rest None args auto (out ++ lit)%string.
Proof.
  induction lit as [|c lit IH]; simpl; intros H out.
  - f_equal. induction out as [|x out IHo]; simpl; congruence.
  - apply andb_true_iff in H as [H H3]. apply andb_true_iff in H as [H1 H2].
    apply negb_true_iff in H1, H2. rewrite H1, H2.
    rewrite (IH H3), append_assoc. reflexivity.
Qed.

(** The line that [var_list] prints. *)
Lemma message_vars (n pos : Z) :
  format "{} vars at {}" [AInt n; AInt pos]
  = Ok (str_int n ++ " vars at " ++ str_int pos)%string.
Proof.
  change (format "{} vars at {}" [AInt n; AInt pos])
    with (format_go (" vars at " ++ "{}") None [AInt n; AInt pos] 1
            (str_int n)).
  rewrite format_go_literal_prefix by reflexivity.
  rewrite <- append_assoc. reflexivity.
Qed.

Lemma message_version (v : Z) :
  format "VERSION byte {:#x} is not acceptable" [AInt v]
  = Ok ("VERSION byte " ++ hex_int v ++ " is not acceptable")%string.
Proof.
  change (format "VERSION byte {:#x} is not acceptable" [AInt v])
    with (format_go " is not acceptable" None [AInt v] 1
            ("VERSION byte " ++ hex_int v)%string).
  rewrite format_go_literal by reflexivity.
  rewrite append_assoc. reflexivity.
Qed.

Lemma message_absent (list_name : string) (n : list byte) :
  In list_name ["dim_list"; "att_list"; "var_list"] ->
  format ("expected ABSENT for " ++ list_name ++ ", but found {!r}")%string
    [ABytes n]
  = Ok ("expected ABSENT for " ++ list_name ++ ", but found "
        ++ repr_bytes n)%string.
Proof.
  simpl. intros [<-|[<-|[<-|[]]]]; reflexivity.
Qed.

Lemma message_dim_tag (b : list byte) :
  format "expected NC_DIMENSON for dim_list, but found {!r}" [ABytes b]
  = Ok ("expected NC_DIMENSON for dim_list, but found " ++ repr_bytes b)%string.
Proof. reflexivity. Qed.

Lemma message_att_tag (b : list byte) :
  format "expected NC_ATTRIBUTE for att_list, but found {!r}" [ABytes b]
  = Ok ("expected NC_ATTRIBUTE for att_list, but found " ++ repr_bytes b)%string.
Proof. reflexivity. Qed.

Lemma raise_FormatError_Ok {A} (template msg : string)
    (args : list fmtarg) (w : world) :
  format template args = Ok msg ->
  @raise_FormatError A template args w = (Raise (FormatError msg), w).
Proof. intros H. unfold raise_FormatError. rewrite H. reflexivity. Qed.

Lemma post_raise_FormatError {A} (template msg : string)
    (args : list fmtarg) (Q : A -> Prop) (E : error -> Prop) :
  format template args = Ok msg ->
  E (FormatError msg) ->
  post (@raise_FormatError A template args) Q E.
Proof.
  intros H HE w. rewrite (raise_FormatError_Ok _ _ _ _ H). exact HE.
Qed.

(** ** What each step returns and what it raises *)

Lemma error_classes (e : error) :
  (field_error e -> name_error e)
  /\ (name_error e -> record_error e)
  /\ (record_error e -> list_error e)
  /\ (list_error e -> header_error e).
Proof. unfold header_error, list_error, record_error, name_error. tauto. Qed.

(** Use the outcome of a step inside a larger one. *)
Ltac post_call H :=
  eapply post_bind;
  [ eapply post_weaken;
    [ apply H
    | intros ? HQ; exact HQ
    | intros ? HE;
      unfold header_error, list_error, record_error, name_error in *;
      tauto ]
  | ].

Ltac post_read4 :=
  eapply post_bind;
  [apply (post_read 4); [lia | exact served_4] | intros ? _].

Lemma post_unpack_i_struct (b : list byte) :
  post (lift (unpack_i b)) int32 (fun e => e = StructError).
Proof.
  apply post_lift. destruct (unpack_i b) as [n|e] eqn:E.
  - apply (unpack_i_inv _ _ E).
  - unfold unpack_i in E. destruct (Nat.eqb _ _); [discriminate|].
    injection E as <-. reflexivity.
Qed.

Lemma post_unpack_i (b : list byte) :
  post (lift (unpack_i b)) int32 field_error.
Proof.
  eapply post_weaken; [apply post_unpack_i_struct | auto |].
  intros e ->. left; reflexivity.
Qed.

Lemma is_FormatError (msg : string) : field_error (FormatError msg).
Proof. right; eauto. Qed.

Ltac in_class_go :=
  first [ reflexivity | eexists; reflexivity
        | left; in_class_go | right; in_class_go ].

(** One class of errors lies within a wider one. *)
Ltac class_up :=
  let HE := fresh "HE" in
  intros ? HE; cbv beta in HE;
  unfold header_error, list_error, record_error, name_error in *; tauto.

(** Membership of a given exception in one of the classes of errors. *)
Ltac in_class :=
  unfold header_error, list_error, record_error, name_error, field_error;
  in_class_go.

Lemma int32_nonneg (n : Z) : int32 n -> (n <? 0) = false -> count32 n.
Proof. unfold int32, count32. intros H E. apply Z.ltb_ge in E. lia. Qed.

Lemma non_neg_post : post non_neg count32 field_error.
Proof.
  unfold non_neg. post_read4. post_call post_unpack_i. intros n Hn.
  destruct (n <? 0) eqn:E.
  - apply (post_raise_FormatError _ _ _ _ _ (message_non_neg n)).
    apply is_FormatError.
  - apply post_ret. apply int32_nonneg; assumption.
Qed.

Lemma dim_length_post : post dim_length count32 field_error.
Proof.
  unfold dim_length. post_read4. post_call post_unpack_i. intros n Hn.
  destruct (n <? 0) eqn:E.
  - apply (post_raise_FormatError _ _ _ _ _ (message_dim_length n)).
    apply is_FormatError.
  - apply post_ret. apply int32_nonneg; assumption.
Qed.

Lemma nc_type_post :
  post nc_type (fun type => In type known_types) field_error.
Proof.
  unfold nc_type. post_read4. post_call post_unpack_i. intros x Hx.
  destruct (negb _).
  - apply (post_raise_FormatError _ _ _ _ _ (message_nc_type x)).
    apply is_FormatError.
  - repeat (match goal with |- post (if ?c then _ else _) _ _ =>
                      destruct c end);
      apply post_ret; simpl; tauto.
Qed.

(** When [values] returns, for a type that [nc_type] names and a count
    that is not negative, it returns exactly that many items; all it
    raises is [struct.error] or the refusal of its buffer. *)
Lemma values_post (type : string) (nelems : Z) :
  In type known_types -> 0 <= nelems ->
  post (values type nelems) (is_array type nelems)
       (fun e => e = StructError \/ e = MemoryError \/ e = OverflowError).
Proof.
  intros Hin Hn w.
  assert (Hp : 0 <= 4 * ((nelems * width type + 3) / 4)).
  { assert (0 <= width type)
      by (simpl in Hin;
          destruct Hin as [<-|[<-|[<-|[<-|[<-|[<-|[]]]]]]];
          vm_compute; discriminate).
    destruct (span_bounds (nelems * width type) ltac:(nia)). nia. }
  destruct (read (4 * ((nelems * width type + 3) / 4)) w)
    as [[b|e] w'] eqn:Hread.
  - rewrite (values_read _ _ _ _ _ Hin Hn Hread).
    destruct (Nat.eqb_spec (length b)
                (Z.to_nat (4 * ((nelems * width type + 3) / 4)))).
    + apply is_array_value; assumption.
    + simpl. auto.
  - rewrite (values_refused _ _ _ _ _ Hin Hread). simpl.
    destruct (read_Raise _ _ _ _ Hp Hread) as [He _]. tauto.
Qed.

Lemma name_post : post name is_text name_error.
Proof.
  unfold name. post_read4. post_call post_unpack_i. intros n Hn.
  destruct (n <? 0) eqn:E.
  - apply (post_raise_FormatError _ _ _ _ _ (message_name n)).
    in_class.
  - apply Z.ltb_ge in E.
    eapply post_bind;
      [ apply post_read;
        [ apply Z.mul_nonneg_nonneg; [lia | apply Z.div_pos; lia]
        | apply served_span; apply Hn ]
      | intros padded_name _ ].
    eapply post_bind with (P := is_text).
    + apply post_lift. unfold str_utf8.
      destruct (utf8_valid _) eqn:Ev.
      * unfold is_text. rewrite list_byte_of_string_of_list_byte. exact Ev.
      * right; reflexivity.
    + intros s Hs. destruct (negb _).
      * apply post_raise. in_class.
      * apply post_ret. exact Hs.
Qed.

Lemma dim_post : post dim is_dim name_error.
Proof.
  unfold dim. post_call name_post. intros n _.
  post_call dim_length_post. intros l Hl.
  apply post_ret. unfold is_dim. eauto.
Qed.

Lemma attr_post : post attr is_attr record_error.
Proof.
  unfold attr. post_call name_post. intros attr_name _.
  post_call nc_type_post. intros type Ht.
  post_call non_neg_post. intros n Hn.
  eapply post_bind.
  - eapply post_weaken;
      [ apply (values_post type n Ht); apply Hn
      | intros ? HQ; exact HQ
      | intros ? HE; cbv beta in HE;
        unfold list_error, record_error, name_error, field_error; tauto ].
  - intros vs Hvs. apply post_ret.
    exists attr_name, type, n, vs. auto.
Qed.

Lemma att_list_post :
  post att_list (fun v => exists l, v = VList l /\ Forall is_attr l)
       list_error.
Proof.
  unfold att_list. post_read4.
  match goal with |- post (if ?c then _ else _) _ _ => destruct c end.
  - post_read4.
    match goal with |- post (if ?c then _ else _) _ _ => destruct c end.
    + apply (post_raise_FormatError _ _ _ _ _
               (message_absent "att_list" _ ltac:(simpl; tauto))).
      in_class.
    + eapply post_bind with (P := fun _ => False).
      * apply post_lift. simpl. in_class.
      * intros _ [].
  - match goal with |- post (if ?c then _ else _) _ _ => destruct c end.
    + apply (post_raise_FormatError _ _ _ _ _ (message_att_tag _)).
      in_class.
    + post_call non_neg_post. intros n Hn.
      eapply post_bind.
      * apply post_repeatM.
        eapply post_weaken;
          [ apply attr_post | intros ? HQ; exact HQ
          | class_up ].
      * intros l [Hl _]. apply post_ret. eauto.
Qed.

Lemma var_post : post var is_var list_error.
Proof.
  unfold var. post_call name_post. intros var_name _.
  post_call non_neg_post. intros n Hn.
  eapply post_bind.
  { apply post_repeatM.
    eapply post_weaken;
      [ apply non_neg_post | intros ? HQ; exact HQ
      | class_up ]. }
  intros dimensions _.
  post_call att_list_post. intros var_attr (atts & -> & Hatts).
  post_call nc_type_post. intros type _.
  post_call non_neg_post. intros vsize Hvsize.
  post_call non_neg_post. intros begin Hbegin.
  apply post_ret. exists var_name, atts, vsize, begin. auto.
Qed.

Ltac post_if :=
  match goal with |- post (if ?c then _ else _) _ _ => destruct c eqn:? end.

Lemma magic_post (p : dict) :
  post (magic p)
       (fun p' => exists v, (v = 1 \/ v = 2)
                            /\ p' = setitem "version" (VInt v) p)
       (fun e => e = IndexError \/ exists msg, e = FormatError msg).
Proof.
  unfold magic. post_read4. post_if.
  - apply post_raise. right; eauto.
  - eapply post_bind with (P := fun _ => True).
    + apply post_lift. destruct (bytes_getitem _ _) as [v|e] eqn:E; [exact I|].
      unfold bytes_getitem in E. destruct (nth_error _ _); [discriminate|].
      injection E as <-. left; reflexivity.
    + intros v _. post_if.
      * apply (post_raise_FormatError _ _ _ _ _ (message_version v)).
        right; eauto.
      * apply post_ret. exists v. split; [|reflexivity].
        apply negb_false_iff in Heqb0. simpl in Heqb0.
        rewrite orb_false_r in Heqb0. apply orb_true_iff in Heqb0.
        destruct Heqb0 as [H|H]; apply Z.eqb_eq in H; auto.
Qed.

(** [numrecs] never raises [FormatError]. *)
Lemma numrecs_post (p : dict) :
  post (numrecs p)
       (fun p' => exists n, count32 n /\ p' = setitem "numrecs" (VInt n) p)
       (fun e => e = StructError \/ e = KeyError "%d"
                 \/ e = AttributeError "numrecs").
Proof.
  unfold numrecs. post_read4.
  eapply post_bind.
  { eapply post_weaken;
      [ apply post_unpack_i_struct | intros ? HQ; exact HQ
      | intros ? ->; left; reflexivity ]. }
  intros n Hn. post_if.
  - unfold raise_FormatError.
    rewrite numrecs_message_never_formats.
    intros w; simpl. auto.
  - post_if.
    + eapply post_bind with (P := fun _ => False).
      * apply post_lift. simpl. auto.
      * intros _ [].
    + post_if.
      * apply Z.ltb_ge in Heqb. apply Z.eqb_neq in Heqb0.
        apply negb_true_iff, Z.leb_gt in Heqb1. lia.
      * apply post_ret. exists n. split; [|reflexivity].
        apply negb_false_iff, Z.leb_le in Heqb1.
        unfold int32, count32 in *. lia.
Qed.

Lemma section_post {A} (m : M value) (P : value -> Prop)
    (E : error -> Prop) (n : nat) (k : list value -> A)
    (Q : A -> Prop) :
  post m P E ->
  (forall l, Forall P l -> Q (k l)) ->
  post (l <- repeatM n m ;; ret (k l)) Q E.
Proof.
  intros Hm Hk. eapply post_bind; [apply post_repeatM, Hm|].
  intros l [Hl _]. apply post_ret. auto.
Qed.

Lemma dim_list_post (p : dict) :
  post (dim_list p)
       (fun p' => exists d, is_section is_dim d
                            /\ p' = setitem "dim_list" d p)
       name_error.
Proof.
  unfold dim_list. post_read4. post_if.
  - post_read4. post_if.
    + apply (post_raise_FormatError _ _ _ _ _
               (message_absent "dim_list" _ ltac:(simpl; tauto))).
      in_class.
    + apply post_ret. exists (VStr "absent"). split; [left|]; reflexivity.
  - post_if.
    + apply (post_raise_FormatError _ _ _ _ _ (message_dim_tag _)).
      in_class.
    + post_call non_neg_post. intros n Hn.
      apply section_post with (P := is_dim); [apply dim_post|].
      intros l Hl. exists (VList l). split; [right; eauto | reflexivity].
Qed.

Lemma gatt_list_post (p : dict) :
  post (gatt_list p)
       (fun p' => exists l, Forall is_attr l
                            /\ p' = setitem "gatt_list" (VList l) p)
       list_error.
Proof.
  unfold gatt_list. post_call att_list_post.
  intros v (l & -> & Hl). apply post_ret. eauto.
Qed.

Lemma var_list_post (p : dict) :
  post (var_list p)
       (fun p' => exists d, is_section is_var d
                            /\ p' = setitem "var_list" d p)
       list_error.
Proof.
  unfold var_list. post_read4. post_if.
  - post_read4. post_if.
    + apply (post_raise_FormatError _ _ _ _ _
               (message_absent "var_list" _ ltac:(simpl; tauto))).
      in_class.
    + apply post_ret. exists (VStr "absent"). split; [left|]; reflexivity.
  - post_if.
    + eapply post_bind with (P := fun _ => False).
      * apply post_lift. simpl. in_class.
      * intros _ [].
    + post_call non_neg_post. intros n Hn.
      eapply post_bind with (P := fun _ => True);
        [intros w; exact I | intros pos _].
      eapply post_bind with (P := fun _ => True).
      { apply post_lift. rewrite message_vars. exact I. }
      intros line _.
      eapply post_bind with (P := fun _ => True);
        [intros w; exact I | intros _ _].
      apply section_post with (P := is_var); [apply var_post|].
      intros l Hl. exists (VList l). split; [right; eauto | reflexivity].
Qed.

Lemma header_post : post (header []) is_header header_error.
Proof.
  unfold header.
  eapply post_bind.
  { eapply post_weaken; [apply magic_post | intros ? HQ; exact HQ |].
    unfold header_error, list_error, record_error, name_error, field_error.
    tauto. }
  intros p1 (version & Hversion & ->).
  eapply post_bind.
  { eapply post_weaken; [apply numrecs_post | intros ? HQ; exact HQ |].
    unfold header_error, list_error, record_error, name_error, field_error.
    tauto. }
  intros p2 (n & Hn & ->).
  post_call dim_list_post. intros p3 (dims & Hdims & ->).
  post_call gatt_list_post. intros p4 (gatts & Hgatts & ->).
  eapply post_weaken;
    [ apply var_list_post | | unfold header_error; tauto ].
  intros p5 (vars & Hvars & ->).
  exists version, n, dims, gatts, vars. auto 10.
Qed.

(** ** The file offset and the standard output *)

Lemma forward_ret {A} (a : A) : forward (ret a).
Proof. intros w; simpl; auto. Qed.

Lemma forward_raise {A} (e : error) : forward (@raise A e).
Proof. intros w; simpl; auto. Qed.

Lemma forward_lift {A} (r : result A) : forward (lift r).
Proof. destruct r; [apply forward_ret | apply forward_raise]. Qed.

Lemma forward_bind {A B} (m : M A) (k : A -> M B) :
  forward m -> (forall a, forward (k a)) -> forward (bind m k).
Proof.
  intros Hm Hk w. unfold bind. specialize (Hm w).
  destruct (m w) as [[a|e] w1]; simpl in *; [|exact Hm].
  specialize (Hk a w1). destruct Hm as (Hd & Hp & Hb).
  destruct Hk as (Hd' & Hp' & Hb'). rewrite Hd in *.
  repeat split; [congruence | lia | auto].
Qed.

Lemma length_remaining (w : world) :
  length (remaining w) = (length (fdata w) - fpos w)%nat.
Proof. unfold remaining. apply length_skipn. Qed.

Lemma forward_read (n : Z) : forward (read n).
Proof.
  intros w. unfold read. destruct (n <? -1); simpl; [auto|].
  destruct (refusal n); simpl; [auto|].
  repeat split; [lia|]. intros H.
  assert (length (if (n =? -1)%Z then remaining w
                  else firstn (Z.to_nat n) (remaining w))
          <= length (remaining w))%nat
    by (destruct (n =? -1); [|rewrite length_firstn]; lia).
  rewrite length_remaining in *. lia.
Qed.

Lemma forward_tell : forward tell.
Proof. intros w; simpl; auto. Qed.

Lemma forward_print (line : string) : forward (print line).
Proof. intros w; simpl; auto. Qed.

Lemma forward_repeatM {A} (n : nat) (m : M A) :
  forward m -> forward (repeatM n m).
Proof.
  intros Hm. induction n as [|n IH]; simpl.
  - apply forward_ret.
  - apply forward_bind; [exact Hm | intros x].
    apply forward_bind; [exact IH | intros xs]. apply forward_ret.
Qed.

Lemma forward_raise_FormatError {A} (t : string) (args : list fmtarg) :
  forward (@raise_FormatError A t args).
Proof.
  unfold raise_FormatError.
  apply forward_bind; [apply forward_lift | intros msg].
  apply forward_raise.
Qed.

Create HintDb forward.
#[local] Hint Resolve forward_ret forward_raise forward_lift forward_read
  forward_tell forward_print forward_repeatM forward_raise_FormatError
  : forward.

Ltac forward_step :=
  match goal with
  | |- forward (bind _ _) => apply forward_bind; [| intros ?]
  | |- forward (if ?c then _ else _) => destruct c
  | |- forward (match ?x with _ => _ end) => destruct x
  | |- forward _ => solve [auto with forward]
  end.

Ltac forward_auto := repeat forward_step.

Lemma forward_non_neg : forward non_neg.
Proof. unfold non_neg. forward_auto. Qed.
#[local] Hint Resolve forward_non_neg : forward.

Lemma forward_nelems : forward nelems.
Proof. exact forward_non_neg. Qed.
#[local] Hint Resolve forward_nelems : forward.

Lemma forward_dim_length : forward dim_length.
Proof. unfold dim_length. forward_auto. Qed.
#[local] Hint Resolve forward_dim_length : forward.

Lemma forward_nc_type : forward nc_type.
Proof. unfold nc_type. forward_auto. Qed.
#[local] Hint Resolve forward_nc_type : forward.

Lemma forward_values (type : string) (n : Z) : forward (values type n).
Proof. unfold values. forward_auto. Qed.
#[local] Hint Resolve forward_values : forward.

Lemma forward_name : forward name.
Proof. unfold name. forward_auto. Qed.
#[local] Hint Resolve forward_name : forward.

Lemma forward_dim : forward dim.
Proof. unfold dim. forward_auto. Qed.
#[local] Hint Resolve forward_dim : forward.

Lemma forward_attr : forward attr.
Proof. unfold attr. forward_auto. Qed.
#[local] Hint Resolve forward_attr : forward.

Lemma forward_att_list : forward att_list.
Proof. unfold att_list. forward_auto. Qed.
#[local] Hint Resolve forward_att_list : forward.

Lemma forward_var : forward var.
Proof. unfold var. forward_auto. Qed.
#[local] Hint Resolve forward_var : forward.

Lemma forward_header (p : dict) : forward (header p).
Proof.
  unfold header, magic, numrecs, dim_list, gatt_list, var_list.
  forward_auto.
Qed.

(** Printing. *)

Lemma silent_ret {A} (a : A) : silent (ret a).
Proof. intros w; reflexivity. Qed.

Lemma silent_raise {A} (e : error) : silent (@raise A e).
Proof. intros w; reflexivity. Qed.

Lemma silent_lift {A} (r : result A) : silent (lift r).
Proof. destruct r; [apply silent_ret | apply silent_raise]. Qed.

Lemma silent_bind {A B} (m : M A) (k : A -> M B) :
  silent m -> (forall a, silent (k a)) -> silent (bind m k).
Proof.
  intros Hm Hk w. unfold bind. specialize (Hm w).
  destruct (m w) as [[a|e] w1]; simpl in *; [|exact Hm].
  rewrite (Hk a w1). exact Hm.
Qed.

Lemma silent_read (n : Z) : silent (read n).
Proof.
  intros w. unfold read.
  destruct (n <? -1); [reflexivity|]. destruct (refusal n); reflexivity.
Qed.

Lemma silent_tell : silent tell.
Proof. intros w; reflexivity. Qed.

Lemma silent_repeatM {A} (n : nat) (m : M A) :
  silent m -> silent (repeatM n m).
Proof.
  intros Hm. induction n as [|n IH]; simpl.
  - apply silent_ret.
  - apply silent_bind; [exact Hm | intros x].
    apply silent_bind; [exact IH | intros xs]. apply silent_ret.
Qed.

Lemma silent_raise_FormatError {A} (t : string) (args : list fmtarg) :
  silent (@raise_FormatError A t args).
Proof.
  unfold raise_FormatError.
  apply silent_bind; [apply silent_lift | intros msg].
  apply silent_raise.
Qed.

Create HintDb silent.
#[local] Hint Resolve silent_ret silent_raise silent_lift silent_read
  silent_tell silent_repeatM silent_raise_FormatError : silent.

Ltac silent_step :=
  match goal with
  | |- silent (bind _ _) => apply silent_bind; [| intros ?]
  | |- silent (if ?c then _ else _) => destruct c
  | |- silent (match ?x with _ => _ end) => destruct x
  | |- silent _ => solve [auto with silent]
  end.

Ltac silent_auto := repeat silent_step.

Lemma silent_non_neg : silent non_neg.
Proof. unfold non_neg. silent_auto. Qed.
#[local] Hint Resolve silent_non_neg : silent.

Lemma silent_nelems : silent nelems.
Proof. exact silent_non_neg. Qed.
#[local] Hint Resolve silent_nelems : silent.

Lemma silent_dim_length : silent dim_length.
Proof. unfold dim_length. silent_auto. Qed.
#[local] Hint Resolve silent_dim_length : silent.

Lemma silent_nc_type : silent nc_type.
Proof. unfold nc_type. silent_auto. Qed.
#[local] Hint Resolve silent_nc_type : silent.

Lemma silent_values (type : string) (n : Z) : silent (values type n).
Proof. unfold values. silent_auto. Qed.
#[local] Hint Resolve silent_values : silent.

Lemma silent_name : silent name.
Proof. unfold name. silent_auto. Qed.
#[local] Hint Resolve silent_name : silent.

Lemma silent_dim : silent dim.
Proof. unfold dim. silent_auto. Qed.
#[local] Hint Resolve silent_dim : silent.

Lemma silent_attr : silent attr.
Proof. unfold attr. silent_auto. Qed.
#[local] Hint Resolve silent_attr : silent.

Lemma silent_att_list : silent att_list.
Proof. unfold att_list. silent_auto. Qed.
#[local] Hint Resolve silent_att_list : silent.

Lemma silent_var : silent var.
Proof. unfold var. silent_auto. Qed.
#[local] Hint Resolve silent_var : silent.

Lemma silent_magic (p : dict) : silent (magic p).
Proof. unfold magic. silent_auto. Qed.

Lemma silent_numrecs (p : dict) : silent (numrecs p).
Proof. unfold numrecs. silent_auto. Qed.

Lemma silent_dim_list (p : dict) : silent (dim_list p).
Proof. unfold dim_list. silent_auto. Qed.

Lemma silent_gatt_list (p : dict) : silent (gatt_list p).
Proof. unfold gatt_list. silent_auto. Qed.

Lemma silent_one {A} (m : M A) : silent m -> prints_at_most_one m.
Proof. intros H w. left. apply H. Qed.

Lemma one_after_silent {A B} (m : M A) (k : A -> M B) :
  silent m -> (forall a, prints_at_most_one (k a)) ->
  prints_at_most_one (bind m k).
Proof.
  intros Hm Hk w. unfold bind. specialize (Hm w).
  destruct (m w) as [[a|e] w1]; simpl in *; [|left; exact Hm].
  rewrite <- Hm. apply Hk.
Qed.

Lemma print_then_silent {A} (line : string) (k : M A) (w : world) :
  silent k ->
  stdout (snd ((print line ;;; k) w)) = stdout w ++ [Line line].
Proof.
  intros H. unfold bind, print.
  rewrite (H (World (fdata w) (fpos w) (stdout w ++ [Line line]))).
  reflexivity.
Qed.

Lemma one_var_list (p : dict) : prints_at_most_one (var_list p).
Proof.
  unfold var_list.
  apply one_after_silent; [apply silent_read | intros b].
  destruct (bytes_eqb b zeros4).
  { apply silent_one. silent_auto. }
  destruct (negb _).
  { apply silent_one. silent_auto. }
  apply one_after_silent; [apply silent_nelems | intros n].
  apply one_after_silent; [apply silent_tell | intros pos].
  apply one_after_silent; [apply silent_lift | intros line].
  intros w. right. exists line.
  apply print_then_silent. silent_auto.
Qed.

Lemma one_header (p : dict) : prints_at_most_one (header p).
Proof.
  unfold header.
  apply one_after_silent; [apply silent_magic | intros p1].
  apply one_after_silent; [apply silent_numrecs | intros p2].
  apply one_after_silent; [apply silent_dim_list | intros p3].
  apply one_after_silent; [apply silent_gatt_list | intros p4].
  apply one_var_list.
Qed.

(** [pprint] leaves the file as [header] left it. *)
Lemma parse_input (content : list byte) (out : list output) :
  same_input (snd (parse content out))
             (snd (header [] (open_file content out))).
Proof.
  destruct (header [] (open_file content out)) as [[h|e] w'] eqn:E.
  - rewrite (parse_Ok _ _ _ _ E). split; reflexivity.
  - rewrite (parse_Raise _ _ _ _ E). split; reflexivity.
Qed.

(** ** Whole fields *)

(** X1. Whatever the file, when [parse] returns, the dictionary holds the
    five keys in the order version, numrecs, dim_list, gatt_list,
    var_list: the version is 1 or 2, the record count lies in
    [0, 2^31), the dimensions and the variables are ['absent'] or lists
    of well-shaped tuples, and the global attributes are a list. *)
Theorem parse_returns_header
    (content : list byte) (out : list output) (h : dict) (w' : world) :
  parse content out = (Ok h, w') -> is_header h.
Proof.
  intros H. pose proof (header_post (open_file content out)) as Hp.
  rewrite <- parse_fst, H in Hp. exact Hp.
Qed.

(** X2. Whatever the file, an exception that leaves [parse] is a
    [FormatError], [struct.error], [UnicodeDecodeError], [IndexError],
    [KeyError] for [%d], [AttributeError] for [numrecs], [NameError]
    for [p] or [attribute], or the [MemoryError] or [OverflowError] of a
    value array whose buffer the machine refuses: never [ValueError],
    [UnboundLocalError] or [AssertionError]. *)
Theorem parse_raises_header_errors
    (content : list byte) (out : list output) (e : error) (w' : world) :
  parse content out = (Raise e, w') ->
  ((exists msg, e = FormatError msg) \/ e = StructError
   \/ e = UnicodeDecodeError \/ e = IndexError \/ e = KeyError "%d"
   \/ e = AttributeError "numrecs" \/ e = NameError "p"
   \/ e = NameError "attribute" \/ e = MemoryError \/ e = OverflowError)
  /\ e <> ValueError /\ e <> AssertionError
  /\ (forall x, e <> UnboundLocalError x).
Proof.
  intros H. pose proof (header_post (open_file content out)) as Hp.
  rewrite <- parse_fst, H in Hp. simpl in Hp.
  unfold header_error, list_error, record_error, name_error, field_error
    in Hp.
  split; [tauto|].
  repeat split; [ | | intros x]; intros ->;
    repeat (destruct Hp as [Hp|Hp]); try discriminate;
    destruct Hp as [msg Hp]; discriminate.
Qed.

(** X3. [parse] does not change the file and leaves the offset inside
    it. *)
Theorem parse_stays_in_file (content : list byte) (out : list output) :
  fdata (snd (parse content out)) = content
  /\ (fpos (snd (parse content out)) <= length content)%nat.
Proof.
  destruct (forward_header [] (open_file content out)) as (Hd & _ & Hb).
  destruct (parse_input content out) as [Hd' Hp']. rewrite Hd', Hp'.
  split; [exact Hd | apply Hb; simpl; lia].
Qed.

(** X4. A run of [parse] that returns the header [h] ends its output
    with the pretty-printed [h], after nothing or after the one line of
    [var_list]; a run that raises has printed nothing or that one line,
    and not the header.  [magic], [numrecs], [dim_list] and [gatt_list]
    print nothing. *)
Theorem parse_prints_line_then_header
    (content : list byte) (out : list output) :
  (forall h w', parse content out = (Ok h, w') ->
     stdout w' = out ++ [Pretty h]
     \/ exists line, stdout w' = out ++ [Line line; Pretty h])
  /\ (forall e w', parse content out = (Raise e, w') ->
        stdout w' = out \/ exists line, stdout w' = out ++ [Line line])
  /\ (forall p, silent (magic p) /\ silent (numrecs p)
                /\ silent (dim_list p) /\ silent (gatt_list p)).
Proof.
  pose proof (one_header [] (open_file content out)) as Hone.
  destruct (header [] (open_file content out)) as [[h0|e0] w0] eqn:E;
    simpl in Hone.
  - rewrite (parse_Ok _ _ _ _ E). repeat split.
    + intros h w' H. injection H as <- <-. simpl.
      destruct Hone as [->|[line ->]]; [left; reflexivity|].
      right. exists line. rewrite <- app_assoc. reflexivity.
    + intros e w' H. discriminate.
    + apply silent_magic.
    + apply silent_numrecs.
    + apply silent_dim_list.
    + apply silent_gatt_list.
  - rewrite (parse_Raise _ _ _ _ E). repeat split.
    + intros h w' H. discriminate.
    + intros e w' H. injection H as <- <-. exact Hone.
    + apply silent_magic.
    + apply silent_numrecs.
    + apply silent_dim_list.
    + apply silent_gatt_list.
Qed.

Ltac read4_at pre b rest out :=
  rewrite (bind_Ok _ _ _ _ _ (read_word_at pre b rest out ltac:(simpl; lia))).

(** [non_neg] and [dim_length] on a field of four bytes. *)
Lemma non_neg_at (pre b rest : list byte) (out : list output) :
  length b = 4%nat ->
  non_neg (World (pre ++ b ++ rest) (length pre) out)
  = (if be_sint b <? 0
     then Raise (FormatError ("expected NON NEG, but found "
                              ++ str_int (be_sint b)))
     else Ok (be_sint b),
     World (pre ++ b ++ rest) (length pre + 4) out).
Proof.
  intros Hlen. unfold non_neg. read4_at pre b rest out.
  rewrite unpack_i_4, bind_lift_Ok, ?Hlen by assumption.
  destruct (be_sint b <? 0); [|reflexivity].
  apply raise_FormatError_Ok, message_non_neg.
Qed.

Lemma dim_length_at (pre b rest : list byte) (out : list output) :
  length b = 4%nat ->
  dim_length (World (pre ++ b ++ rest) (length pre) out)
  = (if be_sint b <? 0
     then Raise (FormatError ("invalid dim_length " ++ str_int (be_sint b)))
     else Ok (be_sint b),
     World (pre ++ b ++ rest) (length pre + 4) out).
Proof.
  intros Hlen. unfold dim_length. read4_at pre b rest out.
  rewrite unpack_i_4, bind_lift_Ok, ?Hlen by assumption.
  destruct (be_sint b <? 0); [|reflexivity].
  apply raise_FormatError_Ok, message_dim_length.
Qed.

(** X5. On a field of four bytes, [non_neg] and [dim_length] return its
    signed big-endian value when that is not negative and otherwise raise
    [FormatError] with the value, in decimal, at the end of the message;
    either way the offset moves by 4. *)
Theorem count_field_decoded (pre b rest : list byte) (out : list output) :
  length b = 4%nat ->
  let w := World (pre ++ b ++ rest) (length pre) out in
  let w' := World (pre ++ b ++ rest) (length pre + 4) out in
  non_neg w
  = (if be_sint b <? 0
     then Raise (FormatError ("expected NON NEG, but found "
                              ++ str_int (be_sint b)))
     else Ok (be_sint b), w')
  /\ dim_length w
     = (if be_sint b <? 0
        then Raise (FormatError ("invalid dim_length "
                                 ++ str_int (be_sint b)))
        else Ok (be_sint b), w').
Proof.
  intros Hlen. split; [apply non_neg_at | apply dim_length_at]; assumption.
Qed.

(** X6. Whatever the file, a count that [non_neg], [nelems] or
    [dim_length] returns lies in [0, 2^31), and all they raise is
    [struct.error] or [FormatError]. *)
Theorem counts_are_not_negative (w : world) :
  match fst (non_neg w) with
  | Ok n => 0 <= n < 2 ^ 31
  | Raise e => field_error e
  end
  /\ match fst (nelems w) with
     | Ok n => 0 <= n < 2 ^ 31
     | Raise e => field_error e
     end
  /\ match fst (dim_length w) with
     | Ok n => 0 <= n < 2 ^ 31
     | Raise e => field_error e
     end.
Proof.
  repeat split; [apply non_neg_post | apply non_neg_post | apply dim_length_post].
Qed.

Lemma nc_type_at (pre b rest : list byte) (out : list output) :
  length b = 4%nat ->
  nc_type (World (pre ++ b ++ rest) (length pre) out)
  = (if (1 <=? be_sint b) && (be_sint b <=? 6)
     then Ok (nth (Z.to_nat (be_sint b - 1)) known_types EmptyString)
     else Raise (FormatError ("invalid nc_type code "
                              ++ str_int (be_sint b))),
     World (pre ++ b ++ rest) (length pre + 4) out).
Proof.
  intros Hlen. unfold nc_type. read4_at pre b rest out.
  rewrite unpack_i_4, bind_lift_Ok, ?Hlen by assumption.
  set (x := be_sint b). clearbody x. unfold existsb.
  destruct (Z.eqb_spec x 1) as [->|H1]; [reflexivity|].
  destruct (Z.eqb_spec x 2) as [->|H2]; [reflexivity|].
  destruct (Z.eqb_spec x 3) as [->|H3]; [reflexivity|].
  destruct (Z.eqb_spec x 4) as [->|H4]; [reflexivity|].
  destruct (Z.eqb_spec x 5) as [->|H5]; [reflexivity|].
  destruct (Z.eqb_spec x 6) as [->|H6]; [reflexivity|].
  simpl negb. cbv iota.
  destruct (Z.leb_spec 1 x); destruct (Z.leb_spec x 6); try lia;
    simpl andb; cbv iota; apply raise_FormatError_Ok, message_nc_type.
Qed.

(** X7. On a field of four bytes, [nc_type] returns the name of the code
    for the codes 1 to 6, in the order byte, char, short, int, float,
    double, and raises [FormatError] with the code for every other
    value. *)
Theorem nc_type_decoded (pre b rest : list byte) (out : list output) :
  length b = 4%nat ->
  nc_type (World (pre ++ b ++ rest) (length pre) out)
  = (if (1 <=? be_sint b) && (be_sint b <=? 6)
     then Ok (nth (Z.to_nat (be_sint b - 1)) known_types EmptyString)
     else Raise (FormatError ("invalid nc_type code "
                              ++ str_int (be_sint b))),
     World (pre ++ b ++ rest) (length pre + 4) out).
Proof. intros. eapply nc_type_at; eassumption. Qed.

Lemma magic_at
    (p : dict) (pre rest : list byte) (v : byte) (out : list output) :
  magic p (World (pre ++ [x43; x44; x46; v] ++ rest) (length pre) out)
  = (if (byte_val v =? 1) || (byte_val v =? 2)
     then Ok (setitem "version" (VInt (byte_val v)) p)
     else Raise (FormatError ("VERSION byte " ++ hex_int (byte_val v)
                              ++ " is not acceptable")),
     World (pre ++ [x43; x44; x46; v] ++ rest) (length pre + 4) out).
Proof.
  unfold magic. read4_at pre [x43; x44; x46; v] rest out.
  change (startswith [x43; x44; x46; v] [x43; x44; x46]) with true.
  change (bytes_getitem [x43; x44; x46; v] 3) with (Ok (byte_val v)).
  change (negb true) with false. cbv iota. rewrite bind_lift_Ok.
  unfold existsb. rewrite orb_false_r.
  destruct (_ || _); simpl negb; cbv iota; [reflexivity|].
  apply raise_FormatError_Ok, message_version.
Qed.

(** X8. On the bytes C, D, F and a version byte, [magic] stores the
    version when it is 1 or 2 and otherwise raises [FormatError] with the
    byte in hexadecimal; the offset moves by 4. *)
Theorem magic_decoded
    (p : dict) (pre rest : list byte) (v : byte) (out : list output) :
  magic p (World (pre ++ [x43; x44; x46; v] ++ rest) (length pre) out)
  = (if (byte_val v =? 1) || (byte_val v =? 2)
     then Ok (setitem "version" (VInt (byte_val v)) p)
     else Raise (FormatError ("VERSION byte " ++ hex_int (byte_val v)
                              ++ " is not acceptable")),
     World (pre ++ [x43; x44; x46; v] ++ rest) (length pre + 4) out).
Proof. intros. eapply magic_at; eassumption. Qed.

Lemma remaining_open (content : list byte) (out : list output) :
  remaining (open_file content out) = content.
Proof. reflexivity. Qed.

Lemma magic_of_open (p : dict) (content : list byte) (out : list output) :
  magic p (open_file content out)
  = (if negb (bytes_eqb (firstn 3 content) [x43; x44; x46])
     then raise (FormatError "Wrong magic number")
     else
       version <- lift (bytes_getitem (firstn 4 content) 3) ;;
       if negb (existsb (Z.eqb version) [1; 2])
       then raise_FormatError "VERSION byte {:#x} is not acceptable"
              [AInt version]
       else ret (setitem "version" (VInt version) p))%py
      (World content (length (firstn 4 content)) out).
Proof.
  unfold magic.
  rewrite (bind_Ok _ _ _ _ _ (read_nonneg 4 (open_file content out)
                                ltac:(lia) served_4)).
  rewrite remaining_open. unfold startswith.
  rewrite firstn_firstn. reflexivity.
Qed.

(** X9. A file that does not start with the bytes C, D, F makes [parse]
    raise [FormatError] for the magic number, after a read of at most
    four bytes; the empty file is one such file. *)
Theorem parse_rejects_bad_magic (content : list byte) (out : list output) :
  firstn 3 content <> [x43; x44; x46] ->
  parse content out
  = (Raise (FormatError "Wrong magic number"),
     World content (length (firstn 4 content)) out).
Proof.
  intros H. apply parse_Raise. unfold header.
  apply bind_Raise. rewrite magic_of_open.
  rewrite (bytes_eqb_neq _ _ H). reflexivity.
Qed.

(** X10. A file of fewer than four bytes never gets past [magic]: it
    raises [IndexError] when the file is exactly the bytes C, D, F, and
    [FormatError] for the magic number otherwise. *)
Theorem parse_short_file (content : list byte) (out : list output) :
  (length content < 4)%nat ->
  fst (parse content out)
  = if bytes_eqb content [x43; x44; x46]
    then Raise IndexError
    else Raise (FormatError "Wrong magic number").
Proof.
  intros H. rewrite parse_fst. unfold header.
  assert (H3 : firstn 3 content = content)
    by (apply firstn_all2; lia).
  assert (H4 : firstn 4 content = content)
    by (apply firstn_all2; lia).
  assert (Hm : fst (magic [] (open_file content out))
               = if bytes_eqb content [x43; x44; x46]
                 then Raise IndexError
                 else Raise (FormatError "Wrong magic number")).
  { rewrite magic_of_open, H3, H4.
    destruct (bytes_eqb content [x43; x44; x46]); [|reflexivity].
    unfold bytes_getitem.
    rewrite (proj2 (nth_error_None content 3)) by lia. reflexivity. }
  destruct (magic [] (open_file content out)) as [[p|e] w1] eqn:Em;
    simpl in Hm.
  - destruct (bytes_eqb content [x43; x44; x46]); discriminate.
  - rewrite (bind_Raise _ _ _ _ _ Em). exact Hm.
Qed.

Lemma numrecs_at
    (p : dict) (pre b rest : list byte) (out : list output) :
  length b = 4%nat ->
  0 <= be_sint b ->
  numrecs p (World (pre ++ b ++ rest) (length pre) out)
  = (Ok (setitem "numrecs" (VInt (be_sint b)) p),
     World (pre ++ b ++ rest) (length pre + 4) out).
Proof.
  intros Hlen Hb. unfold numrecs. read4_at pre b rest out.
  rewrite unpack_i_4, bind_lift_Ok, ?Hlen by assumption.
  destruct (Z.ltb_spec (be_sint b) (-1)); [lia|].
  destruct (Z.eqb_spec (be_sint b) (-1)); [lia|].
  destruct (Z.leb_spec 0 (be_sint b)); [reflexivity | lia].
Qed.

(** X11. On a field of four bytes whose value is not negative, [numrecs]
    stores the value under the key numrecs and the offset moves by 4. *)
Theorem numrecs_stores_count
    (p : dict) (pre b rest : list byte) (out : list output) :
  length b = 4%nat ->
  0 <= be_sint b ->
  numrecs p (World (pre ++ b ++ rest) (length pre) out)
  = (Ok (setitem "numrecs" (VInt (be_sint b)) p),
     World (pre ++ b ++ rest) (length pre + 4) out).
Proof. intros. eapply numrecs_at; eassumption. Qed.

(** X12. Whatever the file, [numrecs] stores a count in [0, 2^31) or
    raises [struct.error], [KeyError] or [AttributeError]: it never raises
    [FormatError] and never stores a negative count or a marker. *)
Theorem numrecs_outcomes (p : dict) (w : world) :
  match fst (numrecs p w) with
  | Ok p' => exists n, 0 <= n < 2 ^ 31
                       /\ p' = setitem "numrecs" (VInt n) p
  | Raise e => e = StructError \/ e = KeyError "%d"
               \/ e = AttributeError "numrecs"
  end.
Proof. apply numrecs_post. Qed.

(** ** The three lists *)

Lemma world_after (pre a b rest : list byte) (out : list output) :
  World ((pre ++ a) ++ b ++ rest) (length (pre ++ a) + 4) out
  = World (pre ++ a ++ b ++ rest) (length pre + (length a + 4)) out.
Proof. rewrite length_app, <- app_assoc, Nat.add_assoc. reflexivity. Qed.

Ltac absent_count pre n rest out :=
  read4_at pre zeros4 (n ++ rest) out;
  rewrite bytes_eqb_refl, world_at;
  rewrite (bind_Ok _ _ _ _ _
             (read_word_at (pre ++ zeros4) n rest out ltac:(simpl; lia)));
  rewrite world_after.

(** X13. In each of the three lists, a zero tag followed by four bytes
    that are not all zero raises [FormatError], with the list named and
    the four bytes shown in the message. *)
Theorem absent_list_with_count_raises_FormatError
    (p : dict) (pre n rest : list byte) (out : list output) :
  length n = 4%nat ->
  n <> zeros4 ->
  let w := World (pre ++ zeros4 ++ n ++ rest) (length pre) out in
  let w' := World (pre ++ zeros4 ++ n ++ rest) (length pre + 8) out in
  dim_list p w
  = (Raise (FormatError ("expected ABSENT for dim_list, but found "
                         ++ repr_bytes n)), w')
  /\ att_list w
     = (Raise (FormatError ("expected ABSENT for att_list, but found "
                            ++ repr_bytes n)), w')
  /\ var_list p w
     = (Raise (FormatError ("expected ABSENT for var_list, but found "
                            ++ repr_bytes n)), w').
Proof.
  intros Hlen Hn w w'. subst w w'.
  repeat split.
  - unfold dim_list. absent_count pre n rest out.
    rewrite (bytes_eqb_neq _ _ Hn), ?Hlen. simpl negb. cbv iota.
    apply raise_FormatError_Ok.
    apply (message_absent "dim_list"). simpl; tauto.
  - unfold att_list. absent_count pre n rest out.
    rewrite (bytes_eqb_neq _ _ Hn), ?Hlen. simpl negb. cbv iota.
    apply raise_FormatError_Ok.
    apply (message_absent "att_list"). simpl; tauto.
  - unfold var_list. absent_count pre n rest out.
    rewrite (bytes_eqb_neq _ _ Hn), ?Hlen. simpl negb. cbv iota.
    apply raise_FormatError_Ok.
    apply (message_absent "var_list"). simpl; tauto.
Qed.

(** X14. A tag of four bytes that is neither zero nor the tag of the
    list makes [dim_list] (tag 0A) and [att_list] (tag 0C) raise
    [FormatError] with the tag shown in the message. *)
Theorem wrong_tag_raises_FormatError
    (p : dict) (pre b rest : list byte) (out : list output) :
  length b = 4%nat ->
  b <> zeros4 ->
  let w := World (pre ++ b ++ rest) (length pre) out in
  let w' := World (pre ++ b ++ rest) (length pre + 4) out in
  (b <> [x00; x00; x00; x0a] ->
   dim_list p w
   = (Raise (FormatError
               ("expected NC_DIMENSON for dim_list, but found "
                ++ repr_bytes b)), w'))
  /\ (b <> [x00; x00; x00; x0c] ->
      att_list w
      = (Raise (FormatError
                  ("expected NC_ATTRIBUTE for att_list, but found "
                   ++ repr_bytes b)), w')).
Proof.
  intros Hlen Hz w w'. subst w w'. split; intros Hb.
  - unfold dim_list. read4_at pre b rest out.
    rewrite (bytes_eqb_neq _ _ Hz), (bytes_eqb_neq _ _ Hb), ?Hlen.
    simpl negb. cbv iota.
    apply raise_FormatError_Ok, message_dim_tag.
  - unfold att_list. read4_at pre b rest out.
    rewrite (bytes_eqb_neq _ _ Hz), (bytes_eqb_neq _ _ Hb), ?Hlen.
    simpl negb. cbv iota.
    apply raise_FormatError_Ok, message_att_tag.
Qed.

Lemma absent_lists_at
    (p : dict) (pre rest : list byte) (out : list output) :
  let w := World (pre ++ zeros4 ++ zeros4 ++ rest) (length pre) out in
  let w' := World (pre ++ zeros4 ++ zeros4 ++ rest) (length pre + 8) out in
  dim_list p w = (Ok (setitem "dim_list" (VStr "absent") p), w')
  /\ var_list p w = (Ok (setitem "var_list" (VStr "absent") p), w').
Proof.
  intros w w'. subst w w'. split.
  - unfold dim_list. absent_count pre zeros4 rest out.
    rewrite bytes_eqb_refl. reflexivity.
  - unfold var_list. absent_count pre zeros4 rest out.
    rewrite bytes_eqb_refl. reflexivity.
Qed.

(** X15. A zero tag followed by a zero count makes [dim_list] and
    [var_list] store the marker ['absent'] under their key; eight bytes
    are consumed and nothing is printed. *)
Theorem absent_lists_are_stored
    (p : dict) (pre rest : list byte) (out : list output) :
  let w := World (pre ++ zeros4 ++ zeros4 ++ rest) (length pre) out in
  let w' := World (pre ++ zeros4 ++ zeros4 ++ rest) (length pre + 8) out in
  dim_list p w = (Ok (setitem "dim_list" (VStr "absent") p), w')
  /\ var_list p w = (Ok (setitem "var_list" (VStr "absent") p), w').
Proof. intros. eapply absent_lists_at; eassumption. Qed.

Lemma bind_tell {A} (k : Z -> M A) (w : world) :
  bind tell k w = k (Z.of_nat (fpos w)) w.
Proof. reflexivity. Qed.

(** X16. On the tag 0B and a count that is not negative, [var_list]
    prints one line, the count and the offset after the count, before it
    decodes the first variable: the line is on the standard output
    whether the variables decode or not. *)
Theorem var_list_prints_count_and_offset
    (p : dict) (pre n rest : list byte) (out : list output) :
  length n = 4%nat ->
  0 <= be_sint n ->
  stdout (snd (var_list p
                 (World (pre ++ [x00; x00; x00; x0b] ++ n ++ rest)
                        (length pre) out)))
  = out ++ [Line (str_int (be_sint n) ++ " vars at "
                  ++ str_int (Z.of_nat (length pre + 8)))%string].
Proof.
  intros Hlen Hn. unfold var_list.
  read4_at pre [x00; x00; x00; x0b] (n ++ rest) out.
  change (bytes_eqb [x00; x00; x00; x0b] zeros4) with false.
  change (bytes_eqb [x00; x00; x00; x0b] [x00; x00; x00; x0b]) with true.
  change (negb true) with false. cbv iota. rewrite world_at.
  unfold nelems.
  pose proof (non_neg_at (pre ++ [x00; x00; x00; x0b]) n rest out Hlen)
    as Hcount.
  destruct (Z.ltb_spec (be_sint n) 0); [lia|].
  rewrite (bind_Ok _ _ _ _ _ Hcount).
  rewrite bind_tell.
  rewrite message_vars, bind_lift_Ok.
  rewrite print_then_silent by silent_auto.
  cbn [stdout fpos]. rewrite length_app. simpl length.
  replace (length pre + 4 + 4)%nat with (length pre + 8)%nat by lia.
  reflexivity.
Qed.

(** ** Value arrays, continued *)

(** The items lie in the first [n * size] bytes of the span. *)
Lemma tuple_of_prefix (n : Z) (size : nat) (item : list byte -> value)
    (b : list byte) :
  tuple_of n size item (firstn (Z.to_nat n * size) b)
  = tuple_of n size item b.
Proof.
  unfold tuple_of. f_equal. apply map_ext_in. intros i Hi.
  apply in_seq in Hi. f_equal. unfold item_bytes.
  rewrite skipn_firstn_comm, firstn_firstn. f_equal.
  apply Nat.min_l. rewrite <- Nat.mul_sub_distr_r.
  assert (Hd : (1 <= Z.to_nat n - i)%nat) by lia.
  apply (Nat.mul_le_mono_r _ _ size) in Hd. lia.
Qed.

Lemma array_value_prefix (type : string) (nelems : Z) (b : list byte) :
  In type known_types ->
  0 <= nelems ->
  array_value type nelems (firstn (Z.to_nat (nelems * width type)) b)
  = array_value type nelems b.
Proof.
  intros Hin Hn. simpl in Hin.
  destruct Hin as [<-|[<-|[<-|[<-|[<-|[<-|[]]]]]]];
    cbv [array_value width type_layout String.eqb Ascii.eqb Bool.eqb].
  - rewrite <- (tuple_of_prefix nelems 1 _ b). do 2 f_equal.
    rewrite Z2Nat.inj_mul by lia. reflexivity.
  - rewrite firstn_firstn, Z.mul_1_r, Nat.min_id. reflexivity.
  - rewrite <- (tuple_of_prefix nelems 2 _ b). do 2 f_equal.
    rewrite Z2Nat.inj_mul by lia. reflexivity.
  - rewrite <- (tuple_of_prefix nelems 4 _ b). do 2 f_equal.
    rewrite Z2Nat.inj_mul by lia. reflexivity.
  - rewrite <- (tuple_of_prefix nelems 4 _ b). do 2 f_equal.
    rewrite Z2Nat.inj_mul by lia. reflexivity.
  - rewrite <- (tuple_of_prefix nelems 8 _ b). do 2 f_equal.
    rewrite Z2Nat.inj_mul by lia. reflexivity.
Qed.

Lemma span_nonneg (type : string) (nelems : Z) :
  In type known_types ->
  0 <= nelems ->
  0 <= nelems * width type <= 4 * ((nelems * width type + 3) / 4).
Proof.
  intros Hin Hn.
  assert (0 <= width type)
    by (simpl in Hin;
        destruct Hin as [<-|[<-|[<-|[<-|[<-|[<-|[]]]]]]];
        vm_compute; discriminate).
  destruct (span_bounds (nelems * width type) ltac:(nia)). nia.
Qed.

(** X17. For a type that [nc_type] names and a count that is not
    negative, [values] on any file either returns exactly that many items
    (for [char], one bytes value of that length), or raises
    [struct.error], or raises the [MemoryError] or [OverflowError] with
    which the machine refuses the buffer of the padded span: it returns
    no shorter array. *)
Theorem values_exact_or_raises
    (type : string) (nelems : Z) (w : world) :
  In type known_types ->
  0 <= nelems ->
  match fst (values type nelems w) with
  | Ok v => is_array type nelems v
  | Raise e =>
      e = StructError
      \/ ((e = MemoryError \/ e = OverflowError)
          /\ refusal (4 * ((nelems * width type + 3) / 4)) = Some e)
  end.
Proof.
  intros Hin Hn.
  destruct (span_nonneg type nelems Hin Hn) as [Hx Hp].
  destruct (read (4 * ((nelems * width type + 3) / 4)) w)
    as [[b|e] w'] eqn:Hread.
  - rewrite (values_read _ _ _ _ _ Hin Hn Hread).
    destruct (Nat.eqb_spec (length b)
                (Z.to_nat (4 * ((nelems * width type + 3) / 4)))).
    + apply is_array_value; assumption.
    + simpl. auto.
  - rewrite (values_refused _ _ _ _ _ Hin Hread). simpl fst.
    assert (H0 : 0 <= 4 * ((nelems * width type + 3) / 4)) by lia.
    destruct (read_Raise _ _ _ _ H0 Hread) as (He & _ & Hr). auto.
Qed.

(** X18. For a type that [nc_type] names and a count that is not
    negative, a file with fewer bytes left than the padded span makes
    [values] raise: [struct.error] when the read is served, after the
    bytes that are left have been consumed, and otherwise the
    [MemoryError] or [OverflowError] of the refused buffer, with nothing
    consumed. *)
Theorem values_short_input_raises
    (type : string) (nelems : Z) (w : world) :
  In type known_types ->
  0 <= nelems ->
  (length (remaining w)
   < Z.to_nat (4 * ((nelems * width type + 3) / 4)))%nat ->
  match refusal (4 * ((nelems * width type + 3) / 4)) with
  | None =>
      values type nelems w
      = (Raise StructError,
         World (fdata w) (fpos w + length (remaining w)) (stdout w))
  | Some e =>
      values type nelems w = (Raise e, w)
      /\ (e = MemoryError \/ e = OverflowError)
  end.
Proof.
  intros Hin Hn Hshort.
  destruct (span_nonneg type nelems Hin Hn) as [Hx Hp].
  assert (H0 : 0 <= 4 * ((nelems * width type + 3) / 4)) by lia.
  destruct (refusal _) as [e|] eqn:Er.
  - split; [|apply (refusal_kind _ _ Er)].
    apply (values_refused _ _ _ _ _ Hin).
    apply read_refused; [exact H0 | exact Er].
  - rewrite (values_read _ _ _ _ _ Hin Hn (read_short _ w H0 Er Hshort)).
    destruct (Nat.eqb_spec (length (remaining w))
                (Z.to_nat (4 * ((nelems * width type + 3) / 4))));
      [lia | reflexivity].
Qed.

Lemma type_layout_unknown (type : string) :
  ~ In type known_types -> type_layout type = None.
Proof.
  intros H. unfold type_layout.
  repeat match goal with
         | |- context [String.eqb type ?s] =>
             destruct (String.eqb_spec type s) as [->|_];
             [exfalso; apply H; simpl; tauto|]
         end.
  reflexivity.
Qed.

(** X19. For any other type name, [values] raises [UnboundLocalError]
    for [l] before it reads anything. *)
Theorem values_unknown_type_raises_UnboundLocalError
    (type : string) (nelems : Z) (w : world) :
  ~ In type known_types ->
  values type nelems w = (Raise (UnboundLocalError "l"), w).
Proof.
  intros H. unfold values. rewrite (type_layout_unknown _ H). reflexivity.
Qed.

(** X20. The padding of a value array is not looked at: for a type that
    [nc_type] names and a count that is not negative, two files that hold
    the padded span and agree on its first [nelems * width] bytes give
    the same value. *)
Theorem values_ignore_padding
    (type : string) (nelems : Z) (w1 w2 : world) :
  In type known_types ->
  0 <= nelems ->
  (Z.to_nat (4 * ((nelems * width type + 3) / 4))
   <= length (remaining w1))%nat ->
  (Z.to_nat (4 * ((nelems * width type + 3) / 4))
   <= length (remaining w2))%nat ->
  firstn (Z.to_nat (nelems * width type)) (remaining w1)
  = firstn (Z.to_nat (nelems * width type)) (remaining w2) ->
  fst (values type nelems w1) = fst (values type nelems w2).
Proof.
  intros Hin Hn H1 H2 Heq.
  destruct (span_nonneg type nelems Hin Hn) as [Hx Hp].
  set (padded := 4 * ((nelems * width type + 3) / 4)) in *.
  assert (Hp0 : 0 <= padded) by lia.
  destruct (refusal padded) as [e|] eqn:Er.
  - rewrite (values_refused _ _ _ _ _ Hin (read_refused padded w1 e Hp0 Er)).
    rewrite (values_refused _ _ _ _ _ Hin (read_refused padded w2 e Hp0 Er)).
    reflexivity.
  - rewrite (values_read _ _ _ _ _ Hin Hn (read_full padded w1 Hp0 Er H1)).
    rewrite (values_read _ _ _ _ _ Hin Hn (read_full padded w2 Hp0 Er H2)).
    fold padded.
    rewrite !length_firstn, !Nat.min_l, Nat.eqb_refl by assumption.
    simpl fst. f_equal.
    rewrite <- (array_value_prefix type nelems (firstn _ (remaining w1)))
      by assumption.
    rewrite <- (array_value_prefix type nelems (firstn _ (remaining w2)))
      by assumption.
    rewrite !firstn_firstn, !Nat.min_l by lia.
    rewrite Heq. reflexivity.
Qed.

(** ** Names, continued *)

(** X21. A length word of four bytes with a negative value makes [name]
    raise [FormatError] with the value; nothing after the word is
    read. *)
Theorem name_negative_length_raises_FormatError
    (pre b rest : list byte) (out : list output) :
  length b = 4%nat ->
  be_sint b < 0 ->
  name (World (pre ++ b ++ rest) (length pre) out)
  = (Raise (FormatError ("expected name nelems, but found "
                         ++ str_int (be_sint b))),
     World (pre ++ b ++ rest) (length pre + 4) out).
Proof.
  intros Hlen Hb. unfold name. read4_at pre b rest out.
  rewrite unpack_i_4, bind_lift_Ok, ?Hlen by assumption.
  destruct (Z.ltb_spec (be_sint b) 0); [|lia].
  apply raise_FormatError_Ok, message_name.
Qed.


(** ** Attribute lists, continued *)

Lemma raise_FormatError_raises {A} (template : string)
    (args : list fmtarg) (w : world) (a : A) (w' : world) :
  @raise_FormatError A template args w <> (Ok a, w').
Proof.
  unfold raise_FormatError, bind, lift.
  destruct (format template args); discriminate.
Qed.

(** What a returning [non_neg] has read. *)
Lemma non_neg_Ok (w : world) (n : Z) (w' : world) :
  non_neg w = (Ok n, w') ->
  (4 <= length (remaining w))%nat
  /\ n = be_sint (firstn 4 (remaining w))
  /\ 0 <= n
  /\ w' = World (fdata w) (fpos w + 4) (stdout w).
Proof.
  unfold non_neg.
  rewrite (bind_Ok _ _ _ _ _ (read_nonneg 4 w ltac:(lia) served_4)).
  unfold unpack_i.
  destruct (Nat.eqb_spec (length (firstn (Z.to_nat 4) (remaining w))) 4)
    as [E|E]; [|intros H; discriminate].
  rewrite bind_lift_Ok, E.
  destruct (Z.ltb_spec (be_sint (firstn (Z.to_nat 4) (remaining w))) 0)
    as [Hlt|Hge].
  - intros H. destruct (raise_FormatError_raises _ _ _ _ _ H).
  - intros H. injection H as <- <-.
    rewrite length_firstn in E. repeat split; [lia | assumption].
Qed.

(** [repeatM n m] returns the results of [n] successive runs of [m]. *)
Lemma repeatM_Ok {A} (n : nat) (m : M A) (w : world) (l : list A)
    (w' : world) :
  repeatM n m w = (Ok l, w') -> length l = n /\ run_list m w l w'.
Proof.
  revert w l. induction n as [|n IH]; intros w l; simpl.
  - intros H. injection H as <- <-. split; [reflexivity | constructor].
  - unfold bind at 1. destruct (m w) as [[a|e] w1] eqn:Em; [|discriminate].
    unfold bind at 1.
    destruct (repeatM n m w1) as [[xs|e] w2] eqn:Er; [|discriminate].
    intros H. injection H as <- <-.
    destruct (IH _ _ Er) as [Hlen Hrun].
    split; [simpl; congruence | econstructor; eassumption].
Qed.

(** X23. Whatever the file, [att_list] returns only after the tag 0C
    and a count word that is not negative, and what it returns is the
    list of as many attributes as the count word says, decoded by [attr]
    one after the other from the byte after the count word: never
    [None] and never a marker for an absent list.  Each attribute is a
    pair of a name and of a tuple or a bytes value. *)
Theorem att_list_returns_list (w : world) (v : value) (w' : world) :
  att_list w = (Ok v, w') ->
  exists l,
    v = VList l
    /\ (8 <= length (remaining w))%nat
    /\ firstn 4 (remaining w) = [x00; x00; x00; x0c]
    /\ Z.of_nat (length l) = be_sint (firstn 4 (skipn 4 (remaining w)))
    /\ run_list attr (World (fdata w) (fpos w + 8) (stdout w)) l w'
    /\ Forall is_attr l.
Proof.
  intros H.
  pose proof (att_list_post w) as Hpost. rewrite H in Hpost.
  destruct Hpost as (l0 & Hv & Hl0).
  unfold att_list in H.
  rewrite (bind_Ok _ _ _ _ _ (read_nonneg 4 w ltac:(lia) served_4)) in H.
  change (Z.to_nat 4) with 4%nat in H.
  destruct (bytes_eqb (firstn 4 (remaining w)) zeros4).
  { rewrite (bind_Ok _ _ _ _ _ (read_nonneg 4 _ ltac:(lia) served_4)) in H.
    destruct (negb _).
    - destruct (raise_FormatError_raises _ _ _ _ _ H).
    - discriminate. }
  destruct (bytes_eqb (firstn 4 (remaining w)) [x00; x00; x00; x0c])
    eqn:Etag;
    [ change (negb true) with false in H
    | change (negb false) with true in H ];
    cbv iota in H;
    [|destruct (raise_FormatError_raises _ _ _ _ _ H)].
  apply bytes_eqb_eq in Etag.
  assert (Hlen4 : length (firstn 4 (remaining w)) = 4%nat)
    by (rewrite Etag; reflexivity).
  rewrite Hlen4 in H.
  unfold nelems in H.
  destruct (non_neg (World (fdata w) (fpos w + 4) (stdout w)))
    as [[n|e] w2] eqn:En;
    [rewrite (bind_Ok _ _ _ _ _ En) in H
    |rewrite (bind_Raise _ _ _ _ _ En) in H; discriminate].
  apply non_neg_Ok in En. destruct En as (Hrem & Hn & Hn0 & ->).
  unfold remaining in Hrem, Hn. cbn [fdata fpos stdout] in Hrem, Hn.
  rewrite Nat.add_comm, <- skipn_skipn in Hrem, Hn.
  fold (remaining w) in Hrem, Hn.
  cbn [fdata fpos stdout] in H.
  destruct (repeatM (Z.to_nat n) attr
              (World (fdata w) (fpos w + 4 + 4) (stdout w)))
    as [[l|e] w3] eqn:Er;
    [rewrite (bind_Ok _ _ _ _ _ Er) in H
    |rewrite (bind_Raise _ _ _ _ _ Er) in H; discriminate].
  injection H as <- <-.
  apply repeatM_Ok in Er. destruct Er as [Hlen Hrun].
  exists l. injection Hv as <-.
  rewrite length_skipn in Hrem.
  replace (fpos w + 4 + 4)%nat with (fpos w + 8)%nat in Hrun by lia.
  repeat split; [lia | exact Etag | rewrite Hlen, <- Hn; lia
                | exact Hrun | exact Hl0].
Qed.

(** ** Dimension lists *)

Lemma firstn_exact {A} (a b : list A) (n : nat) :
  length a = n -> firstn n (a ++ b) = a.
Proof.
  intros <-. rewrite firstn_app, Nat.sub_diag, firstn_all. simpl.
  apply app_nil_r.
Qed.

Lemma skipn_exact {A} (a b : list A) (n : nat) :
  length a = n -> skipn n (a ++ b) = b.
Proof.
  intros <-. rewrite skipn_app, Nat.sub_diag, skipn_all. reflexivity.
Qed.

Lemma length_name_padding (n : nat) :
  (n + length (name_padding n))%nat
  = Z.to_nat (4 * ((Z.of_nat n + 3) / 4)).
Proof.
  unfold name_padding. rewrite repeat_length.
  destruct (padded_bounds (Z.of_nat n) ltac:(lia)) as [_ H]. lia.
Qed.

Lemma name_padding_zero (n : nat) :
  forallb (fun b => Byte.eqb b x00) (name_padding n) = true.
Proof.
  unfold name_padding. induction (_ - _)%nat; simpl; auto.
Qed.

(** A whole name: length word, valid text, zero padding. *)
Lemma name_at (pre lw text rest : list byte) (out : list output) :
  length lw = 4%nat ->
  be_sint lw = Z.of_nat (length text) ->
  utf8_valid text = true ->
  name (World (pre ++ lw ++ text ++ name_padding (length text) ++ rest)
              (length pre) out)
  = (Ok (string_of_list_byte text),
     World (pre ++ lw ++ text ++ name_padding (length text) ++ rest)
           (length pre + 4 + (length text + length (name_padding (length text))))
           out).
Proof.
  intros Hlw HL Hvalid.
  set (pad := name_padding (length text)).
  set (w := World (pre ++ lw ++ text ++ pad ++ rest) (length pre) out).
  assert (Hrem : remaining w = lw ++ text ++ pad ++ rest)
    by apply remaining_at.
  pose proof (length_name_padding (length text)) as Hpad. fold pad in Hpad.
  assert (Hspan : firstn (Z.to_nat (4 * ((Z.of_nat (length text) + 3) / 4)))
                    (skipn 4 (remaining w)) = text ++ pad).
  { rewrite Hrem, (skipn_exact lw _ 4 Hlw), app_assoc.
    apply firstn_exact. rewrite length_app. exact Hpad. }
  rewrite (name_full w (Z.of_nat (length text))).
  - rewrite Hspan, Nat2Z.id.
    rewrite (firstn_exact text pad _ eq_refl),
            (skipn_exact text pad _ eq_refl).
    rewrite Hvalid. unfold pad. rewrite name_padding_zero.
    fold pad. rewrite <- Hpad. reflexivity.
  - rewrite Hrem, (firstn_exact lw _ 4 Hlw), unpack_i_4, HL by assumption.
    reflexivity.
  - lia.
  - rewrite Hrem, !length_app. lia.
Qed.

Lemma dim_at (pre rest : list byte) (out : list output) (r : dim_record) :
  dim_record_ok r ->
  dim (World (pre ++ dim_record_bytes r ++ rest) (length pre) out)
  = (Ok (dim_record_value r),
     World (pre ++ dim_record_bytes r ++ rest)
           (length pre + length (dim_record_bytes r)) out).
Proof.
  destruct r as [[lw text] dl]. intros (Hlw & HL & Hvalid & Hdl & Hpos).
  unfold dim_record_bytes, dim_record_value, dim.
  set (pad := name_padding (length text)).
  replace ((lw ++ text ++ pad ++ dl) ++ rest)
    with (lw ++ text ++ pad ++ dl ++ rest)
    by (rewrite <- !app_assoc; reflexivity).
  rewrite (bind_Ok _ _ _ _ _
             (name_at pre lw text (dl ++ rest) out Hlw HL Hvalid)).
  fold pad.
  replace (World (pre ++ lw ++ text ++ pad ++ dl ++ rest)
                 (length pre + 4 + (length text + length pad)) out)
    with (World ((pre ++ lw ++ text ++ pad) ++ dl ++ rest)
                (length (pre ++ lw ++ text ++ pad)) out)
    by (rewrite !length_app, <- !app_assoc, Hlw; f_equal; lia).
  pose proof (dim_length_at (pre ++ lw ++ text ++ pad) dl rest out Hdl)
    as Hd.
  destruct (Z.ltb_spec (be_sint dl) 0); [lia|].
  rewrite (bind_Ok _ _ _ _ _ Hd). unfold ret.
  rewrite !length_app, <- !app_assoc, Hlw, Hdl. do 2 f_equal. lia.
Qed.

Lemma dims_at (recs : list dim_record) :
  Forall dim_record_ok recs ->
  forall (pre rest : list byte) (out : list output),
    repeatM (length recs) dim
      (World (pre ++ flat_map dim_record_bytes recs ++ rest)
             (length pre) out)
    = (Ok (map dim_record_value recs),
       World (pre ++ flat_map dim_record_bytes recs ++ rest)
             (length pre + length (flat_map dim_record_bytes recs)) out).
Proof.
  induction 1 as [|r recs Hr Hrecs IH]; intros pre rest out.
  - simpl. unfold ret. rewrite Nat.add_0_r. reflexivity.
  - simpl repeatM. simpl flat_map. simpl map.
    replace ((dim_record_bytes r ++ flat_map dim_record_bytes recs) ++ rest)
      with (dim_record_bytes r ++ flat_map dim_record_bytes recs ++ rest)
      by (rewrite <- app_assoc; reflexivity).
    rewrite (bind_Ok _ _ _ _ _ (dim_at pre _ out r Hr)).
    rewrite world_at.
    rewrite (bind_Ok _ _ _ _ _ (IH (pre ++ dim_record_bytes r) rest out)).
    unfold ret. rewrite !length_app, <- !app_assoc, Nat.add_assoc.
    reflexivity.
Qed.

Lemma dim_list_at
    (p : dict) (pre count rest : list byte) (out : list output)
    (recs : list dim_record) :
  length count = 4%nat ->
  be_sint count = Z.of_nat (length recs) ->
  Forall dim_record_ok recs ->
  let data := pre ++ [x00; x00; x00; x0a] ++ count
              ++ flat_map dim_record_bytes recs ++ rest in
  dim_list p (World data (length pre) out)
  = (Ok (setitem "dim_list" (VList (map dim_record_value recs)) p),
     World data
           (length pre + 4 + 4 + length (flat_map dim_record_bytes recs))
           out).
Proof.
  intros Hlen Hcount Hrecs data. subst data. unfold dim_list.
  read4_at pre [x00; x00; x00; x0a] (count ++ flat_map dim_record_bytes recs ++ rest) out.
  change (bytes_eqb [x00; x00; x00; x0a] zeros4) with false.
  change (bytes_eqb [x00; x00; x00; x0a] [x00; x00; x00; x0a]) with true.
  change (negb true) with false. cbv iota. rewrite world_at.
  unfold nelems.
  pose proof (non_neg_at (pre ++ [x00; x00; x00; x0a]) count
                (flat_map dim_record_bytes recs ++ rest) out Hlen) as Hn.
  destruct (Z.ltb_spec (be_sint count) 0); [lia|].
  rewrite (bind_Ok _ _ _ _ _ Hn).
  rewrite Hcount, Nat2Z.id.
  replace (World ((pre ++ [x00; x00; x00; x0a]) ++ count
                  ++ flat_map dim_record_bytes recs ++ rest)
                 (length (pre ++ [x00; x00; x00; x0a]) + 4) out)
    with (World (((pre ++ [x00; x00; x00; x0a]) ++ count)
                 ++ flat_map dim_record_bytes recs ++ rest)
                (length ((pre ++ [x00; x00; x00; x0a]) ++ count)) out)
    by (rewrite !length_app, <- !app_assoc, ?Hlen; reflexivity).
  rewrite (bind_Ok _ _ _ _ _ (dims_at recs Hrecs _ rest out)).
  unfold ret. rewrite !length_app, <- !app_assoc, ?Hlen. reflexivity.
Qed.

(** X24. A dimension list that is well formed decodes to its
    dimensions, in order, and is consumed exactly: after the tag 0A and a
    count word equal to the number of records, each record being a length
    word, that many bytes of valid UTF-8, zero bytes up to a multiple of
    4 and a dimension length that is not negative, [dim_list] stores the
    list of the pairs of name and length and stops after the last
    record. *)
Theorem dim_list_decodes
    (p : dict) (pre count rest : list byte) (out : list output)
    (recs : list dim_record) :
  length count = 4%nat ->
  be_sint count = Z.of_nat (length recs) ->
  Forall dim_record_ok recs ->
  let data := pre ++ [x00; x00; x00; x0a] ++ count
              ++ flat_map dim_record_bytes recs ++ rest in
  dim_list p (World data (length pre) out)
  = (Ok (setitem "dim_list" (VList (map dim_record_value recs)) p),
     World data
           (length pre + 4 + 4 + length (flat_map dim_record_bytes recs))
           out).
Proof. intros. eapply dim_list_at; eassumption. Qed.

(** ** Attribute records *)

Lemma known_type_of_code (x : Z) :
  1 <= x <= 6 ->
  In (nth (Z.to_nat (x - 1)) known_types EmptyString) known_types.
Proof.
  intros H. apply nth_In. simpl. lia.
Qed.

(** X26. An attribute record decodes to its name and its values, and is
    consumed exactly: after a length word, that many bytes of valid
    UTF-8 and zero padding to a multiple of 4, a type code from 1 to 6,
    a count word that is not negative and the padded span of that many
    items of that type, whose buffer is granted, [attr] returns the pair
    of the name and of the array of exactly the declared count of items
    decoded from the span, and leaves the offset right after the
    span. *)
Theorem attr_decodes
    (pre lw text tw cw span rest : list byte) (out : list output) :
  length lw = 4%nat ->
  be_sint lw = Z.of_nat (length text) ->
  utf8_valid text = true ->
  length tw = 4%nat ->
  1 <= be_sint tw <= 6 ->
  length cw = 4%nat ->
  0 <= be_sint cw ->
  let type := nth (Z.to_nat (be_sint tw - 1)) known_types EmptyString in
  let padded_length := 4 * ((be_sint cw * width type + 3) / 4) in
  served padded_length ->
  length span = Z.to_nat padded_length ->
  let record :=
    lw ++ text ++ name_padding (length text) ++ tw ++ cw ++ span in
  attr (World (pre ++ record ++ rest) (length pre) out)
  = (Ok (VTuple [VStr (string_of_list_byte text);
                 array_value type (be_sint cw) span]),
     World (pre ++ record ++ rest) (length pre + length record) out)
  /\ is_array type (be_sint cw) (array_value type (be_sint cw) span).
Proof.
  intros Hlw HL Hvalid Htw Hcode Hcw Hcount type padded_length Hserved
    Hspan record.
  assert (Hin : In type known_types) by (apply known_type_of_code, Hcode).
  split; [|apply is_array_value; assumption].
  subst record. unfold attr.
  set (pad := name_padding (length text)).
  replace ((lw ++ text ++ pad ++ tw ++ cw ++ span) ++ rest)
    with (lw ++ text ++ pad ++ tw ++ cw ++ span ++ rest)
    by (rewrite <- !app_assoc; reflexivity).
  rewrite (bind_Ok _ _ _ _ _
             (name_at pre lw text (tw ++ cw ++ span ++ rest) out
                Hlw HL Hvalid)).
  fold pad.
  replace (World (pre ++ lw ++ text ++ pad ++ tw ++ cw ++ span ++ rest)
                 (length pre + 4 + (length text + length pad)) out)
    with (World ((pre ++ lw ++ text ++ pad) ++ tw ++ cw ++ span ++ rest)
                (length (pre ++ lw ++ text ++ pad)) out)
    by (rewrite !length_app, <- !app_assoc, Hlw; f_equal; lia).
  pose proof (nc_type_at (pre ++ lw ++ text ++ pad) tw
                (cw ++ span ++ rest) out Htw) as Ht.
  destruct (Z.leb_spec 1 (be_sint tw)); [|lia].
  destruct (Z.leb_spec (be_sint tw) 6); [|lia].
  simpl andb in Ht. cbv iota in Ht. fold type in Ht.
  rewrite (bind_Ok _ _ _ _ _ Ht).
  replace (World ((pre ++ lw ++ text ++ pad) ++ tw ++ cw ++ span ++ rest)
                 (length (pre ++ lw ++ text ++ pad) + 4) out)
    with (World ((pre ++ lw ++ text ++ pad ++ tw) ++ cw ++ span ++ rest)
                (length (pre ++ lw ++ text ++ pad ++ tw)) out)
    by (rewrite !length_app, <- !app_assoc, Htw; f_equal; lia).
  unfold nelems.
  pose proof (non_neg_at (pre ++ lw ++ text ++ pad ++ tw) cw
                (span ++ rest) out Hcw) as Hc.
  destruct (Z.ltb_spec (be_sint cw) 0); [lia|].
  rewrite (bind_Ok _ _ _ _ _ Hc).
  replace (World ((pre ++ lw ++ text ++ pad ++ tw) ++ cw ++ span ++ rest)
                 (length (pre ++ lw ++ text ++ pad ++ tw) + 4) out)
    with (World ((pre ++ lw ++ text ++ pad ++ tw ++ cw) ++ span ++ rest)
                (length (pre ++ lw ++ text ++ pad ++ tw ++ cw)) out)
    by (rewrite !length_app, <- !app_assoc, Hcw; f_equal; lia).
  assert (Hp : 0 <= padded_length)
    by (destruct (span_nonneg type (be_sint cw) Hin Hcount);
        unfold padded_length; lia).
  assert (Hread : read padded_length
                    (World ((pre ++ lw ++ text ++ pad ++ tw ++ cw)
                            ++ span ++ rest)
                           (length (pre ++ lw ++ text ++ pad ++ tw ++ cw))
                           out)
                  = (Ok span,
                     World ((pre ++ lw ++ text ++ pad ++ tw ++ cw)
                            ++ span ++ rest)
                           (length (pre ++ lw ++ text ++ pad ++ tw ++ cw)
                            + length span) out)).
  { apply read_at; [rewrite Hspan; lia | exact Hserved]. }
  pose proof (values_read _ _ _ _ _ Hin Hcount Hread) as Hvalues.
  fold padded_length in Hvalues.
  rewrite Hspan, Nat.eqb_refl in Hvalues.
  rewrite (bind_Ok _ _ _ _ _ Hvalues). unfold ret.
  rewrite !length_app, <- !app_assoc. do 2 f_equal. lia.
Qed.

(** ** A whole header *)

(** An attribute list with the tag 0C and no attribute. *)
Lemma att_list_empty (pre rest : list byte) (out : list output) :
  att_list (World (pre ++ [x00; x00; x00; x0c] ++ zeros4 ++ rest)
                  (length pre) out)
  = (Ok (VList []),
     World (pre ++ [x00; x00; x00; x0c] ++ zeros4 ++ rest)
           (length pre + 8) out).
Proof.
  unfold att_list.
  read4_at pre [x00; x00; x00; x0c] (zeros4 ++ rest) out.
  change (bytes_eqb [x00; x00; x00; x0c] zeros4) with false.
  change (bytes_eqb [x00; x00; x00; x0c] [x00; x00; x00; x0c]) with true.
  change (negb true) with false. cbv iota. rewrite world_at.
  unfold nelems.
  rewrite (bind_Ok _ _ _ _ _
             (non_neg_at (pre ++ [x00; x00; x00; x0c]) zeros4 rest out
                eq_refl)).
  simpl repeatM. rewrite bind_ret. unfold ret.
  rewrite length_app, <- app_assoc, <- Nat.add_assoc. reflexivity.
Qed.

(** X25. A header made of the magic number with version 1 or 2, a record
    count that is not negative, a well-formed dimension list, an
    attribute list with tag 0C and no attribute, and an absent variable
    list decodes: [parse] returns the five entries, reads the file to its
    end and prints the dictionary it returns, and nothing else. *)
Theorem parse_decodes_dimension_header
    (v : byte) (nr count : list byte) (recs : list dim_record)
    (out : list output) :
  v = x01 \/ v = x02 ->
  length nr = 4%nat -> 0 <= be_sint nr ->
  length count = 4%nat -> be_sint count = Z.of_nat (length recs) ->
  Forall dim_record_ok recs ->
  let content :=
    [x43; x44; x46; v] ++ nr
    ++ [x00; x00; x00; x0a] ++ count ++ flat_map dim_record_bytes recs
    ++ [x00; x00; x00; x0c] ++ zeros4
    ++ zeros4 ++ zeros4 in
  parse content out
  = (Ok [("version", VInt (byte_val v)); ("numrecs", VInt (be_sint nr));
         ("dim_list", VList (map dim_record_value recs));
         ("gatt_list", VList []);
         ("var_list", VStr "absent")],
     World content (length content)
       (out ++ [Pretty
                  [("version", VInt (byte_val v));
                   ("numrecs", VInt (be_sint nr));
                   ("dim_list", VList (map dim_record_value recs));
                   ("gatt_list", VList []);
                   ("var_list", VStr "absent")]])).
Proof.
  intros Hv Hnr Hnr0 Hcount Hcount_eq Hrecs content.
  destruct (length_4 nr Hnr) as (n0 & n1 & n2 & n3 & Enr).
  destruct (length_4 count Hcount) as (c0 & c1 & c2 & c3 & Ecount).
  set (dims := flat_map dim_record_bytes recs) in *.
  apply (parse_Ok content out _ (World content (length content) out)).
  unfold header, open_file.
  assert (H1 : magic [] (World content 0 out)
               = (Ok [("version", VInt (byte_val v))], World content 4 out)).
  { pose proof (magic_at [] []
                  (nr ++ [x00; x00; x00; x0a] ++ count ++ dims
                   ++ [x00; x00; x00; x0c] ++ zeros4 ++ zeros4 ++ zeros4)
                  v out) as H.
    destruct Hv as [->| ->]; exact H. }
  rewrite (bind_Ok _ _ _ _ _ H1).
  assert (H2 : numrecs [("version", VInt (byte_val v))] (World content 4 out)
               = (Ok [("version", VInt (byte_val v));
                      ("numrecs", VInt (be_sint nr))],
                  World content 8 out)).
  { exact (numrecs_at [("version", VInt (byte_val v))]
             [x43; x44; x46; v] nr _ out Hnr Hnr0). }
  rewrite (bind_Ok _ _ _ _ _ H2).
  assert (H3 : dim_list [("version", VInt (byte_val v));
                         ("numrecs", VInt (be_sint nr))]
                 (World content 8 out)
               = (Ok [("version", VInt (byte_val v));
                      ("numrecs", VInt (be_sint nr));
                      ("dim_list", VList (map dim_record_value recs))],
                  World content (16 + length dims) out)).
  { pose proof (dim_list_at
                  [("version", VInt (byte_val v));
                   ("numrecs", VInt (be_sint nr))]
                  ([x43; x44; x46; v] ++ nr) count
                  ([x00; x00; x00; x0c] ++ zeros4 ++ zeros4 ++ zeros4)
                  out recs Hcount Hcount_eq Hrecs) as H.
    cbv zeta in H. fold dims in H. unfold content.
    rewrite Enr in *. exact H. }
  rewrite (bind_Ok _ _ _ _ _ H3).
  assert (H4 : gatt_list [("version", VInt (byte_val v));
                          ("numrecs", VInt (be_sint nr));
                          ("dim_list", VList (map dim_record_value recs))]
                 (World content (16 + length dims) out)
               = (Ok [("version", VInt (byte_val v));
                      ("numrecs", VInt (be_sint nr));
                      ("dim_list", VList (map dim_record_value recs));
                      ("gatt_list", VList [])],
                  World content (24 + length dims) out)).
  { unfold gatt_list.
    pose proof (att_list_empty
                  ([x43; x44; x46; v] ++ nr ++ [x00; x00; x00; x0a]
                   ++ count ++ dims)
                  (zeros4 ++ zeros4) out) as H.
    unfold content. rewrite Enr, Ecount in *.
    rewrite !length_app in H. simpl length in H.
    replace (4 + (4 + (4 + (4 + length dims))) + 8)%nat
      with (24 + length dims)%nat in H by lia.
    replace (4 + (4 + (4 + (4 + length dims))))%nat
      with (16 + length dims)%nat in H by lia.
    rewrite <- !app_assoc in H. simpl app in H. simpl app.
    rewrite (bind_Ok _ _ _ _ _ H). reflexivity. }
  rewrite (bind_Ok _ _ _ _ _ H4).
  destruct (absent_lists_at
              [("version", VInt (byte_val v));
               ("numrecs", VInt (be_sint nr));
               ("dim_list", VList (map dim_record_value recs));
               ("gatt_list", VList [])]
              ([x43; x44; x46; v] ++ nr ++ [x00; x00; x00; x0a]
               ++ count ++ dims ++ [x00; x00; x00; x0c] ++ zeros4)
              [] out) as [_ H].
  unfold content. rewrite Enr, Ecount in *.
  rewrite !length_app in *. simpl length in *.
  rewrite <- !app_assoc in H. simpl app in H. simpl app.
  replace (4 + (4 + (4 + (4 + (length dims + (4 + 4))))) + 8)%nat
    with (S (S (S (S (S (S (S (S (S (S (S (S (S (S (S (S
           (length dims + 16))))))))))))))))) in H by lia.
  replace (4 + (4 + (4 + (4 + (length dims + (4 + 4))))))%nat
    with (24 + length dims)%nat in H by lia.
  exact H.
Qed.


(** ** Truncated input *)

Lemma raises_bind_l {A B} (m : M A) (k : A -> M B) (w : world) :
  raises m w -> raises (bind m k) w.
Proof.
  intros (e & w' & H). exists e, w'. apply bind_Raise. exact H.
Qed.

Lemma raises_bind_r {A B} (m : M A) (k : A -> M B) (w : world)
    (a : A) (w1 : world) :
  m w = (Ok a, w1) -> raises (k a) w1 -> raises (bind m k) w.
Proof.
  intros H (e & w' & Hk). exists e, w'.
  rewrite (bind_Ok _ _ _ _ _ H). exact Hk.
Qed.

Lemma raises_raise {A} (e : error) (w : world) : raises (@raise A e) w.
Proof. exists e, w. reflexivity. Qed.

Lemma raises_raise_FormatError {A} (t : string) (args : list fmtarg)
    (w : world) :
  raises (@raise_FormatError A t args) w.
Proof.
  unfold raise_FormatError, bind, lift.
  destruct (format t args) as [msg|e]; eexists _, _; reflexivity.
Qed.

Lemma bind_inv {A B} (m : M A) (k : A -> M B) (w : world) (b : B)
    (w' : world) :
  bind m k w = (Ok b, w') ->
  exists a w1, m w = (Ok a, w1) /\ k a w1 = (Ok b, w').
Proof.
  unfold bind. destruct (m w) as [[a|e] w1]; [|discriminate].
  intros H. exists a, w1. auto.
Qed.

Lemma detects_cut_detected {A} (m : M A) : detects m -> cut_detected m.
Proof.
  intros H w a w' c Hm [Hc Hc'].
  destruct (H w a w' c Hc Hm) as [[Hle _]|Hr]; [lia | exact Hr].
Qed.

Lemma detects_ret {A} (a : A) : detects (ret a).
Proof.
  intros w a' w' c Hc H. injection H as <- <-. left. split; auto.
Qed.

Lemma detects_raise {A} (e : error) : detects (@raise A e).
Proof. intros w a w' c Hc H. discriminate. Qed.

Lemma detects_lift {A} (r : result A) : detects (lift r).
Proof. destruct r; [apply detects_ret | apply detects_raise]. Qed.

Lemma detects_tell : detects tell.
Proof.
  intros w a w' c Hc H. injection H as <- <-. left. split; auto.
Qed.

Lemma detects_print (line : string) : detects (print line).
Proof.
  intros w a w' c Hc H. injection H as <- <-. left. split; auto.
Qed.

Lemma detects_pprint (p : dict) : detects (pprint p).
Proof.
  intros w a w' c Hc H. injection H as <- <-. left. split; auto.
Qed.

Lemma survives_bind {A B} (m : M A) (k : A -> M B)
    (P : A -> Prop) (E : error -> Prop) :
  survives m -> post m P E ->
  (forall a, P a -> detects (k a)) ->
  (forall a, fails_at_end (k a)) ->
  detects (bind m k).
Proof.
  intros Hm Hpost Hk Hend w b w' c Hc H.
  destruct (bind_inv _ _ _ _ _ H) as (a & w1 & Ha & Hb).
  pose proof (Hpost w) as HP. rewrite Ha in HP. simpl in HP.
  destruct (Hm w a w1 c Hc Ha) as [[Hc1 Hcut]|[Hr|(a' & w'' & Hcut & He)]].
  - destruct (Hk a HP w1 b w' c Hc1 Hb) as [[Hc' Hcut']|Hr].
    + left. split; [exact Hc'|].
      rewrite (bind_Ok _ _ _ _ _ Hcut). exact Hcut'.
    + right. apply (raises_bind_r _ _ _ _ _ Hcut Hr).
  - right. apply raises_bind_l. exact Hr.
  - right. apply (raises_bind_r _ _ _ _ _ Hcut). apply Hend. exact He.
Qed.

Lemma detects_bind_post {A B} (m : M A) (k : A -> M B)
    (P : A -> Prop) (E : error -> Prop) :
  detects m -> post m P E ->
  (forall a, P a -> detects (k a)) ->
  detects (bind m k).
Proof.
  intros Hm Hpost Hk w b w' c Hc H.
  destruct (bind_inv _ _ _ _ _ H) as (a & w1 & Ha & Hb).
  pose proof (Hpost w) as HP. rewrite Ha in HP. simpl in HP.
  destruct (Hm w a w1 c Hc Ha) as [[Hc1 Hcut]|Hr].
  - destruct (Hk a HP w1 b w' c Hc1 Hb) as [[Hc' Hcut']|Hr].
    + left. split; [exact Hc'|].
      rewrite (bind_Ok _ _ _ _ _ Hcut). exact Hcut'.
    + right. apply (raises_bind_r _ _ _ _ _ Hcut Hr).
  - right. apply raises_bind_l. exact Hr.
Qed.

Lemma post_any {A} (m : M A) :
  post m (fun _ => True) (fun _ => True).
Proof. intros w. destruct (fst (m w)); exact I. Qed.

Lemma detects_bind {A B} (m : M A) (k : A -> M B) :
  detects m -> (forall a, detects (k a)) -> detects (bind m k).
Proof.
  intros Hm Hk.
  apply (detects_bind_post m k _ _ Hm (post_any m)). auto.
Qed.

Lemma detects_repeatM {A} (n : nat) (m : M A) :
  detects m -> detects (repeatM n m).
Proof.
  intros Hm. induction n as [|n IH]; simpl.
  - apply detects_ret.
  - apply detects_bind; [exact Hm | intros x].
    apply detects_bind; [exact IH | intros xs]. apply detects_ret.
Qed.

Lemma detects_raise_FormatError {A} (t : string) (args : list fmtarg) :
  detects (@raise_FormatError A t args).
Proof.
  unfold raise_FormatError.
  apply detects_bind; [apply detects_lift | intros msg].
  apply detects_raise.
Qed.

(** What is left of the cut file. *)
Lemma remaining_cut (c : nat) (w : world) :
  remaining (cut c w) = firstn (c - fpos w) (remaining w).
Proof. unfold remaining, cut. simpl. apply skipn_firstn_comm. Qed.

(** A read from the cut file returns what it returned from the whole
    file when that lies before the cut, and otherwise fewer bytes than
    asked for, up to the end of the cut file. *)
Lemma read_cut (n : Z) (w : world) (b : list byte) (w' : world)
    (c : nat) :
  0 <= n ->
  (fpos w <= c)%nat ->
  read n w = (Ok b, w') ->
  ((fpos w' <= c)%nat /\ read n (cut c w) = (Ok b, cut c w'))
  \/ exists b' w'',
       read n (cut c w) = (Ok b', w'')
       /\ (length b' < Z.to_nat n)%nat
       /\ remaining w'' = [].
Proof.
  intros Hn Hc H.
  destruct (read_Ok _ _ _ _ Hn H) as (Hs & Hb & Hw').
  rewrite (read_nonneg n (cut c w) Hn Hs), remaining_cut.
  rewrite firstn_firstn.
  assert (Hlen : length b = Nat.min (Z.to_nat n) (length (remaining w)))
    by (rewrite Hb; apply length_firstn).
  destruct (Nat.le_gt_cases (fpos w + length b) c) as [Hle|Hgt].
  - left. split; [rewrite Hw'; exact Hle|].
    assert (Hsame : firstn (Nat.min (Z.to_nat n) (c - fpos w))
                      (remaining w) = b).
    { rewrite Hb.
      destruct (Nat.le_gt_cases (Z.to_nat n) (c - fpos w)).
      - rewrite Nat.min_l by assumption. reflexivity.
      - rewrite Nat.min_r by lia.
        rewrite !firstn_all2 by lia. reflexivity. }
    rewrite Hsame, Hw'. reflexivity.
  - right. eexists _, _. split; [reflexivity|].
    rewrite Nat.min_r by lia.
    assert (Hl : length (firstn (c - fpos w) (remaining w))
                 = (c - fpos w)%nat)
      by (rewrite length_firstn; lia).
    split; [lia|].
    rewrite Hl. unfold remaining, cut. cbn [fdata fpos stdout].
    apply skipn_all2. rewrite length_firstn. lia.
Qed.

(** A read followed by steps that raise on a short buffer. *)
Lemma detects_read_then {A} (n : Z) (k : list byte -> M A) :
  0 <= n ->
  (forall b, detects (k b)) ->
  (forall b w, (length b < Z.to_nat n)%nat -> raises (k b) w) ->
  detects (bind (read n) k).
Proof.
  intros Hn Hk Hshort w a w' c Hc H.
  destruct (bind_inv _ _ _ _ _ H) as (b & w1 & Hb & Ha).
  destruct (read_cut n w b w1 c Hn Hc Hb)
    as [[Hc1 Hcut]|(b' & w'' & Hcut & Hlen & _)].
  - destruct (Hk b w1 a w' c Hc1 Ha) as [[Hc' Hcut']|Hr].
    + left. split; [exact Hc'|].
      rewrite (bind_Ok _ _ _ _ _ Hcut). exact Hcut'.
    + right. apply (raises_bind_r _ _ _ _ _ Hcut Hr).
  - right. apply (raises_bind_r _ _ _ _ _ Hcut). apply Hshort. exact Hlen.
Qed.

Lemma fails_at_end_read_then {A} (n : Z) (k : list byte -> M A) :
  0 < n -> served n ->
  (forall b w, (length b < Z.to_nat n)%nat -> raises (k b) w) ->
  fails_at_end (bind (read n) k).
Proof.
  intros Hn Hs Hshort w Hend.
  apply (raises_bind_r _ _ _ _ _
           (read_short n w ltac:(lia) Hs ltac:(rewrite Hend; simpl; lia))).
  apply Hshort. rewrite Hend. simpl. lia.
Qed.

Lemma fails_at_end_bind {A B} (m : M A) (k : A -> M B) :
  fails_at_end m -> fails_at_end (bind m k).
Proof. intros H w Hend. apply raises_bind_l. apply H. exact Hend. Qed.

(** The steps after the read of a 32-bit integer raise on fewer than
    four bytes. *)
Lemma unpack_i_short_raises {A} (k : Z -> M A) (b : list byte)
    (w : world) :
  (length b < Z.to_nat 4)%nat -> raises (bind (lift (unpack_i b)) k) w.
Proof.
  intros H. rewrite unpack_i_short by exact H.
  exists StructError, w. reflexivity.
Qed.

Lemma bytes_eqb_short (b tag : list byte) :
  (length b < length tag)%nat -> bytes_eqb b tag = false.
Proof.
  intros H. apply bytes_eqb_neq. intros ->. lia.
Qed.

Create HintDb detects.
#[local] Hint Resolve detects_ret detects_raise detects_lift detects_tell
  detects_print detects_pprint detects_repeatM detects_raise_FormatError
  : detects.

Ltac detects_step :=
  match goal with
  | |- detects (bind (read _) _) =>
      apply detects_read_then; [lia | intros ? | intros ? ? ?]
  | |- detects (bind _ _) => apply detects_bind; [| intros ?]
  | |- detects (if ?c then _ else _) => destruct c
  | |- detects _ => solve [auto with detects]
  | |- raises (bind (lift (unpack_i _)) _) _ =>
      apply unpack_i_short_raises; assumption
  end.

Ltac detects_auto := repeat detects_step.

Lemma detects_non_neg : detects non_neg.
Proof. unfold non_neg. detects_auto. Qed.
#[local] Hint Resolve detects_non_neg : detects.

Lemma detects_nelems : detects nelems.
Proof. exact detects_non_neg. Qed.
#[local] Hint Resolve detects_nelems : detects.

Lemma detects_dim_length : detects dim_length.
Proof. unfold dim_length. detects_auto. Qed.
#[local] Hint Resolve detects_dim_length : detects.

Lemma detects_nc_type : detects nc_type.
Proof.
  unfold nc_type.
  apply detects_read_then; [lia | intros b | intros b w Hb].
  - apply detects_bind; [apply detects_lift | intros x].
    destruct (negb _); [apply detects_raise_FormatError|].
    repeat match goal with
           | |- detects (if ?c then _ else _) => destruct c
           end; apply detects_ret.
  - apply unpack_i_short_raises. exact Hb.
Qed.
#[local] Hint Resolve detects_nc_type : detects.

Lemma fails_at_end_non_neg : fails_at_end non_neg.
Proof.
  unfold non_neg.
  apply fails_at_end_read_then; [lia | exact served_4 | intros b w Hb].
  apply unpack_i_short_raises. exact Hb.
Qed.

Lemma fails_at_end_dim_length : fails_at_end dim_length.
Proof.
  unfold dim_length.
  apply fails_at_end_read_then; [lia | exact served_4 | intros b w Hb].
  apply unpack_i_short_raises. exact Hb.
Qed.

Lemma fails_at_end_nc_type : fails_at_end nc_type.
Proof.
  unfold nc_type.
  apply fails_at_end_read_then; [lia | exact served_4 | intros b w Hb].
  apply unpack_i_short_raises. exact Hb.
Qed.

(** A value array that the end of the file cuts raises. *)
Lemma detects_values (type : string) (nelems : Z) :
  In type known_types -> 0 <= nelems -> detects (values type nelems).
Proof.
  intros Hin Hn w v w' c Hc H.
  destruct (span_nonneg type nelems Hin Hn) as [Hx Hp].
  assert (H0 : 0 <= 4 * ((nelems * width type + 3) / 4)) by lia.
  destruct (read (4 * ((nelems * width type + 3) / 4)) w)
    as [[b|e] w1] eqn:Hread;
    [|rewrite (values_refused _ _ _ _ _ Hin Hread) in H; discriminate].
  rewrite (values_read _ _ _ _ _ Hin Hn Hread) in H.
  destruct (Nat.eqb_spec (length b)
              (Z.to_nat (4 * ((nelems * width type + 3) / 4))))
    as [Hlen|Hlen]; [|discriminate].
  injection H as <- <-.
  destruct (read_cut _ w b w1 c H0 Hc Hread)
    as [[Hc1 Hcut]|(b' & w'' & Hcut & Hshort & _)].
  - left. split; [exact Hc1|].
    rewrite (values_read _ _ _ _ _ Hin Hn Hcut), Hlen, Nat.eqb_refl.
    reflexivity.
  - right. exists StructError, w''.
    rewrite (values_read _ _ _ _ _ Hin Hn Hcut).
    destruct (Nat.eqb_spec (length b')
                (Z.to_nat (4 * ((nelems * width type + 3) / 4))));
      [lia | reflexivity].
Qed.

(** A name that the end of the file cuts raises, or is returned from
    what is left of its span. *)
Lemma survives_name : survives name.
Proof.
  intros w s w' c Hc H. unfold raises, name in H |- *.
  destruct (bind_inv _ _ _ _ _ H) as (b & w1 & Hb & H1).
  destruct (read_cut 4 w b w1 c ltac:(lia) Hc Hb)
    as [[Hc1 Hcut]|(b' & w'' & Hcut & Hlen & _)];
    rewrite (bind_Ok _ _ _ _ _ Hcut);
    [|right; left; rewrite unpack_i_short by exact Hlen;
      eexists _, _; reflexivity].
  destruct (unpack_i b) as [n|e] eqn:Eb; [|discriminate].
  rewrite bind_lift_Ok in H1 |- *.
  destruct (n <? 0) eqn:En;
    [destruct (raise_FormatError_raises _ _ _ _ _ H1)|].
  apply Z.ltb_ge in En. cbv zeta in H1 |- *.
  destruct (bind_inv _ _ _ _ _ H1) as (span & w2 & Hspan & H2).
  assert (H0 : 0 <= 4 * ((n + 3) / 4))
    by (destruct (span_bounds n En); lia).
  destruct (read_cut _ w1 span w2 c H0 Hc1 Hspan)
    as [[Hc2 Hcut2]|(span' & w2' & Hcut2 & _ & Hend)];
    rewrite (bind_Ok _ _ _ _ _ Hcut2).
  - left.
    destruct (str_utf8 (slice_to n span)) as [text|e]; [|discriminate].
    rewrite bind_lift_Ok in H2 |- *.
    destruct (negb (bytes_eqb (slice_from n span) _)); [discriminate|].
    injection H2 as <- <-. split; [exact Hc2 | reflexivity].
  - right.
    destruct (str_utf8 (slice_to n span')) as [text|e].
    + rewrite bind_lift_Ok.
      destruct (negb (bytes_eqb (slice_from n span') _)).
      * left. eexists _, _. reflexivity.
      * right. exists text, w2'. split; [reflexivity | exact Hend].
    + left. exists e, w2'. reflexivity.
Qed.

Lemma detects_dim : detects dim.
Proof.
  unfold dim.
  apply (survives_bind _ _ _ _ survives_name (post_any name)).
  - intros n _. detects_auto.
  - intros n. apply fails_at_end_bind, fails_at_end_dim_length.
Qed.
#[local] Hint Resolve detects_dim : detects.

Lemma detects_attr : detects attr.
Proof.
  unfold attr.
  apply (survives_bind _ _ _ _ survives_name (post_any name)).
  - intros attr_name _.
    apply (detects_bind_post _ _ _ _ detects_nc_type nc_type_post).
    intros type Ht.
    apply (detects_bind_post _ _ _ _ detects_nelems non_neg_post).
    intros n Hn.
    apply detects_bind; [apply detects_values; [exact Ht | apply Hn]|].
    intros vs. apply detects_ret.
  - intros attr_name. apply fails_at_end_bind, fails_at_end_nc_type.
Qed.
#[local] Hint Resolve detects_attr : detects.

(** A tag or a count word of fewer than four bytes is neither [ZERO]
    nor the tag of a list. *)
Ltac short_tag b H :=
  rewrite ?(bytes_eqb_short b zeros4 H);
  rewrite ?(bytes_eqb_short b [x00; x00; x00; x0a] H);
  rewrite ?(bytes_eqb_short b [x00; x00; x00; x0b] H);
  rewrite ?(bytes_eqb_short b [x00; x00; x00; x0c] H);
  change (negb false) with true; cbv iota.

Lemma detects_att_list : detects att_list.
Proof.
  unfold att_list.
  apply detects_read_then; [lia | intros b | intros b w Hb].
  - destruct (bytes_eqb b zeros4).
    + apply detects_read_then; [lia | intros n | intros n w Hn].
      * detects_auto.
      * short_tag n Hn. apply raises_raise_FormatError.
    + detects_auto.
  - short_tag b Hb. apply raises_raise_FormatError.
Qed.
#[local] Hint Resolve detects_att_list : detects.

Lemma detects_var : detects var.
Proof.
  unfold var.
  apply (survives_bind _ _ _ _ survives_name (post_any name)).
  - intros var_name _. detects_auto.
  - intros var_name. apply fails_at_end_bind, fails_at_end_non_neg.
Qed.
#[local] Hint Resolve detects_var : detects.

Lemma bytes_getitem_short (b : list byte) :
  (length b < 4)%nat -> bytes_getitem b 3 = Raise IndexError.
Proof.
  intros H. unfold bytes_getitem.
  rewrite (proj2 (nth_error_None b 3)) by lia. reflexivity.
Qed.

Lemma detects_magic (p : dict) : detects (magic p).
Proof.
  unfold magic.
  apply detects_read_then; [lia | intros b | intros b w Hb].
  - detects_auto.
  - destruct (negb _); [apply raises_raise|].
    rewrite bytes_getitem_short by exact Hb.
    exists IndexError, w. reflexivity.
Qed.

Lemma detects_numrecs (p : dict) : detects (numrecs p).
Proof. unfold numrecs. detects_auto. Qed.

Lemma detects_dim_list (p : dict) : detects (dim_list p).
Proof.
  unfold dim_list.
  apply detects_read_then; [lia | intros b | intros b w Hb].
  - destruct (bytes_eqb b zeros4).
    + apply detects_read_then; [lia | intros n | intros n w Hn].
      * detects_auto.
      * short_tag n Hn. apply raises_raise_FormatError.
    + detects_auto.
  - short_tag b Hb. apply raises_raise_FormatError.
Qed.

Lemma detects_gatt_list (p : dict) : detects (gatt_list p).
Proof. unfold gatt_list. detects_auto. Qed.

Lemma detects_var_list (p : dict) : detects (var_list p).
Proof.
  unfold var_list.
  apply detects_read_then; [lia | intros b | intros b w Hb].
  - destruct (bytes_eqb b zeros4).
    + apply detects_read_then; [lia | intros n | intros n w Hn].
      * detects_auto.
      * short_tag n Hn. apply raises_raise_FormatError.
    + detects_auto.
  - short_tag b Hb. exists (NameError "attribute"), w. reflexivity.
Qed.

Lemma detects_header (p : dict) : detects (header p).
Proof.
  unfold header.
  apply detects_bind; [apply detects_magic | intros p1].
  apply detects_bind; [apply detects_numrecs | intros p2].
  apply detects_bind; [apply detects_dim_list | intros p3].
  apply detects_bind; [apply detects_gatt_list | intros p4].
  apply detects_var_list.
Qed.

Lemma values_short (type : string) (nelems : Z) (w : world) :
  In type known_types ->
  0 <= nelems ->
  served (4 * ((nelems * width type + 3) / 4)) ->
  (length (remaining w)
   < Z.to_nat (4 * ((nelems * width type + 3) / 4)))%nat ->
  values type nelems w
  = (Raise StructError,
     World (fdata w) (fpos w + length (remaining w)) (stdout w)).
Proof.
  intros Hin Hn Hs Hshort.
  destruct (span_nonneg type nelems Hin Hn) as [Hx Hp].
  assert (H0 : 0 <= 4 * ((nelems * width type + 3) / 4)) by lia.
  rewrite (values_read _ _ _ _ _ Hin Hn (read_short _ w H0 Hs Hshort)).
  destruct (Nat.eqb_spec (length (remaining w))
              (Z.to_nat (4 * ((nelems * width type + 3) / 4))));
    [lia | reflexivity].
Qed.

(** C5. A file that ends inside a field is reported by [struct.error],
    which is no [FormatError], and by [name] not at all.  When fewer
    than four bytes are left, every step that reads a 32-bit integer
    ([non_neg], [nelems], the length word of [name], [dim_length],
    [nc_type], [numrecs]) raises [struct.error]; when fewer bytes are
    left than the padded span of a value array whose buffer is granted,
    [values] raises [struct.error].  [name] may return the text of a
    span that the end of the file cuts, but what is decoded around a
    name returns no value from a cut file: whenever [dim], [attr],
    [var], one of the three lists, [header] or [parse] returns on a
    file, it raises on that file cut anywhere inside the bytes it
    consumed. *)
Theorem truncated_field_raises :
  (forall w, (length (remaining w) < 4)%nat ->
     fst (non_neg w) = Raise StructError
     /\ fst (nelems w) = Raise StructError
     /\ fst (name w) = Raise StructError
     /\ fst (dim_length w) = Raise StructError
     /\ fst (nc_type w) = Raise StructError
     /\ forall p, fst (numrecs p w) = Raise StructError)
  /\ (forall type nelems w,
        In type known_types ->
        0 <= nelems ->
        served (4 * ((nelems * width type + 3) / 4)) ->
        (length (remaining w)
         < Z.to_nat (4 * ((nelems * width type + 3) / 4)))%nat ->
        fst (values type nelems w) = Raise StructError)
  /\ cut_detected dim
  /\ cut_detected attr
  /\ cut_detected var
  /\ cut_detected att_list
  /\ (forall p, cut_detected (dim_list p) /\ cut_detected (gatt_list p)
                /\ cut_detected (var_list p) /\ cut_detected (header p))
  /\ (forall content out h w' c,
        parse content out = (Ok h, w') ->
        (c < fpos w')%nat ->
        exists e w'', parse (firstn c content) out = (Raise e, w'')).
Proof.
  split.
  { intros w H.
    destruct (integer_field_short w H) as (H1 & H2 & H3 & H4 & H5).
    repeat split; assumption. }
  split.
  { intros type nelems w Hin Hn Hs Hshort.
    rewrite (values_short _ _ _ Hin Hn Hs Hshort). reflexivity. }
  split; [apply detects_cut_detected, detects_dim|].
  split; [apply detects_cut_detected, detects_attr|].
  split; [apply detects_cut_detected, detects_var|].
  split; [apply detects_cut_detected, detects_att_list|].
  split.
  { intros p. repeat split; apply detects_cut_detected;
      [ apply detects_dim_list | apply detects_gatt_list
      | apply detects_var_list | apply detects_header ]. }
  intros content out h w' c H Hc.
  assert (Hd : detects (p <- header [] ;; pprint p ;;; ret p)%py).
  { apply detects_bind; [apply detects_header | intros p].
    apply detects_bind; [apply detects_pprint | intros _].
    apply detects_ret. }
  apply (detects_cut_detected _ Hd (open_file content out) h w' c H).
  simpl. lia.
Qed.

End Machine.

(** * Instances

    The properties above hold on every machine; the instances below run
    on [small_machine], which grants no buffer above [alloc_floor]. *)

Lemma numrecs_below_minus_one_witness :
  numrecs small_machine [("version", VInt 1)]
    (World ([x43; x44; x46; x01] ++ [xff; xff; xff; xfe] ++ []) 4 [])
  = (Raise (KeyError "%d"),
     World ([x43; x44; x46; x01] ++ [xff; xff; xff; xfe] ++ []) 8 []).
Proof.
  apply (numrecs_below_minus_one_raises_KeyError small_machine
           [("version", VInt 1)] [x43; x44; x46; x01] [xff; xff; xff; xfe] [] []).
  - reflexivity.
  - vm_compute. reflexivity.
Defined.

Lemma var_list_wrong_tag_witness :
  var_list small_machine [] (World ([] ++ [x00; x00; x00; x07] ++ []) 0 [])
  = (Raise (NameError "attribute"),
     World ([] ++ [x00; x00; x00; x07] ++ []) 4 []).
Proof.
  apply (var_list_wrong_tag_raises_NameError small_machine
           [] [] [x00; x00; x00; x07] [] []).
  - reflexivity.
  - discriminate.
  - discriminate.
Defined.

(** The name "x" padded to four bytes, followed by one more byte. *)
Lemma name_padding_checked_after_text_witness :
  let w := World [x00; x00; x00; x01; x78; x00; x00; x00; x05] 0 [] in
  fpos (snd (name small_machine w)) = 8%nat
  /\ fst (name small_machine w) = Ok "x".
Proof.
  pose (w := World [x00; x00; x00; x01; x78; x00; x00; x00; x05] 0 []).
  destruct (name_padding_checked_after_text small_machine w 1)
    as (_ & _ & _ & Hpos & Hok & _).
  - reflexivity.
  - lia.
  - vm_compute. lia.
  - split; [exact Hpos | apply Hok; reflexivity].
Defined.

(** A name of declared length 1 whose byte is not UTF-8 and whose padding
    is not zero: the failure is the decoding error, not the padding one.
    A name of declared length 1 in a file that ends after its one byte:
    one byte is consumed after the length word, not four. *)
Lemma name_bad_padding_not_reported :
  let w := World [x00; x00; x00; x01; xff; x01; x00; x00] 0 [] in
  let short := World [x00; x00; x00; x01; x61] 0 [] in
  unpack_i (firstn 4 (remaining w)) = Ok 1
  /\ skipn 1 (firstn 4 (skipn 4 (remaining w))) = [x01; x00; x00]
  /\ fst (name small_machine w) = Raise UnicodeDecodeError
  /\ fst (name small_machine w) <> Raise (FormatError "wrong padding in name")
  /\ name small_machine short
     = (Ok "a", World [x00; x00; x00; x01; x61] 5 []).
Proof.
  vm_compute. repeat split; try reflexivity. discriminate.
Qed.

(** A file of two bytes where an integer is due; a value array of three
    shorts in a file that holds two of them; and the header
    [small_header_bytes], which decodes, cut after its first thirty
    bytes. *)
Lemma truncated_field_witness :
  fst (non_neg small_machine (World [x00; x00] 0 [])) = Raise StructError
  /\ fst (numrecs small_machine [] (World [x00; x00] 0 []))
     = Raise StructError
  /\ fst (values small_machine "short" 3
            (World [x00; x01; xff; xfe] 0 []))
     = Raise StructError
  /\ exists e w,
       parse small_machine (firstn 30 small_header_bytes) [] = (Raise e, w).
Proof.
  destruct (truncated_field_raises small_machine)
    as (Hint & Hvalues & _ & _ & _ & _ & _ & Hparse).
  destruct (Hint (World [x00; x00] 0 []) ltac:(vm_compute; lia))
    as (H1 & _ & _ & _ & _ & H6).
  split; [exact H1|].
  split; [exact (H6 [])|].
  split.
  - apply Hvalues; [simpl; tauto | lia | reflexivity | vm_compute; lia].
  - apply (Hparse small_header_bytes [] small_header
             (snd (parse small_machine small_header_bytes []))).
    + vm_compute. reflexivity.
    + vm_compute. lia.
Defined.

(** The length word announces four bytes and two are left: [name] returns
    the two.  A file that ends inside an integer does fail, with an
    exception that is no [FormatError]. *)
Lemma truncated_name_is_returned :
  name small_machine (World [x00; x00; x00; x04; x61; x62] 0 [])
  = (Ok "ab", World [x00; x00; x00; x04; x61; x62] 6 [])
  /\ fst (non_neg small_machine (World [x00; x00] 0 []))
     = Raise StructError
  /\ (forall msg, fst (non_neg small_machine (World [x00; x00] 0 []))
                  <> Raise (FormatError msg)).
Proof. vm_compute. repeat split. discriminate. Qed.



Lemma parse_returns_header_witness : is_header small_header.
Proof.
  apply (parse_returns_header small_machine small_header_bytes []
           small_header (snd (parse small_machine small_header_bytes []))).
  vm_compute. reflexivity.
Defined.

(** The empty header, and a header whose one global attribute declares
    2^31 - 1 doubles. *)
Lemma parse_raises_header_errors_witness :
  NameError "p" <> ValueError
  /\ fst (parse small_machine huge_attribute_bytes []) = Raise MemoryError
  /\ MemoryError <> ValueError.
Proof.
  split.
  - apply (parse_raises_header_errors small_machine empty_header_bytes []
             (NameError "p")
             (snd (parse small_machine empty_header_bytes []))).
    vm_compute. reflexivity.
  - split; [vm_compute; reflexivity|].
    apply (parse_raises_header_errors small_machine huge_attribute_bytes []
             MemoryError
             (snd (parse small_machine huge_attribute_bytes []))).
    vm_compute. reflexivity.
Defined.

Lemma count_field_decoded_witness :
  fst (non_neg small_machine
         (World ([x43] ++ [xff; xff; xff; xf9] ++ []) 1 []))
  = Raise (FormatError "expected NON NEG, but found -7")
  /\ fst (dim_length small_machine
            (World ([x43] ++ [x00; x00; x01; x00] ++ []) 1 []))
     = Ok 256.
Proof.
  split.
  - destruct (count_field_decoded small_machine
                [x43] [xff; xff; xff; xf9] [] [] eq_refl)
      as [H _]. exact (f_equal fst H).
  - destruct (count_field_decoded small_machine
                [x43] [x00; x00; x01; x00] [] [] eq_refl)
      as [_ H]. exact (f_equal fst H).
Defined.

Lemma nc_type_decoded_witness :
  fst (nc_type small_machine (World ([] ++ [x00; x00; x00; x05] ++ []) 0 []))
  = Ok "float"
  /\ fst (nc_type small_machine
            (World ([] ++ [x00; x00; x00; x07] ++ []) 0 []))
     = Raise (FormatError "invalid nc_type code 7").
Proof.
  split.
  - exact (f_equal fst (nc_type_decoded small_machine
                          [] [x00; x00; x00; x05] [] [] eq_refl)).
  - exact (f_equal fst (nc_type_decoded small_machine
                          [] [x00; x00; x00; x07] [] [] eq_refl)).
Defined.

Lemma parse_rejects_bad_magic_witness :
  parse small_machine [] [Line "before"]
  = (Raise (FormatError "Wrong magic number"), World [] 0 [Line "before"]).
Proof.
  apply (parse_rejects_bad_magic small_machine [] [Line "before"]).
  discriminate.
Defined.

Lemma parse_short_file_witness :
  fst (parse small_machine [x43; x44; x46] []) = Raise IndexError
  /\ fst (parse small_machine [x43; x44] [])
     = Raise (FormatError "Wrong magic number").
Proof.
  split.
  - apply (parse_short_file small_machine [x43; x44; x46] []). simpl; lia.
  - apply (parse_short_file small_machine [x43; x44] []). simpl; lia.
Defined.

Lemma numrecs_stores_count_witness :
  numrecs small_machine [("version", VInt 1)]
    (World ([x43; x44; x46; x01] ++ [x00; x00; x00; x03] ++ []) 4 [])
  = (Ok [("version", VInt 1); ("numrecs", VInt 3)],
     World ([x43; x44; x46; x01] ++ [x00; x00; x00; x03] ++ []) 8 []).
Proof.
  apply (numrecs_stores_count small_machine [("version", VInt 1)]
           [x43; x44; x46; x01] [x00; x00; x00; x03] [] []).
  - reflexivity.
  - vm_compute. discriminate.
Defined.

Lemma absent_list_with_count_witness :
  fst (att_list small_machine
         (World ([] ++ zeros4 ++ [x00; x00; x00; x01] ++ []) 0 []))
  = Raise (FormatError
             "expected ABSENT for att_list, but found b'\x00\x00\x00\x01'").
Proof.
  destruct (absent_list_with_count_raises_FormatError small_machine
              [] [] [x00; x00; x00; x01] [] [] eq_refl ltac:(discriminate))
    as (_ & H & _).
  exact (f_equal fst H).
Defined.

Lemma wrong_tag_witness :
  fst (dim_list small_machine []
         (World ([] ++ [x00; x00; x00; x0b] ++ []) 0 []))
  = Raise (FormatError
             "expected NC_DIMENSON for dim_list, but found b'\x00\x00\x00\x0b'").
Proof.
  destruct (wrong_tag_raises_FormatError small_machine
              [] [] [x00; x00; x00; x0b] [] [] eq_refl ltac:(discriminate))
    as (H & _).
  exact (f_equal fst (H ltac:(discriminate))).
Defined.

Lemma var_list_prints_witness :
  stdout (snd (var_list small_machine []
                 (World ([x43] ++ [x00; x00; x00; x0b]
                         ++ [x00; x00; x00; x02] ++ []) 1
                        [Line "before"])))
  = [Line "before"; Line "2 vars at 9"].
Proof.
  apply (var_list_prints_count_and_offset small_machine [] [x43]
           [x00; x00; x00; x02] [] [Line "before"]).
  - reflexivity.
  - vm_compute. discriminate.
Defined.

(** Two ints in a file of six bytes, and 2^31 - 1 doubles. *)
Lemma values_exact_or_raises_witness :
  fst (values small_machine "int" 2
         (World [x00; x00; x00; x01; x00; x00] 0 []))
  = Raise StructError
  /\ (StructError = StructError
      \/ (StructError = MemoryError \/ StructError = OverflowError)
         /\ refusal small_machine (4 * ((2 * width "int" + 3) / 4))
            = Some StructError).
Proof.
  split; [vm_compute; reflexivity|].
  apply (values_exact_or_raises small_machine "int" 2
           (World [x00; x00; x00; x01; x00; x00] 0 []));
    [simpl; tauto | lia].
Defined.

(** Three shorts in a file of six bytes, and 2^31 - 1 doubles in a file
    of four bytes. *)
Lemma values_short_input_witness :
  values small_machine "short" 3
    (World [x00; x01; xff; xfe; x00; x07] 0 [])
  = (Raise StructError, World [x00; x01; xff; xfe; x00; x07] 6 [])
  /\ values small_machine "double" 2147483647
       (World [x00; x00; x00; x00] 0 [])
     = (Raise MemoryError, World [x00; x00; x00; x00] 0 []).
Proof.
  split.
  - apply (values_short_input_raises small_machine "short" 3
             (World [x00; x01; xff; xfe; x00; x07] 0 []));
      [simpl; tauto | lia | vm_compute; lia].
  - assert (Hshort : (length (remaining (World [x00; x00; x00; x00] 0 []))
                      < Z.to_nat (4 * ((2147483647 * width "double" + 3)
                                       / 4)))%nat).
    { change (4 * ((2147483647 * width "double" + 3) / 4))
        with 17179869176.
      change (length (remaining (World [x00; x00; x00; x00] 0 [])))
        with 4%nat.
      lia. }
    exact (proj1 (values_short_input_raises small_machine "double"
                    2147483647 (World [x00; x00; x00; x00] 0 [])
                    ltac:(simpl; tauto) ltac:(lia) Hshort)).
Defined.

Lemma values_unknown_type_witness :
  values small_machine "long" 1 (World [x00; x00; x00; x01] 0 [])
  = (Raise (UnboundLocalError "l"), World [x00; x00; x00; x01] 0 []).
Proof.
  apply (values_unknown_type_raises_UnboundLocalError small_machine "long" 1).
  simpl. intros H.
  repeat (destruct H as [H|H]; [discriminate|]). exact H.
Defined.

(** Three shorts followed by padding 99 99, and by padding 00 00. *)
Lemma values_ignore_padding_witness :
  fst (values small_machine "short" 3
         (World [x00; x01; xff; xfe; x00; x07; x99; x99] 0 []))
  = fst (values small_machine "short" 3
           (World [x00; x01; xff; xfe; x00; x07; x00; x00] 0 [])).
Proof.
  apply (values_ignore_padding small_machine "short" 3).
  - simpl; tauto.
  - lia.
  - vm_compute. lia.
  - vm_compute. lia.
  - reflexivity.
Defined.

Lemma name_negative_length_witness :
  fst (name small_machine (World ([] ++ [xff; xff; xff; xff] ++ [x61]) 0 []))
  = Raise (FormatError "expected name nelems, but found -1").
Proof.
  exact (f_equal fst
           (name_negative_length_raises_FormatError small_machine
              [] [xff; xff; xff; xff] [x61] []
              eq_refl ltac:(vm_compute; reflexivity))).
Defined.

(** The list of the one attribute "a", the int 7. *)
Lemma att_list_returns_list_witness :
  exists l,
    VList [VTuple [VStr "a"; VTuple [VInt 7]]] = VList l
    /\ (8 <= length (remaining (World one_attribute_bytes 0 [])))%nat
    /\ firstn 4 (remaining (World one_attribute_bytes 0 []))
       = [x00; x00; x00; x0c]
    /\ Z.of_nat (length l)
       = be_sint (firstn 4 (skipn 4
                    (remaining (World one_attribute_bytes 0 []))))
    /\ run_list (attr small_machine)
         (World (fdata (World one_attribute_bytes 0 []))
                (fpos (World one_attribute_bytes 0 []) + 8)
                (stdout (World one_attribute_bytes 0 [])))
         l (World one_attribute_bytes 28 [])
    /\ Forall is_attr l.
Proof.
  apply (att_list_returns_list small_machine
           (World one_attribute_bytes 0 [])).
  vm_compute. reflexivity.
Defined.

(** The list of the one dimension "x" of length 5: twenty bytes. *)
Lemma dim_list_decodes_witness :
  dim_list small_machine []
    (World ([x43] ++ [x00; x00; x00; x0a] ++ [x00; x00; x00; x01]
            ++ flat_map dim_record_bytes
                 [([x00; x00; x00; x01], [x78], [x00; x00; x00; x05])]
            ++ [xff])
           1 [])
  = (Ok [("dim_list", VList [VTuple [VStr "x"; VInt 5]])],
     World ([x43] ++ [x00; x00; x00; x0a] ++ [x00; x00; x00; x01]
            ++ flat_map dim_record_bytes
                 [([x00; x00; x00; x01], [x78], [x00; x00; x00; x05])]
            ++ [xff])
           21 []).
Proof.
  apply (dim_list_decodes small_machine [] [x43] [x00; x00; x00; x01] [xff] []
           [([x00; x00; x00; x01], [x78], [x00; x00; x00; x05])]).
  - reflexivity.
  - reflexivity.
  - constructor; [|constructor].
    repeat split; try reflexivity. vm_compute. discriminate.
Defined.

(** Version 1, three records, the one dimension "x" of length 5. *)
Lemma parse_decodes_dimension_header_witness :
  parse small_machine
    ([x43; x44; x46; x01] ++ [x00; x00; x00; x03]
     ++ [x00; x00; x00; x0a] ++ [x00; x00; x00; x01]
     ++ flat_map dim_record_bytes
          [([x00; x00; x00; x01], [x78], [x00; x00; x00; x05])]
     ++ [x00; x00; x00; x0c] ++ zeros4
     ++ zeros4 ++ zeros4) []
  = (Ok [("version", VInt 1); ("numrecs", VInt 3);
         ("dim_list", VList [VTuple [VStr "x"; VInt 5]]);
         ("gatt_list", VList []);
         ("var_list", VStr "absent")],
     World ([x43; x44; x46; x01] ++ [x00; x00; x00; x03]
            ++ [x00; x00; x00; x0a] ++ [x00; x00; x00; x01]
            ++ flat_map dim_record_bytes
                 [([x00; x00; x00; x01], [x78], [x00; x00; x00; x05])]
            ++ [x00; x00; x00; x0c] ++ zeros4
            ++ zeros4 ++ zeros4) 44
       [Pretty [("version", VInt 1); ("numrecs", VInt 3);
                ("dim_list", VList [VTuple [VStr "x"; VInt 5]]);
                ("gatt_list", VList []);
                ("var_list", VStr "absent")]]).
Proof.
  refine (parse_decodes_dimension_header small_machine
            x01 [x00; x00; x00; x03]
            [x00; x00; x00; x01]
            [([x00; x00; x00; x01], [x78], [x00; x00; x00; x05])] []
            _ _ _ _ _ _).
  - left; reflexivity.
  - reflexivity.
  - vm_compute. discriminate.
  - reflexivity.
  - reflexivity.
  - constructor; [|constructor].
    repeat split; try reflexivity. vm_compute. discriminate.
Defined.

(** The attribute "a" of three shorts, 1, -2 and 7, padded from six to
    eight bytes. *)
Lemma attr_decodes_witness :
  attr small_machine
    (World ([x43]
            ++ ([x00; x00; x00; x01] ++ [x61] ++ name_padding 1
                ++ [x00; x00; x00; x03] ++ [x00; x00; x00; x03]
                ++ [x00; x01; xff; xfe; x00; x07; x00; x00])
            ++ [xff]) 1 [])
  = (Ok (VTuple [VStr "a"; VTuple [VInt 1; VInt (-2); VInt 7]]),
     World ([x43]
            ++ ([x00; x00; x00; x01] ++ [x61] ++ name_padding 1
                ++ [x00; x00; x00; x03] ++ [x00; x00; x00; x03]
                ++ [x00; x01; xff; xfe; x00; x07; x00; x00])
            ++ [xff]) 25 []).
Proof.
  refine (proj1 (attr_decodes small_machine [x43]
                   [x00; x00; x00; x01] [x61]
                   [x00; x00; x00; x03] [x00; x00; x00; x03]
                   [x00; x01; xff; xfe; x00; x07; x00; x00] [xff] []
                   _ _ _ _ _ _ _ _ _)).
  - reflexivity.
  - reflexivity.
  - reflexivity.
  - reflexivity.
  - vm_compute. split; discriminate.
  - reflexivity.
  - vm_compute. discriminate.
  - reflexivity.
  - reflexivity.
Defined.
